(** * CSpxUspRecoEngineAdapter: the USP recognition-engine adapter

    A shallow embedding of [source/core/sr/usp_reco_engine_adapter.cpp]:
    endpoint / authentication resolution over the site's named properties,
    synthesis of the RIFF/WAVE stream header, the buffered audio writer and
    the dispatch of USP protocol messages to the site.

    The adapter's data members are the record [Adapter]; everything outside
    the object (the USP library, the site, the dump file) is the record
    [World].  Methods are computations in a state-and-exception monad over
    [Adapter * World]. *)

From Stdlib Require Import ZArith List Lia Bool Strings.Byte Ascii String.
From stdpp Require Import base option list gmap strings.

Local Open Scope Z_scope.

(* ================================================================== *)
(** ** Machine integers *)

(** [size_t] is taken to be 64 bits wide, [uint32_t] is 32 bits wide;
    unsigned arithmetic wraps around. *)
Definition to_size_t (z : Z) : Z := z mod 2 ^ 64.
Definition to_uint32 (z : Z) : Z := z mod 2 ^ 32.

Definition size_sub (a b : Z) : Z := to_size_t (a - b).
Definition size_mul (a b : Z) : Z := to_size_t (a * b).

Definition byte_of_Z (z : Z) : byte :=
  default x00 (Byte.of_N (Z.to_N (z mod 256))).

(** The object representation of a [uint32_t], as [memcpy] from [&number]
    reads it on the little-endian hosts the adapter is built for. *)
Definition uint32_object_bytes (number : Z) : list byte :=
  [ byte_of_Z number;
    byte_of_Z (Z.shiftr number 8);
    byte_of_Z (Z.shiftr number 16);
    byte_of_Z (Z.shiftr number 24) ].

(** [std::memcpy(dest + off, src, n)] on a destination object [dest]:
    [None] when the copy would read or write out of bounds. *)
Definition memcpy (dest : list byte) (off : Z) (src : list byte) (n : Z)
  : option (list byte) :=
  if (0 <=? off) && (0 <=? n)
     && (n <=? Z.of_nat (length src))
     && (off + n <=? Z.of_nat (length dest))
  then Some (take (Z.to_nat off) dest
               ++ take (Z.to_nat n) src
               ++ drop (Z.to_nat (off + n)) dest)
  else None.

(* ================================================================== *)
(** ** Result codes, handles and the USP library interface *)

(** [SPXHR] / [UspResult]. *)
Definition HR := Z.

Definition SPX_NOERROR : HR := 0.
Definition SPX_FAILED (hr : HR) : bool := negb (hr =? SPX_NOERROR).

Definition UspHandle := Z.
Definition INVALID_USP_HANDLE : UspHandle := -1.

Inductive UspEndpointType :=
| USP_ENDPOINT_UNKNOWN
| USP_ENDPOINT_BING_SPEECH
| USP_ENDPOINT_CRIS
| USP_ENDPOINT_CDSDK.

Inductive UspRecognitionMode :=
| USP_RECO_MODE_UNKNOWN
| USP_RECO_MODE_INTERACTIVE
| USP_RECO_MODE_CONVERSATION
| USP_RECO_MODE_DICTATION.

Inductive UspAuthenticationType :=
| USP_AUTHENTICATION_UNKNOWN
| USP_AUTHENTICATION_SUBSCRIPTION_KEY
| USP_AUTHENTICATION_AUTHORIZATION_TOKEN
| USP_AUTHENTICATION_SEARCH_DELEGATION_RPS_TOKEN.

(** One call into the USP library, with the arguments the adapter passes.
    [UspWriteAudio h block] stands for [::UspWriteAudio(h, buffer, n, NULL)]
    where [block] is the [n] bytes at [buffer]. *)
Inductive UspCall :=
| UspInit (type : UspEndpointType) (mode : UspRecognitionMode)
| UspInitByUrl (url : string)
| UspSetAuthentication (h : UspHandle) (authType : UspAuthenticationType)
                       (authData : string)
| UspSetLanguage (h : UspHandle) (language : string)
| UspSetModelId (h : UspHandle) (id : string)
| UspConnect (h : UspHandle)
| UspWriteAudio (h : UspHandle) (block : list byte)
| UspClose (h : UspHandle).

(** What the translation unit takes from headers that are not part of it:
    the behaviour of the USP library (any deterministic function of the
    calls made so far), result codes, and [sizeof(WAVEFORMAT)]. *)
Record Platform := {
  usp_result : list UspCall -> UspCall -> HR;
  usp_handle_out : list UspCall -> UspHandle;
  USP_WRITE_AUDIO_ERROR : HR;
  SPXERR_UNINITIALIZED : HR;
  SPXERR_ALREADY_INITIALIZED : HR;
  SPXERR_UNEXPECTED_USP_SITE_FAILURE : HR;
  sizeof_WAVEFORMAT : Z
}.

(* ================================================================== *)
(** ** Messages, events and the state *)

Inductive UspMessage :=
| MsgSpeechStartDetected (offset : Z)
| MsgSpeechEndDetected (offset : Z)
| MsgSpeechHypothesis (offset duration : Z) (text : string)
| MsgSpeechFragment (offset duration : Z) (text : string)
| MsgSpeechPhrase (recognitionStatus : Z) (displayText : string)
                  (offset duration : Z)
| MsgTurnStart (contextServiceTag : string)
| MsgTurnEnd
| MsgError (errorCode : Z) (description : string).

(** Results built by the site's [ISpxRecoResultFactory]. *)
Inductive RecoResult :=
| CreateIntermediateResult (text : string)
| CreateFinalResult (text : string).

Inductive Payload :=
| AdditionalMessagePayloadFrom (contextServiceTag : string)
| ErrorPayloadFrom (errorCode : Z) (description : string).

(** Calls made on the site, [ISpxRecoEngineAdapterSite]. *)
Inductive SiteEvent :=
| SpeechStartDetected (offset : Z)
| SpeechEndDetected (offset : Z)
| IntermediateRecoResult (offset : Z) (result : RecoResult)
| FinalRecoResult (offset : Z) (result : RecoResult)
| AdditionalMessage (offset : Z) (payload : Payload)
| DoneProcessingAudio
| Error (payload : Payload).

(** The data members of [CSpxUspRecoEngineAdapter].  [m_ptrIntoBuffer] is
    kept as an offset into [m_buffer]; [None] is [nullptr]. *)
Record Adapter := mkAdapter {
  m_handle : UspHandle;
  m_fUseBufferedImplementation : bool;
  m_servicePreferedMilliseconds : Z;
  m_servicePreferedBufferSize : Z;
  m_buffer : option (list byte);
  m_bytesInBuffer : Z;
  m_ptrIntoBuffer : option Z;
  m_bytesLeftInBuffer : Z
}.

(** Everything the adapter acts on.  [named_properties] is what
    [SpxQueryService<ISpxNamedProperties>(GetSite())] yields ([None] for a
    null service); [reco_result_factory] tells whether
    [SpxQueryService<ISpxRecoResultFactory>(GetSite())] yields a service;
    logs are oldest first. *)
Record World := mkWorld {
  site_present : bool;
  named_properties : option (gmap string string);
  reco_result_factory : bool;
  usp_calls : list UspCall;
  site_events : list SiteEvent;
  dump_file : list byte
}.

Definition State : Type := Adapter * World.

Definition set_handle (h : UspHandle) (a : Adapter) : Adapter :=
  mkAdapter h (m_fUseBufferedImplementation a)
    (m_servicePreferedMilliseconds a) (m_servicePreferedBufferSize a)
    (m_buffer a) (m_bytesInBuffer a) (m_ptrIntoBuffer a)
    (m_bytesLeftInBuffer a).

Definition set_servicePreferedBufferSize (n : Z) (a : Adapter) : Adapter :=
  mkAdapter (m_handle a) (m_fUseBufferedImplementation a)
    (m_servicePreferedMilliseconds a) n
    (m_buffer a) (m_bytesInBuffer a) (m_ptrIntoBuffer a)
    (m_bytesLeftInBuffer a).

Definition set_buffer (b : option (list byte)) (a : Adapter) : Adapter :=
  mkAdapter (m_handle a) (m_fUseBufferedImplementation a)
    (m_servicePreferedMilliseconds a) (m_servicePreferedBufferSize a)
    b (m_bytesInBuffer a) (m_ptrIntoBuffer a) (m_bytesLeftInBuffer a).

Definition set_bytesInBuffer (n : Z) (a : Adapter) : Adapter :=
  mkAdapter (m_handle a) (m_fUseBufferedImplementation a)
    (m_servicePreferedMilliseconds a) (m_servicePreferedBufferSize a)
    (m_buffer a) n (m_ptrIntoBuffer a) (m_bytesLeftInBuffer a).

Definition set_ptrIntoBuffer (p : option Z) (a : Adapter) : Adapter :=
  mkAdapter (m_handle a) (m_fUseBufferedImplementation a)
    (m_servicePreferedMilliseconds a) (m_servicePreferedBufferSize a)
    (m_buffer a) (m_bytesInBuffer a) p (m_bytesLeftInBuffer a).

Definition set_bytesLeftInBuffer (n : Z) (a : Adapter) : Adapter :=
  mkAdapter (m_handle a) (m_fUseBufferedImplementation a)
    (m_servicePreferedMilliseconds a) (m_servicePreferedBufferSize a)
    (m_buffer a) (m_bytesInBuffer a) (m_ptrIntoBuffer a) n.

Definition log_usp_call (c : UspCall) (w : World) : World :=
  mkWorld (site_present w) (named_properties w)
    (reco_result_factory w) (usp_calls w ++ [c])
    (site_events w) (dump_file w).

Definition log_site_event (e : SiteEvent) (w : World) : World :=
  mkWorld (site_present w) (named_properties w)
    (reco_result_factory w) (usp_calls w)
    (site_events w ++ [e]) (dump_file w).

Definition append_dump_file (bs : list byte) (w : World) : World :=
  mkWorld (site_present w) (named_properties w)
    (reco_result_factory w) (usp_calls w)
    (site_events w) (dump_file w ++ bs).

(* ================================================================== *)
(** ** The monad of adapter methods *)

(** A method returns, throws an [SPXHR], has undefined behaviour (a null
    dereference or an out-of-bounds copy), or does not terminate. *)
Inductive Outcome (A : Type) :=
| Returned (a : A)
| Thrown (hr : HR)
| Undefined
| Diverges.
Arguments Returned {A} a.
Arguments Thrown {A} hr.
Arguments Undefined {A}.
Arguments Diverges {A}.

Definition M (A : Type) : Type := State -> Outcome A * State.

Definition ret {A} (a : A) : M A := fun s => (Returned a, s).

Definition bind {A B} (m : M A) (k : A -> M B) : M B :=
  fun s =>
    match m s with
    | (Returned a, s') => k a s'
    | (Thrown hr, s') => (Thrown hr, s')
    | (Undefined, s') => (Undefined, s')
    | (Diverges, s') => (Diverges, s')
    end.

Declare Scope adapter_scope.
Delimit Scope adapter_scope with adapter.
Notation "x <- c ;; k" := (bind c (fun x => k))
  (at level 100, c at next level, right associativity) : adapter_scope.
Notation "c ;;; k" := (bind c (fun _ => k))
  (at level 100, right associativity) : adapter_scope.
Local Open Scope adapter_scope.

Definition throw {A} (hr : HR) : M A := fun s => (Thrown hr, s).
Definition undefined {A} : M A := fun s => (Undefined, s).
Definition diverges {A} : M A := fun s => (Diverges, s).

Definition get_this : M Adapter := fun s => (Returned (fst s), s).
Definition get_world : M World := fun s => (Returned (snd s), s).
Definition modify_this (f : Adapter -> Adapter) : M unit :=
  fun s => (Returned tt, (f (fst s), snd s)).
Definition modify_world (f : World -> World) : M unit :=
  fun s => (Returned tt, (fst s, f (snd s))).

Definition when (b : bool) (m : M unit) : M unit :=
  if b then m else ret tt.

Definition SPX_IFTRUE_THROW_HR (cond : bool) (hr : HR) : M unit :=
  if cond then throw hr else ret tt.

Definition SPX_IFFAILED_THROW_HR (hr : HR) : M unit :=
  if SPX_FAILED hr then throw hr else ret tt.

(* ================================================================== *)
(** ** Collaborators declared outside this translation unit *)

(** Modelled from the spec: [ISpxNamedProperties::GetStringValue], the
    read-only key/value lookup [getString(key) -> string]; the property
    store itself is not part of this file.  Keys are looked up exactly and
    an absent key reads as the empty string. *)
Definition GetStringValue (properties : gmap string string) (name : string)
  : string :=
  default EmptyString (properties !! name).

Definition towlower (c : ascii) : ascii :=
  let n := nat_of_ascii c in
  if (65 <=? n)%nat && (n <=? 90)%nat then ascii_of_nat (n + 32) else c.

(** Modelled from the spec: [PAL::wcsicmp], the case-insensitive string
    comparison the resolver relies on; it is declared in the platform
    abstraction layer.  Zero means equal up to letter case. *)
Fixpoint wcsicmp (string1 string2 : string) : Z :=
  match string1, string2 with
  | EmptyString, EmptyString => 0
  | EmptyString, String c2 _ => - Z.of_nat (nat_of_ascii (towlower c2))
  | String c1 _, EmptyString => Z.of_nat (nat_of_ascii (towlower c1))
  | String c1 s1, String c2 s2 =>
      let f1 := Z.of_nat (nat_of_ascii (towlower c1)) in
      let f2 := Z.of_nat (nat_of_ascii (towlower c2)) in
      if f1 =? f2 then wcsicmp s1 s2 else f1 - f2
  end.

Definition wstring_empty (s : string) : bool :=
  match s with EmptyString => true | String _ _ => false end.

(** [SpxAllocSharedUint8Buffer(n)] and [new uint8_t[n]]: [n] bytes whose
    initial content is never read by the adapter before it is written. *)
Definition SpxAllocSharedUint8Buffer (n : Z) : list byte :=
  replicate (Z.to_nat n) x00.

(** The part of [WAVEFORMATEX] the adapter reads: three of its fields and
    the bytes stored at [pformat] (the structure followed by its [cbSize]
    extra bytes). *)
Record WAVEFORMATEX := mkWAVEFORMATEX {
  nSamplesPerSec : Z;
  nBlockAlign : Z;
  cbSize : Z;
  object_bytes : list byte
}.

(** The bytes of a narrow string literal, with its terminating NUL. *)
Definition literal_bytes (psz : string) : list byte :=
  list_byte_of_string psz ++ [x00].

(* ================================================================== *)
(** ** The header writers

    A pointer into the header allocation is an offset; each writer takes
    the allocation and the pointer and yields the updated allocation and
    the advanced pointer. *)

Definition FormatBufferWriteBytes (mem : list byte) (buffer : Z)
    (source : list byte) (bytes : Z) : option (list byte * Z) :=
  match memcpy mem buffer source bytes with
  | Some mem' => Some (mem', buffer + bytes)
  | None => None
  end.

Definition FormatBufferWriteNumber (mem : list byte) (buffer : Z)
    (number : Z) : option (list byte * Z) :=
  match memcpy mem buffer (uint32_object_bytes number) 4 with
  | Some mem' => Some (mem', buffer + 4)
  | None => None
  end.

Definition FormatBufferWriteChars (mem : list byte) (buffer : Z)
    (psz : string) (cch : Z) : option (list byte * Z) :=
  match memcpy mem buffer (literal_bytes psz) cch with
  | Some mem' => Some (mem', buffer + cch)
  | None => None
  end.

Definition then_write (r : option (list byte * Z))
    (f : list byte -> Z -> option (list byte * Z)) : option (list byte * Z) :=
  match r with
  | Some (mem, ptr) => f mem ptr
  | None => None
  end.

Section Methods.

Variable P : Platform.

(** The sizes [UspWriteFormat] computes before it writes. *)
Definition cbFormatChunk (pformat : WAVEFORMATEX) : Z :=
  to_uint32 (to_size_t (sizeof_WAVEFORMAT P + cbSize pformat)).

Definition cbHeader (pformat : WAVEFORMATEX) : Z :=
  let cbTag := 4 in
  let cbChunkType := 4 in
  let cbChunkSize := 4 in
  to_size_t
    (to_uint32
       (to_uint32
          (to_uint32
             (cbTag + cbChunkSize + cbChunkType + cbChunkType + cbChunkSize
              + cbFormatChunk pformat)
           + cbChunkType)
        + cbChunkSize)).

(** The body of [UspWriteFormat] up to its final [UspWrite]: the header
    allocation after all writes, and the final value of [ptr]. *)
Definition UspWriteFormat_buffer (pformat : WAVEFORMATEX)
  : option (list byte * Z) :=
  let cbTag := 4 in
  let cbChunkType := 4 in
  let cbRiffChunk := 0 in
  let cbDataChunk := 0 in
  let buffer := SpxAllocSharedUint8Buffer (cbHeader pformat) in
  let ptr := Some (buffer, 0) in
  let ptr := then_write ptr (fun m p => FormatBufferWriteChars m p "RIFF" cbTag) in
  let ptr := then_write ptr (fun m p => FormatBufferWriteNumber m p cbRiffChunk) in
  let ptr := then_write ptr (fun m p => FormatBufferWriteChars m p "WAVE" cbChunkType) in
  let ptr := then_write ptr (fun m p => FormatBufferWriteChars m p "fmt " cbChunkType) in
  let ptr := then_write ptr (fun m p => FormatBufferWriteNumber m p (cbFormatChunk pformat)) in
  let ptr := then_write ptr (fun m p =>
               FormatBufferWriteBytes m p (object_bytes pformat) (cbFormatChunk pformat)) in
  let ptr := then_write ptr (fun m p => FormatBufferWriteChars m p "data" cbChunkType) in
  then_write ptr (fun m p => FormatBufferWriteNumber m p cbDataChunk).

(* ------------------------------------------------------------------ *)
(** *** Access to the collaborators *)

Definition call_usp (c : UspCall) : M HR :=
  w <- get_world ;;
  modify_world (log_usp_call c) ;;;
  ret (usp_result P (usp_calls w) c).

(** [SpxQueryService<ISpxNamedProperties>(GetSite())] followed by the
    null check every getter makes. *)
Definition query_named_properties : M (gmap string string) :=
  w <- get_world ;;
  match (if site_present w then named_properties w else None) with
  | Some properties => ret properties
  | None => throw (SPXERR_UNEXPECTED_USP_SITE_FAILURE P)
  end.

(** [GetSite()->...]: a call through a null site is undefined. *)
Definition site_call (e : SiteEvent) : M unit :=
  w <- get_world ;;
  if site_present w then modify_world (log_site_event e) else undefined.

(** [SpxQueryService<ISpxRecoResultFactory>(GetSite())]: whether the site
    hands out its result factory; a null site has no service to hand
    out.  The handlers do not check what they get. *)
Definition SpxQueryService_ISpxRecoResultFactory : M bool :=
  w <- get_world ;;
  ret (site_present w && reco_result_factory w).

(** [factory->Create...Result(nullptr, text)]: a call through a null
    factory is undefined. *)
Definition factory_call (factory : bool) (result : RecoResult)
  : M RecoResult :=
  if factory then ret result else undefined.

(** The diagnostic dump of the audio sent.  Only the bytes written are
    followed; the stream [m_hfile] is not.  The model is that of a dump
    file that [DumpFileInit] managed to open and that is still open:
    [PAL::fopen_s] failing and leaving [m_hfile] null, [fwrite] or
    [fclose] on a null or closed stream, and so a write after [Term] or
    a second [Term], are outside it.  Statements about the outcome of a
    write or of [Term] are to be read under that condition. *)
Definition DumpFileInit : M unit :=
  modify_world (fun w => mkWorld (site_present w) (named_properties w)
    (reco_result_factory w)
                           (usp_calls w) (site_events w) []).

Definition DumpFileWrite (buffer : list byte) (bytesToWrite : Z) : M unit :=
  modify_world (append_dump_file (take (Z.to_nat bytesToWrite) buffer)).

Definition DumpFileClose : M unit := ret tt.

(* ------------------------------------------------------------------ *)
(** *** Endpoint, mode and authentication resolution

    [SPX_DBG_ASSERT] is a debug-build check and is not evaluated here;
    [PAL::ToString] is the identity on the strings of the model. *)

Definition IsUspHandleValid (handle : UspHandle) : bool :=
  negb (handle =? INVALID_USP_HANDLE).

Definition GetUspEndpointType : M UspEndpointType :=
  properties <- query_named_properties ;;
  let endpoint := GetStringValue properties "SPEECH-Endpoint" in
  let subscriptionKey := GetStringValue properties "SPEECH-SubscriptionKey" in
  let customSpeechModelId := GetStringValue properties "CUSTOMSPEECH-modelId" in
  ret (if negb (wstring_empty customSpeechModelId) then USP_ENDPOINT_CRIS
       else if wcsicmp endpoint "CORTANA" =? 0 then USP_ENDPOINT_CDSDK
       else if negb (wstring_empty endpoint) then USP_ENDPOINT_UNKNOWN
       else USP_ENDPOINT_BING_SPEECH).

Definition GetUspCustomEndpoint : M string :=
  properties <- query_named_properties ;;
  ret (GetStringValue properties "SPEECH-Endpoint").

Definition GetUspRecoMode : M UspRecognitionMode :=
  properties <- query_named_properties ;;
  let value := GetStringValue properties "SPEECH-RecoMode" in
  ret (if wstring_empty value || (wcsicmp value "INTERACTIVE" =? 0)
       then USP_RECO_MODE_INTERACTIVE
       else if wcsicmp value "CONVERSATION" =? 0 then USP_RECO_MODE_CONVERSATION
       else if wcsicmp value "DICTATION" =? 0 then USP_RECO_MODE_DICTATION
       else USP_RECO_MODE_UNKNOWN).

Definition GetUspLanguage : M string :=
  properties <- query_named_properties ;;
  ret (GetStringValue properties "SPEECH-RecoLanguage").

Definition GetUspModelId : M string :=
  properties <- query_named_properties ;;
  ret (GetStringValue properties "CUSTOMSPEECH-ModelId").

(** Returns the authentication data together with [*pauthType]. *)
Definition GetUspAuthenticationData : M (string * UspAuthenticationType) :=
  properties <- query_named_properties ;;
  let uspSubscriptionKey := GetStringValue properties "SPEECH-SubscriptionKey" in
  let uspAuthToken := GetStringValue properties "SPEECH-AuthToken" in
  let uspRpsToken := GetStringValue properties "SPEECH-RpsToken" in
  ret (if negb (wstring_empty uspSubscriptionKey)
       then (uspSubscriptionKey, USP_AUTHENTICATION_SUBSCRIPTION_KEY)
       else if negb (wstring_empty uspAuthToken)
       then (uspAuthToken, USP_AUTHENTICATION_AUTHORIZATION_TOKEN)
       else if negb (wstring_empty uspRpsToken)
       then (uspRpsToken, USP_AUTHENTICATION_SEARCH_DELEGATION_RPS_TOKEN)
       else (EmptyString, USP_AUTHENTICATION_UNKNOWN)).

Definition is_auth_unknown (t : UspAuthenticationType) : bool :=
  match t with USP_AUTHENTICATION_UNKNOWN => true | _ => false end.

Definition is_endpoint_unknown (t : UspEndpointType) : bool :=
  match t with USP_ENDPOINT_UNKNOWN => true | _ => false end.

(** [UspInitialize(&m_handle, &m_callbacks, this)]: the handle written by
    the library through its out-parameter lands in [m_handle]. *)
Definition UspInitialize : M unit :=
  type <- GetUspEndpointType ;;
  hr <- (if is_endpoint_unknown type
         then url <- GetUspCustomEndpoint ;; call_usp (UspInitByUrl url)
         else mode <- GetUspRecoMode ;; call_usp (UspInit type mode)) ;;
  w <- get_world ;;
  modify_this (fun a => set_handle (usp_handle_out P (usp_calls w)) a) ;;;
  SPX_IFFAILED_THROW_HR hr ;;;
  auth <- GetUspAuthenticationData ;;
  this <- get_this ;;
  when (negb (is_auth_unknown (snd auth)))
       (hr <- call_usp (UspSetAuthentication (m_handle this) (snd auth) (fst auth)) ;;
        SPX_IFFAILED_THROW_HR hr) ;;;
  language <- GetUspLanguage ;;
  when (negb (wstring_empty language))
       (hr <- call_usp (UspSetLanguage (m_handle this) language) ;;
        SPX_IFFAILED_THROW_HR hr) ;;;
  id <- GetUspModelId ;;
  when (negb (wstring_empty id))
       (hr <- call_usp (UspSetModelId (m_handle this) id) ;;
        SPX_IFFAILED_THROW_HR hr) ;;;
  hr <- call_usp (UspConnect (m_handle this)) ;;
  SPX_IFFAILED_THROW_HR hr.

Definition UspShutdown (handle : UspHandle) : M unit :=
  hr <- call_usp (UspClose handle) ;;
  SPX_IFFAILED_THROW_HR hr.

(* ------------------------------------------------------------------ *)
(** *** The audio writer *)

Definition UspWrite_Actual (handle : UspHandle) (buffer : list byte)
    (byteToWrite : Z) : M unit :=
  hr <- call_usp (UspWriteAudio handle (take (Z.to_nat byteToWrite) buffer)) ;;
  let hr := if (byteToWrite =? 0) && (hr =? USP_WRITE_AUDIO_ERROR P)
            then SPX_NOERROR else hr in
  DumpFileWrite buffer byteToWrite ;;;
  SPX_IFFAILED_THROW_HR hr.

(** [m_buffer.get()] as the bytes it points at, and as a pointer. *)
Definition buffer_bytes (b : option (list byte)) : list byte := default [] b.
Definition buffer_get (b : option (list byte)) : option Z :=
  match b with Some _ => Some 0 | None => None end.
Definition is_nullptr (b : option (list byte)) : bool :=
  match b with Some _ => false | None => true end.

(** The allocation is taken to succeed; [std::bad_alloc] for a size the
    host cannot provide is not modelled. *)
Definition allocate_buffer (a : Adapter) : Adapter :=
  let size := m_servicePreferedBufferSize a in
  mkAdapter (m_handle a) (m_fUseBufferedImplementation a)
    (m_servicePreferedMilliseconds a) size
    (Some (SpxAllocSharedUint8Buffer size)) size (Some 0) size.

Definition rewind_buffer (a : Adapter) : Adapter :=
  set_ptrIntoBuffer (buffer_get (m_buffer a))
    (set_bytesLeftInBuffer (m_bytesInBuffer a) a).

Definition release_buffer (a : Adapter) : Adapter :=
  mkAdapter (m_handle a) (m_fUseBufferedImplementation a)
    (m_servicePreferedMilliseconds a) (m_servicePreferedBufferSize a)
    None 0 None 0.

(** One pass through the body of the [for (;;)] loop of
    [UspWrite_Buffered]: [None] when the loop breaks, otherwise the
    updated [bytesToWrite].  The source pointer [buffer] is the same in
    every pass. *)
Definition UspWrite_Buffered_pass (handle : UspHandle) (buffer : list byte)
    (flushBuffer : bool) (bytesToWrite : Z) : M (option Z) :=
  this <- get_this ;;
  when (flushBuffer
        || ((0 <? m_bytesInBuffer this) && (m_bytesLeftInBuffer this =? 0)))
       (let bytesToFlush :=
          size_sub (m_bytesInBuffer this) (m_bytesLeftInBuffer this) in
        UspWrite_Actual handle (buffer_bytes (m_buffer this)) bytesToFlush ;;;
        modify_this rewind_buffer) ;;;
  when flushBuffer (modify_this release_buffer) ;;;
  if bytesToWrite =? 0 then ret None
  else
    this <- get_this ;;
    let bytesThisLoop := Z.min bytesToWrite (m_bytesLeftInBuffer this) in
    match m_buffer this, m_ptrIntoBuffer this with
    | Some mem, Some ptr =>
        match memcpy mem ptr buffer bytesThisLoop with
        | Some mem' =>
            modify_this (fun a =>
              set_bytesLeftInBuffer
                (size_sub (m_bytesLeftInBuffer a) bytesThisLoop)
                (set_ptrIntoBuffer (Some (ptr + bytesThisLoop))
                   (set_buffer (Some mem') a))) ;;;
            ret (Some (size_sub bytesToWrite bytesThisLoop))
        | None => undefined
        end
    | _, _ => undefined
    end.

Fixpoint UspWrite_Buffered_loop (fuel : nat) (handle : UspHandle)
    (buffer : list byte) (flushBuffer : bool) (bytesToWrite : Z) : M unit :=
  match fuel with
  | O => diverges
  | S fuel' =>
      r <- UspWrite_Buffered_pass handle buffer flushBuffer bytesToWrite ;;
      match r with
      | None => ret tt
      | Some bytesToWrite' =>
          UspWrite_Buffered_loop fuel' handle buffer flushBuffer bytesToWrite'
      end
  end.

(** Every pass that does not break copies at least one byte unless the
    buffer has no capacity, in which case the loop spins for ever; so
    [bytesToWrite + 2] passes decide the outcome (see [loop_terminates]
    and [loop_spins_without_capacity]). *)
Definition UspWrite_Buffered (handle : UspHandle) (buffer : list byte)
    (bytesToWrite : Z) : M unit :=
  let flushBuffer := bytesToWrite =? 0 in
  this <- get_this ;;
  when (is_nullptr (m_buffer this)) (modify_this allocate_buffer) ;;;
  UspWrite_Buffered_loop (S (S (Z.to_nat bytesToWrite)))
    handle buffer flushBuffer bytesToWrite.

Definition UspWrite_Flush (handle : UspHandle) : M unit :=
  UspWrite_Buffered handle [] 0.

(** The member-function pointer [fn] chosen by [UspWrite]. *)
Inductive WriteFn := Fn_UspWrite_Actual | Fn_UspWrite_Buffered.

Definition UspWrite_fn (this : Adapter) : WriteFn :=
  if negb (m_fUseBufferedImplementation this)
     || (m_servicePreferedBufferSize this =? 0)
  then Fn_UspWrite_Actual
  else Fn_UspWrite_Buffered.

Definition UspWrite (handle : UspHandle) (buffer : list byte)
    (byteToWrite : Z) : M unit :=
  this <- get_this ;;
  match UspWrite_fn this with
  | Fn_UspWrite_Actual => UspWrite_Actual handle buffer byteToWrite
  | Fn_UspWrite_Buffered => UspWrite_Buffered handle buffer byteToWrite
  end.

(** [UspWriteFormat] ignores its [handle] argument and writes through
    [m_handle]; the debug assertion on [ptr] is not evaluated here and is
    proved below to hold. *)
Definition UspWriteFormat (handle : UspHandle) (pformat : WAVEFORMATEX)
  : M unit :=
  match UspWriteFormat_buffer pformat with
  | Some (buffer, ptr) =>
      this <- get_this ;;
      UspWrite (m_handle this) buffer (cbHeader pformat)
  | None => undefined
  end.

(* ------------------------------------------------------------------ *)
(** *** Life cycle and the public entry points *)

(** The constructor; the two [const] members are fixed in the class
    definition, which is not part of this file. *)
Definition CSpxUspRecoEngineAdapter (fUseBufferedImplementation : bool)
    (servicePreferedMilliseconds : Z) : Adapter :=
  mkAdapter INVALID_USP_HANDLE fUseBufferedImplementation
    servicePreferedMilliseconds 0 None 0 None 0.

Definition Init : M unit :=
  w <- get_world ;;
  SPX_IFTRUE_THROW_HR (negb (site_present w)) (SPXERR_UNINITIALIZED P) ;;;
  this <- get_this ;;
  SPX_IFTRUE_THROW_HR (IsUspHandleValid (m_handle this))
    (SPXERR_ALREADY_INITIALIZED P) ;;;
  UspInitialize ;;;
  DumpFileInit.

Definition Term : M unit :=
  this <- get_this ;;
  UspShutdown (m_handle this) ;;;
  modify_this (set_handle INVALID_USP_HANDLE) ;;;
  DumpFileClose.

Definition SetFormat (pformat : option WAVEFORMATEX) : M unit :=
  this <- get_this ;;
  SPX_IFTRUE_THROW_HR (negb (IsUspHandleValid (m_handle this)))
    (SPXERR_UNINITIALIZED P) ;;;
  match pformat with
  | Some format =>
      UspWriteFormat (m_handle this) format ;;;
      modify_this (fun a =>
        set_servicePreferedBufferSize
          (size_mul (size_mul (to_size_t (nSamplesPerSec format))
                              (nBlockAlign format))
                    (m_servicePreferedMilliseconds a) / 1000) a)
  | None => UspWrite_Flush (m_handle this)
  end.

Definition ProcessAudio (data : list byte) (size : Z) : M unit :=
  this <- get_this ;;
  UspWrite (m_handle this) data size.

(* ------------------------------------------------------------------ *)
(** *** Message handlers and the callback table *)

Definition UspOnSpeechStartDetected (offset : Z) : M unit :=
  site_call (SpeechStartDetected offset).

Definition UspOnSpeechEndDetected (offset : Z) : M unit :=
  site_call (SpeechEndDetected offset).

Definition UspOnSpeechHypothesis (offset : Z) (text : string) : M unit :=
  factory <- SpxQueryService_ISpxRecoResultFactory ;;
  result <- factory_call factory (CreateIntermediateResult text) ;;
  site_call (IntermediateRecoResult offset result).

Definition UspOnSpeechFragment (offset : Z) (text : string) : M unit :=
  factory <- SpxQueryService_ISpxRecoResultFactory ;;
  result <- factory_call factory (CreateIntermediateResult text) ;;
  site_call (IntermediateRecoResult offset result).

Definition UspOnSpeechPhrase (offset : Z) (displayText : string) : M unit :=
  factory <- SpxQueryService_ISpxRecoResultFactory ;;
  result <- factory_call factory (CreateFinalResult displayText) ;;
  site_call (FinalRecoResult offset result).

Definition UspOnTurnStart (contextServiceTag : string) : M unit :=
  site_call (AdditionalMessage 0 (AdditionalMessagePayloadFrom contextServiceTag)).

Definition UspOnTurnEnd : M unit :=
  site_call DoneProcessingAudio.

Definition UspOnError (errorCode : Z) (description : string) : M unit :=
  site_call (Error (ErrorPayloadFrom errorCode description)).

(** The callback table [m_callbacks] as [InitCallbacks] fills it: the USP library delivers a
    message by calling the entry for its kind, which forwards to the
    handler of the adapter found from the callback context. *)
Definition m_callbacks (message : UspMessage) : M unit :=
  match message with
  | MsgSpeechStartDetected offset => UspOnSpeechStartDetected offset
  | MsgSpeechEndDetected offset => UspOnSpeechEndDetected offset
  | MsgSpeechHypothesis offset _ text => UspOnSpeechHypothesis offset text
  | MsgSpeechFragment offset _ text => UspOnSpeechFragment offset text
  | MsgSpeechPhrase _ displayText offset _ => UspOnSpeechPhrase offset displayText
  | MsgTurnStart contextServiceTag => UspOnTurnStart contextServiceTag
  | MsgTurnEnd => UspOnTurnEnd
  | MsgError errorCode description => UspOnError errorCode description
  end.

(** Delivery of a sequence of messages, one callback after the other. *)
Fixpoint deliver (messages : list UspMessage) : M unit :=
  match messages with
  | [] => ret tt
  | message :: rest => m_callbacks message ;;; deliver rest
  end.

End Methods.

(* ================================================================== *)
(** ** Observations used by the specifications *)

Definition outcome_of {A} (r : Outcome A * State) : Outcome A := fst r.
Definition adapter_of {A} (r : Outcome A * State) : Adapter := fst (snd r).
Definition world_of {A} (r : Outcome A * State) : World := snd (snd r).
Definition state_of {A} (r : Outcome A * State) : State := snd r.

(** The result [UspWrite_Actual] ends up with for a send, and the world
    the send leaves behind. *)
Definition audio_hr (P : Platform) (w : World) (handle : UspHandle)
    (buffer : list byte) (byteToWrite : Z) : HR :=
  let hr := usp_result P (usp_calls w)
              (UspWriteAudio handle (take (Z.to_nat byteToWrite) buffer)) in
  if (byteToWrite =? 0) && (hr =? USP_WRITE_AUDIO_ERROR P)
  then SPX_NOERROR else hr.

Definition after_audio (w : World) (handle : UspHandle)
    (buffer : list byte) (byteToWrite : Z) : World :=
  append_dump_file (take (Z.to_nat byteToWrite) buffer)
    (log_usp_call (UspWriteAudio handle (take (Z.to_nat byteToWrite) buffer)) w).

(** A transport that takes every audio block, except that it may answer
    [USP_WRITE_AUDIO_ERROR] to an empty one. *)
Definition accepts_audio (P : Platform) (handle : UspHandle) : Prop :=
  forall calls block,
    usp_result P calls (UspWriteAudio handle block) = SPX_NOERROR
    \/ (block = []
        /\ usp_result P calls (UspWriteAudio handle block)
           = USP_WRITE_AUDIO_ERROR P).

(** The audio blocks handed to [::UspWriteAudio], in order. *)
Fixpoint audio_blocks (calls : list UspCall) : list (list byte) :=
  match calls with
  | [] => []
  | UspWriteAudio _ block :: rest => block :: audio_blocks rest
  | _ :: rest => audio_blocks rest
  end.

(** The filled portion of the accumulation buffer: what a flush sends. *)
Definition bytes_retained (a : Adapter) : Z :=
  size_sub (m_bytesInBuffer a) (m_bytesLeftInBuffer a).

Definition retained_bytes (a : Adapter) : list byte :=
  take (Z.to_nat (bytes_retained a)) (buffer_bytes (m_buffer a)).

(** The capacity the next buffered write works with. *)
Definition capacity (a : Adapter) : Z :=
  match m_buffer a with
  | None => m_servicePreferedBufferSize a
  | Some _ => m_bytesInBuffer a
  end.

(** The accumulation buffer holds nothing: it is not allocated, or it is
    allocated with the cursor at its start. *)
Definition buffer_empty (a : Adapter) : Prop :=
  match m_buffer a with
  | None => True
  | Some mem =>
      Z.of_nat (length mem) = m_bytesInBuffer a
      /\ m_ptrIntoBuffer a = Some 0
      /\ m_bytesLeftInBuffer a = m_bytesInBuffer a
  end.

(** The value a sequence of bytes denotes when read least significant
    byte first. *)
Fixpoint little_endian_value (bs : list byte) : Z :=
  match bs with
  | [] => 0
  | b :: rest => Z.of_N (Byte.to_N b) + 256 * little_endian_value rest
  end.

(** The routing table of the message dispatcher as the specification
    gives it: message kind to emitted event. *)
Definition routed_event (message : UspMessage) : SiteEvent :=
  match message with
  | MsgSpeechStartDetected offset => SpeechStartDetected offset
  | MsgSpeechEndDetected offset => SpeechEndDetected offset
  | MsgSpeechHypothesis offset _ text =>
      IntermediateRecoResult offset (CreateIntermediateResult text)
  | MsgSpeechFragment offset _ text =>
      IntermediateRecoResult offset (CreateIntermediateResult text)
  | MsgSpeechPhrase _ displayText offset _ =>
      FinalRecoResult offset (CreateFinalResult displayText)
  | MsgTurnStart tag => AdditionalMessage 0 (AdditionalMessagePayloadFrom tag)
  | MsgTurnEnd => DoneProcessingAudio
  | MsgError code description => Error (ErrorPayloadFrom code description)
  end.

(** The messages whose handler builds a result with the site's result
    factory. *)
Definition needs_result_factory (message : UspMessage) : bool :=
  match message with
  | MsgSpeechHypothesis _ _ _ | MsgSpeechFragment _ _ _
  | MsgSpeechPhrase _ _ _ _ => true
  | _ => false
  end.

Definition log_site_events (es : list SiteEvent) (w : World) : World :=
  mkWorld (site_present w) (named_properties w)
    (reco_result_factory w) (usp_calls w)
    (site_events w ++ es) (dump_file w).

(* ------------------------------------------------------------------ *)
(** *** Concrete platforms, formats and states *)

(** A USP library that accepts every call and answers
    [USP_WRITE_AUDIO_ERROR] to an empty audio block. *)
Definition plain_platform : Platform :=
  {| usp_result := fun _ c =>
       match c with UspWriteAudio _ [] => 7 | _ => SPX_NOERROR end;
     usp_handle_out := fun _ => 1;
     USP_WRITE_AUDIO_ERROR := 7;
     SPXERR_UNINITIALIZED := 1;
     SPXERR_ALREADY_INITIALIZED := 2;
     SPXERR_UNEXPECTED_USP_SITE_FAILURE := 3;
     sizeof_WAVEFORMAT := 16 |}.

(** A USP library whose audio write fails with a code other than
    [USP_WRITE_AUDIO_ERROR]. *)
Definition failing_platform : Platform :=
  {| usp_result := fun _ c =>
       match c with UspWriteAudio _ _ => 9 | _ => SPX_NOERROR end;
     usp_handle_out := fun _ => 1;
     USP_WRITE_AUDIO_ERROR := 7;
     SPXERR_UNINITIALIZED := 1;
     SPXERR_ALREADY_INITIALIZED := 2;
     SPXERR_UNEXPECTED_USP_SITE_FAILURE := 3;
     sizeof_WAVEFORMAT := 16 |}.

Definition world_with (properties : gmap string string) : World :=
  mkWorld true (Some properties) true [] [] [].

(** An adapter as the constructor and [Init] leave it, bound to handle 1,
    with buffering on and the 100 ms target. *)
Definition initialized_adapter : Adapter :=
  set_handle 1 (CSpxUspRecoEngineAdapter true 100).

(** 16 kHz, 16-bit mono PCM: eighteen bytes of [WAVEFORMATEX], no extra
    bytes. *)
Definition pcm_16k_object_bytes : list byte :=
  [x01; x00; x01; x00; x80; x3e; x00; x00; x00; x7d; x00; x00;
   x02; x00; x10; x00; x00; x00].

Definition pcm_16k : WAVEFORMATEX :=
  mkWAVEFORMATEX 16000 2 0 pcm_16k_object_bytes.

(** A format whose buffer size comes out as two bytes. *)
Definition tiny_format : WAVEFORMATEX :=
  mkWAVEFORMATEX 20 1 0 pcm_16k_object_bytes.

(* ------------------------------------------------------------------ *)
(** *** Statements that the code does not satisfy, named for reference *)

(** A zero-byte write leaves the adapter and the world as they were. *)
Definition zero_byte_write_is_noop (P : Platform) (data : list byte)
    (s : State) : Prop :=
  state_of (ProcessAudio P data 0 s) = s.

(** A failed send of zero bytes is swallowed whatever its code. *)
Definition zero_length_failure_swallowed (P : Platform) (handle : UspHandle)
    (buffer : list byte) (s : State) : Prop :=
  SPX_FAILED (usp_result P (usp_calls (snd s)) (UspWriteAudio handle []))
    = true ->
  outcome_of (UspWrite_Actual P handle buffer 0 s) = Returned tt.

(** The header written by [SetFormat] takes the buffered writer. *)
Definition header_takes_buffered_writer (s : State) : Prop :=
  UspWrite_fn (fst s) = Fn_UspWrite_Buffered.

(** Delivering [message] in state [s] adds nothing to the site's log. *)
Definition dropped (message : UspMessage) (s : State) : Prop :=
  site_events (world_of (m_callbacks message s)) = site_events (snd s).

(** Endpoint selection and model-id configuration agree. *)
Definition model_id_consistent (P : Platform) (s : State) : Prop :=
  outcome_of (GetUspEndpointType P s) = Returned USP_ENDPOINT_CRIS
  <-> exists id, outcome_of (GetUspModelId P s) = Returned id
                 /\ wstring_empty id = false.

(** The stream header in the words of the specification: the tag, a
    placeholder size, the container type, the format sub-chunk tag with
    the size of the serialized descriptor, the serialized descriptor, and
    the data tag with a zero placeholder.  The serialized descriptor is
    the leading [cbFormatChunk] bytes stored at [pformat]. *)
Definition serialized_format (P : Platform) (pformat : WAVEFORMATEX)
  : list byte :=
  take (Z.to_nat (cbFormatChunk P pformat)) (object_bytes pformat).

Definition stream_header (P : Platform) (pformat : WAVEFORMATEX) : list byte :=
  list_byte_of_string "RIFF" ++ uint32_object_bytes 0
  ++ list_byte_of_string "WAVE"
  ++ list_byte_of_string "fmt " ++ uint32_object_bytes (cbFormatChunk P pformat)
  ++ serialized_format P pformat
  ++ list_byte_of_string "data" ++ uint32_object_bytes 0.

(** The same header written without reference to the adapter's own
    arithmetic: a number as four bytes, least significant first, by
    division; and the eight parts around a serialized descriptor given as
    bytes, the format size being the number of those bytes. *)
Definition little_endian_4 (n : Z) : list byte :=
  [ byte_of_Z (n mod 256);
    byte_of_Z (n / 256 mod 256);
    byte_of_Z (n / 65536 mod 256);
    byte_of_Z (n / 16777216 mod 256) ].

Definition riff_wave_header (descriptor : list byte) : list byte :=
  list_byte_of_string "RIFF" ++ little_endian_4 0
  ++ list_byte_of_string "WAVE"
  ++ list_byte_of_string "fmt "
  ++ little_endian_4 (Z.of_nat (length descriptor))
  ++ descriptor
  ++ list_byte_of_string "data" ++ little_endian_4 0.

(** A header allocation of [total] bytes of which [written] is filled in,
    with the pointer just past it. *)
Definition at_end (total : nat) (written : list byte) : list byte * Z :=
  (written ++ replicate (total - length written) x00,
   Z.of_nat (length written)).

(** The adapter once [UspWrite_Buffered] has made sure a buffer exists. *)
Definition ready_buffer (a : Adapter) : Adapter :=
  if is_nullptr (m_buffer a) then allocate_buffer a else a.

(** The descriptor can be read: the sizes are non-negative and fit
    [uint32_t] with the 28 bytes of tags and sizes added, and the
    [sizeof(WAVEFORMAT) + cbSize] bytes copied from [pformat] exist. *)
Definition format_readable (P : Platform) (pformat : WAVEFORMATEX) : Prop :=
  0 <= sizeof_WAVEFORMAT P /\ 0 <= cbSize pformat
  /\ sizeof_WAVEFORMAT P + cbSize pformat + 28 < 2 ^ 32
  /\ sizeof_WAVEFORMAT P + cbSize pformat
     <= Z.of_nat (length (object_bytes pformat)).

(** The value [SetFormat] assigns to [m_servicePreferedBufferSize]. *)
Definition preferred_buffer_size (pformat : WAVEFORMATEX) (a : Adapter) : Z :=
  size_mul (size_mul (to_size_t (nSamplesPerSec pformat)) (nBlockAlign pformat))
           (m_servicePreferedMilliseconds a) / 1000.

(** Test data: the bytes 0, 1, 2, ... (modulo 256). *)
Definition ramp (n : Z) : list byte :=
  map (fun i => byte_of_Z (Z.of_nat i)) (seq 0 (Z.to_nat n)).

(** What [UspWrite_Buffered] maintains between calls while a buffer is
    allocated: a positive capacity, a buffer of that many bytes, and the
    cursor as far from the start as the capacity is used up. *)
Definition buffer_consistent (a : Adapter) : Prop :=
  match m_buffer a with
  | None => True
  | Some mem =>
      0 < m_bytesInBuffer a < 2 ^ 64
      /\ Z.of_nat (length mem) = m_bytesInBuffer a
      /\ 0 <= m_bytesLeftInBuffer a <= m_bytesInBuffer a
      /\ m_ptrIntoBuffer a
         = Some (m_bytesInBuffer a - m_bytesLeftInBuffer a)
  end.

Definition returns_or_throws (r : Outcome unit * State) : Prop :=
  outcome_of r = Returned tt \/ exists hr, outcome_of r = Thrown hr.

(** A string with its upper-case letters lowered. *)
Fixpoint wcslwr (s : string) : string :=
  match s with
  | EmptyString => EmptyString
  | String c rest => String (towlower c) (wcslwr rest)
  end.

(* ------------------------------------------------------------------ *)
(** *** Further observations *)

(** The calls [UspInitialize] makes when every one of them succeeds: the
    opening call, then authentication, language and model id where they
    are set, then the connect. *)
Definition init_call (type : UspEndpointType) (mode : UspRecognitionMode)
    (url : string) : UspCall :=
  if is_endpoint_unknown type then UspInitByUrl url else UspInit type mode.

Definition init_calls (type : UspEndpointType) (mode : UspRecognitionMode)
    (url : string) (auth : string * UspAuthenticationType)
    (language id : string) (h : UspHandle) : list UspCall :=
  [init_call type mode url]
  ++ (if is_auth_unknown (snd auth) then []
      else [UspSetAuthentication h (snd auth) (fst auth)])
  ++ (if wstring_empty language then [] else [UspSetLanguage h language])
  ++ (if wstring_empty id then [] else [UspSetModelId h id])
  ++ [UspConnect h].

(** A USP library all of whose calls succeed. *)
Definition all_calls_succeed (P : Platform) : Prop :=
  forall calls c, usp_result P calls c = SPX_NOERROR.

(** A USP library that refuses every call with code 5. *)
Definition refusing_platform : Platform :=
  {| usp_result := fun _ _ => 5;
     usp_handle_out := fun _ => 1;
     USP_WRITE_AUDIO_ERROR := 7;
     SPXERR_UNINITIALIZED := 1;
     SPXERR_ALREADY_INITIALIZED := 2;
     SPXERR_UNEXPECTED_USP_SITE_FAILURE := 3;
     sizeof_WAVEFORMAT := 16 |}.

(** A USP library that accepts every call. *)
Definition obliging_platform : Platform :=
  {| usp_result := fun _ _ => SPX_NOERROR;
     usp_handle_out := fun _ => 1;
     USP_WRITE_AUDIO_ERROR := 7;
     SPXERR_UNINITIALIZED := 1;
     SPXERR_ALREADY_INITIALIZED := 2;
     SPXERR_UNEXPECTED_USP_SITE_FAILURE := 3;
     sizeof_WAVEFORMAT := 16 |}.

Definition log_usp_calls (cs : list UspCall) (w : World) : World :=
  mkWorld (site_present w) (named_properties w)
    (reco_result_factory w) (usp_calls w ++ cs)
    (site_events w) (dump_file w).

Definition empty_dump_file (w : World) : World :=
  mkWorld (site_present w) (named_properties w)
    (reco_result_factory w) (usp_calls w)
    (site_events w) [].

(** Making the calls [todo] one after the other after the calls [done],
    stopping at the first that fails: the failure code, if any, and the
    calls made. *)
Fixpoint make_calls (P : Platform) (done todo : list UspCall)
  : option HR * list UspCall :=
  match todo with
  | [] => (None, done)
  | c :: rest =>
      let hr := usp_result P done c in
      if SPX_FAILED hr then (Some hr, done ++ [c])
      else make_calls P (done ++ [c]) rest
  end.

Definition with_calls (calls : list UspCall) (dump : list byte) (w : World)
  : World :=
  mkWorld (site_present w) (named_properties w)
    (reco_result_factory w) calls (site_events w) dump.

(** A property store with a subscription key, a language and a
    recognition mode that is none of the three known ones. *)
Definition keyed_properties : gmap string string :=
  {[ "SPEECH-SubscriptionKey" := "k0";
     "SPEECH-RecoLanguage" := "en-US";
     "SPEECH-RecoMode" := "bogus" ]}%string.

(** A run of [ProcessAudio] calls, one per chunk, each with the chunk's
    length as its size. *)
Fixpoint write_all (P : Platform) (chunks : list (list byte)) : M unit :=
  match chunks with
  | [] => ret tt
  | chunk :: rest =>
      ProcessAudio P chunk (Z.of_nat (length chunk)) ;;; write_all P rest
  end.

(** The dump file holds exactly the audio handed to the transport. *)
Definition mirrors (w : World) : Prop :=
  dump_file w = concat (audio_blocks (usp_calls w)).

(** The members no write touches. *)
Definition same_configuration (a a' : Adapter) : Prop :=
  m_handle a' = m_handle a
  /\ m_fUseBufferedImplementation a' = m_fUseBufferedImplementation a
  /\ m_servicePreferedMilliseconds a' = m_servicePreferedMilliseconds a
  /\ m_servicePreferedBufferSize a' = m_servicePreferedBufferSize a.

(** What a write leaves alone in the world, and what it keeps true. *)
Definition same_site (w w' : World) : Prop :=
  site_present w' = site_present w
  /\ named_properties w' = named_properties w
  /\ site_events w' = site_events w.

(* ================================================================== *)
(** * Properties *)

Arguments memcpy : simpl never.
Arguments size_sub : simpl never.
Arguments Z.min : simpl never.
Arguments audio_hr : simpl never.
Arguments after_audio : simpl never.

(* ------------------------------------------------------------------ *)
(** ** Bytes and copies *)

Lemma memcpy_at_end (written : list byte) (total : nat) (src : list byte)
    (n : Z) :
  0 <= n <= Z.of_nat (length src) ->
  (length written + Z.to_nat n <= total)%nat ->
  memcpy (written ++ replicate (total - length written) x00)
         (Z.of_nat (length written)) src n
  = Some ((written ++ take (Z.to_nat n) src)
            ++ replicate (total - length (written ++ take (Z.to_nat n) src)) x00).
Proof.
  intros Hn Htot. unfold memcpy.
  assert (Hc : (0 <=? Z.of_nat (length written)) && (0 <=? n)
               && (n <=? Z.of_nat (length src))
               && (Z.of_nat (length written) + n
                   <=? Z.of_nat (length (written ++ replicate (total - length written) x00)))
               = true).
  { rewrite length_app, length_replicate.
    repeat (apply andb_true_intro; split); apply Z.leb_le; lia. }
  rewrite Hc. f_equal.
  rewrite Nat2Z.id, take_app_length.
  rewrite <- app_assoc. do 2 f_equal.
  replace (Z.to_nat (Z.of_nat (length written) + n))
    with (length written + Z.to_nat n)%nat by lia.
  rewrite drop_app_ge by lia.
  rewrite drop_replicate, length_app, length_take. f_equal. lia.
Qed.

Lemma byte_of_Z_value z : Z.of_N (Byte.to_N (byte_of_Z z)) = z mod 256.
Proof.
  unfold byte_of_Z.
  assert (Hr : 0 <= z mod 256 < 256) by (apply Z.mod_pos_bound; lia).
  destruct (Byte.of_N (Z.to_N (z mod 256))) as [b|] eqn:E.
  - apply Byte.to_of_N in E. simpl. rewrite E. lia.
  - apply Byte.of_N_None_iff in E. lia.
Qed.

Lemma uint32_object_bytes_little_endian n :
  0 <= n < 2 ^ 32 -> little_endian_value (uint32_object_bytes n) = n.
Proof.
  intros Hn. unfold uint32_object_bytes, little_endian_value.
  rewrite !byte_of_Z_value, !Z.shiftr_div_pow2 by lia.
  change (2 ^ 8) with 256. change (2 ^ 16) with (256 * 256).
  change (2 ^ 24) with (256 * (256 * 256)).
  rewrite <- !Z.div_div by lia.
  pose proof (Z.div_mod n 256 ltac:(lia)).
  pose proof (Z.div_mod (n / 256) 256 ltac:(lia)).
  pose proof (Z.div_mod (n / 256 / 256) 256 ltac:(lia)).
  pose proof (Z.mod_pos_bound n 256 ltac:(lia)).
  pose proof (Z.mod_pos_bound (n / 256) 256 ltac:(lia)).
  pose proof (Z.mod_pos_bound (n / 256 / 256) 256 ltac:(lia)).
  assert (0 <= n / 256 / 256 / 256 < 256).
  { split; [repeat apply Z.div_pos; lia|].
    repeat (apply Z.div_lt_upper_bound; [lia|]). lia. }
  rewrite (Z.mod_small (n / 256 / 256 / 256)) by lia. lia.
Qed.

(* ------------------------------------------------------------------ *)
(** ** Header synthesis *)

Lemma cbFormatChunk_small P fmt :
  0 <= sizeof_WAVEFORMAT P -> 0 <= cbSize fmt ->
  sizeof_WAVEFORMAT P + cbSize fmt + 28 < 2 ^ 32 ->
  cbFormatChunk P fmt = sizeof_WAVEFORMAT P + cbSize fmt.
Proof.
  intros. unfold cbFormatChunk, to_uint32, to_size_t.
  rewrite (Z.mod_small _ (2 ^ 64)) by lia. apply Z.mod_small. lia.
Qed.

Lemma cbHeader_small P fmt :
  0 <= sizeof_WAVEFORMAT P -> 0 <= cbSize fmt ->
  sizeof_WAVEFORMAT P + cbSize fmt + 28 < 2 ^ 32 ->
  cbHeader P fmt = 28 + cbFormatChunk P fmt.
Proof.
  intros H1 H2 H3. unfold cbHeader. cbv zeta.
  rewrite (cbFormatChunk_small P fmt H1 H2 H3).
  unfold to_uint32, to_size_t.
  set (x := sizeof_WAVEFORMAT P + cbSize fmt) in *.
  rewrite (Z.mod_small (4 + 4 + 4 + 4 + 4 + x)) by lia.
  rewrite (Z.mod_small (4 + 4 + 4 + 4 + 4 + x + 4)) by lia.
  rewrite (Z.mod_small (4 + 4 + 4 + 4 + 4 + x + 4 + 4)) by lia.
  rewrite Z.mod_small; lia.
Qed.

Lemma FormatBufferWriteBytes_at_end total written source bytes :
  0 <= bytes <= Z.of_nat (length source) ->
  (length written + Z.to_nat bytes <= total)%nat ->
  then_write (Some (at_end total written))
    (fun m p => FormatBufferWriteBytes m p source bytes)
  = Some (at_end total (written ++ take (Z.to_nat bytes) source)).
Proof.
  intros Hb Ht. unfold then_write, at_end, FormatBufferWriteBytes.
  rewrite memcpy_at_end by assumption. do 2 f_equal.
  rewrite length_app, length_take. lia.
Qed.

Lemma FormatBufferWriteChars_at_end total written psz cch :
  0 <= cch <= Z.of_nat (length (literal_bytes psz)) ->
  (length written + Z.to_nat cch <= total)%nat ->
  then_write (Some (at_end total written))
    (fun m p => FormatBufferWriteChars m p psz cch)
  = Some (at_end total (written ++ take (Z.to_nat cch) (literal_bytes psz))).
Proof. apply FormatBufferWriteBytes_at_end. Qed.

Lemma FormatBufferWriteNumber_at_end total written number :
  (length written + 4 <= total)%nat ->
  then_write (Some (at_end total written))
    (fun m p => FormatBufferWriteNumber m p number)
  = Some (at_end total (written ++ uint32_object_bytes number)).
Proof.
  intros Ht.
  apply (FormatBufferWriteBytes_at_end total written
           (uint32_object_bytes number) 4); simpl; lia.
Qed.

Lemma UspWriteFormat_buffer_run P fmt :
  0 <= sizeof_WAVEFORMAT P -> 0 <= cbSize fmt ->
  sizeof_WAVEFORMAT P + cbSize fmt + 28 < 2 ^ 32 ->
  sizeof_WAVEFORMAT P + cbSize fmt <= Z.of_nat (length (object_bytes fmt)) ->
  UspWriteFormat_buffer P fmt = Some (stream_header P fmt, cbHeader P fmt).
Proof.
  intros H1 H2 H3 H4.
  pose proof (cbFormatChunk_small P fmt H1 H2 H3) as Hf.
  pose proof (cbHeader_small P fmt H1 H2 H3) as Hh.
  unfold UspWriteFormat_buffer, SpxAllocSharedUint8Buffer. cbv zeta.
  set (total := Z.to_nat (cbHeader P fmt)).
  assert (Htot : total = (28 + Z.to_nat (cbFormatChunk P fmt))%nat) by lia.
  replace (Some (replicate total x00, 0)) with (Some (at_end total []))
    by (unfold at_end; simpl; rewrite Nat.sub_0_r; reflexivity).
  rewrite FormatBufferWriteChars_at_end by (simpl; lia).
  rewrite FormatBufferWriteNumber_at_end by (simpl; lia).
  rewrite FormatBufferWriteChars_at_end by (simpl; lia).
  rewrite FormatBufferWriteChars_at_end by (simpl; lia).
  rewrite FormatBufferWriteNumber_at_end by (simpl; lia).
  rewrite FormatBufferWriteBytes_at_end by (simpl; lia).
  rewrite FormatBufferWriteChars_at_end
    by (rewrite ?length_app, ?length_take; simpl; lia).
  rewrite FormatBufferWriteNumber_at_end
    by (rewrite ?length_app, ?length_take; simpl; lia).
  unfold at_end.
  match goal with |- Some (?X ++ _, _) = _ => set (written := X) end.
  assert (Hw : written = stream_header P fmt).
  { unfold written, stream_header, serialized_format.
    rewrite <- !app_assoc. reflexivity. }
  assert (Hl : length written = total).
  { unfold written. rewrite !length_app, !length_take.
    change (length (literal_bytes "RIFF")) with 5%nat.
    change (length (literal_bytes "WAVE")) with 5%nat.
    change (length (literal_bytes "fmt ")) with 5%nat.
    change (length (literal_bytes "data")) with 5%nat.
    change (length (uint32_object_bytes _)) with 4%nat.
    change (length (@nil byte)) with 0%nat. lia. }
  rewrite Hl, Nat.sub_diag, app_nil_r, Hw. do 2 f_equal. lia.
Qed.

Lemma stream_header_length P fmt :
  0 <= sizeof_WAVEFORMAT P -> 0 <= cbSize fmt ->
  sizeof_WAVEFORMAT P + cbSize fmt + 28 < 2 ^ 32 ->
  sizeof_WAVEFORMAT P + cbSize fmt <= Z.of_nat (length (object_bytes fmt)) ->
  Z.of_nat (length (stream_header P fmt)) = cbHeader P fmt.
Proof.
  intros H1 H2 H3 H4.
  pose proof (cbFormatChunk_small P fmt H1 H2 H3) as Hf.
  rewrite (cbHeader_small P fmt H1 H2 H3).
  unfold stream_header, serialized_format.
  rewrite !length_app, length_take.
  change (length (uint32_object_bytes _)) with 4%nat. simpl. lia.
Qed.

Lemma uint32_object_bytes_by_division n :
  uint32_object_bytes n = little_endian_4 n.
Proof.
  assert (Hb : forall z, byte_of_Z z = byte_of_Z (z mod 256)).
  { intros z. unfold byte_of_Z. rewrite Z.mod_mod by lia. reflexivity. }
  unfold uint32_object_bytes, little_endian_4.
  rewrite !Z.shiftr_div_pow2 by lia.
  change (2 ^ 8) with 256. change (2 ^ 16) with 65536.
  change (2 ^ 24) with 16777216.
  rewrite (Hb n), (Hb (n / 256)), (Hb (n / 65536)), (Hb (n / 16777216)).
  reflexivity.
Qed.

Lemma stream_header_in_parts P fmt :
  0 <= sizeof_WAVEFORMAT P -> 0 <= cbSize fmt ->
  sizeof_WAVEFORMAT P + cbSize fmt + 28 < 2 ^ 32 ->
  sizeof_WAVEFORMAT P + cbSize fmt <= Z.of_nat (length (object_bytes fmt)) ->
  stream_header P fmt
  = riff_wave_header
      (take (Z.to_nat (sizeof_WAVEFORMAT P + cbSize fmt)) (object_bytes fmt)).
Proof.
  intros H1 H2 H3 H4.
  unfold stream_header, riff_wave_header, serialized_format.
  rewrite (cbFormatChunk_small P fmt H1 H2 H3).
  rewrite !uint32_object_bytes_by_division.
  rewrite length_take.
  replace (Z.of_nat (Z.to_nat (sizeof_WAVEFORMAT P + cbSize fmt)
                     `min` length (object_bytes fmt)))
    with (sizeof_WAVEFORMAT P + cbSize fmt) by lia.
  reflexivity.
Qed.

(** Reading a header back part by part. *)
Lemma riff_wave_header_parts (descriptor : list byte) :
  Z.of_nat (length descriptor) < 2 ^ 32 ->
  let header := riff_wave_header descriptor in
  length header = (28 + length descriptor)%nat
  /\ take 4 header = list_byte_of_string "RIFF"
  /\ little_endian_value (take 4 (drop 4 header)) = 0
  /\ take 4 (drop 8 header) = list_byte_of_string "WAVE"
  /\ take 4 (drop 12 header) = list_byte_of_string "fmt "
  /\ little_endian_value (take 4 (drop 16 header))
     = Z.of_nat (length descriptor)
  /\ take (length descriptor) (drop 20 header) = descriptor
  /\ take 4 (drop (length descriptor) (drop 20 header))
     = list_byte_of_string "data"
  /\ drop 4 (drop (length descriptor) (drop 20 header))
     = [x00; x00; x00; x00].
Proof.
  intros Hd header.
  assert (Hv : little_endian_value
                 (little_endian_4 (Z.of_nat (length descriptor)))
               = Z.of_nat (length descriptor)).
  { rewrite <- uint32_object_bytes_by_division.
    apply uint32_object_bytes_little_endian. lia. }
  unfold header, riff_wave_header.
  change (little_endian_4 0) with [x00; x00; x00; x00].
  change (list_byte_of_string "RIFF") with [x52; x49; x46; x46].
  change (list_byte_of_string "WAVE") with [x57; x41; x56; x45].
  change (list_byte_of_string "fmt ") with [x66; x6d; x74; x20].
  change (list_byte_of_string "data") with [x64; x61; x74; x61].
  set (size := little_endian_4 (Z.of_nat (length descriptor))) in *.
  assert (Hs : exists b0 b1 b2 b3, size = [b0; b1; b2; b3])
    by (unfold size, little_endian_4; eauto).
  destruct Hs as (b0 & b1 & b2 & b3 & Hs). rewrite Hs in *.
  cbn [app drop take length]. rewrite ?drop_0.
  split; [rewrite length_app; simpl; lia|].
  split; [reflexivity|]. split; [reflexivity|].
  split; [reflexivity|]. split; [reflexivity|].
  split; [exact Hv|].
  split; [apply take_app_length|].
  rewrite drop_app_length. split; reflexivity.
Qed.

(** C3.  For every readable format descriptor, [UspWriteFormat] fills its
    buffer with exactly: 'RIFF', a four-byte placeholder size of zero,
    'WAVE', 'fmt ', the four-byte size of the serialized descriptor, the
    serialized descriptor, 'data', and a four-byte zero placeholder.  The
    serialized descriptor is the leading [sizeof(WAVEFORMAT) + cbSize]
    bytes stored at [pformat]; the format size, read back from the header
    least significant byte first, is that number, the exact length of the
    serialized descriptor.  The bytes depend on the serialized descriptor
    alone; the write pointer ends exactly [cbHeader] bytes in, the length
    computed before writing, which is 28 more than the descriptor's; and
    these bytes are what is passed on to [UspWrite]. *)
Theorem UspWriteFormat_header (P : Platform) (pformat : WAVEFORMATEX) :
  format_readable P pformat ->
  let n := sizeof_WAVEFORMAT P + cbSize pformat in
  let descriptor := take (Z.to_nat n) (object_bytes pformat) in
  let header := riff_wave_header descriptor in
  UspWriteFormat_buffer P pformat = Some (header, 28 + n)
  /\ Z.of_nat (length descriptor) = n
  /\ Z.of_nat (length header) = 28 + n
  /\ cbHeader P pformat = 28 + n
  /\ take 4 header = list_byte_of_string "RIFF"
  /\ little_endian_value (take 4 (drop 4 header)) = 0
  /\ take 4 (drop 8 header) = list_byte_of_string "WAVE"
  /\ take 4 (drop 12 header) = list_byte_of_string "fmt "
  /\ little_endian_value (take 4 (drop 16 header)) = n
  /\ take (Z.to_nat n) (drop 20 header) = descriptor
  /\ take 4 (drop (Z.to_nat n) (drop 20 header)) = list_byte_of_string "data"
  /\ drop 4 (drop (Z.to_nat n) (drop 20 header)) = [x00; x00; x00; x00]
  /\ (forall pformat' : WAVEFORMATEX,
        format_readable P pformat' ->
        cbSize pformat' = cbSize pformat ->
        take (Z.to_nat n) (object_bytes pformat') = descriptor ->
        UspWriteFormat_buffer P pformat' = UspWriteFormat_buffer P pformat)
  /\ (forall handle s,
        UspWriteFormat P handle pformat s
        = UspWrite P (m_handle (fst s)) header (28 + n) s).
Proof.
  intros (H1 & H2 & H3 & H4) n descriptor header.
  pose proof (cbFormatChunk_small P pformat H1 H2 H3) as Hf.
  pose proof (cbHeader_small P pformat H1 H2 H3) as Hh.
  pose proof (UspWriteFormat_buffer_run P pformat H1 H2 H3 H4) as Hrun.
  rewrite (stream_header_in_parts P pformat H1 H2 H3 H4) in Hrun.
  fold n in Hf, Hrun. fold descriptor in Hrun. fold header in Hrun.
  rewrite Hh, Hf in Hrun.
  assert (Hd : Z.of_nat (length descriptor) = n)
    by (unfold descriptor; rewrite length_take; lia).
  assert (Hdn : length descriptor = Z.to_nat n) by lia.
  destruct (riff_wave_header_parts descriptor ltac:(lia))
    as (P0 & P1 & P2 & P3 & P4 & P5 & P6 & P7 & P8).
  fold header in P0, P1, P2, P3, P4, P5, P6, P7, P8.
  rewrite Hdn in P6, P7, P8.
  split; [exact Hrun|]. split; [exact Hd|]. split; [lia|].
  split; [lia|]. split; [exact P1|]. split; [exact P2|].
  split; [exact P3|]. split; [exact P4|]. split; [lia|].
  split; [exact P6|]. split; [exact P7|]. split; [exact P8|]. split.
  - intros pformat' (H1' & H2' & H3' & H4') Hcb Hbytes.
    rewrite Hrun.
    rewrite (UspWriteFormat_buffer_run P pformat' H1' H2' H3' H4').
    rewrite (stream_header_in_parts P pformat' H1' H2' H3' H4').
    rewrite (cbHeader_small P pformat' H1' H2' H3').
    rewrite (cbFormatChunk_small P pformat' H1' H2' H3').
    rewrite Hcb. fold n. rewrite Hbytes. reflexivity.
  - intros handle s. unfold UspWriteFormat.
    rewrite (UspWriteFormat_buffer_run P pformat H1 H2 H3 H4).
    rewrite (stream_header_in_parts P pformat H1 H2 H3 H4).
    rewrite Hh, Hf.
    unfold bind, get_this. reflexivity.
Qed.

Lemma UspWriteFormat_header_witness :
  UspWriteFormat_buffer plain_platform pcm_16k
  = Some (list_byte_of_string "RIFF" ++ [x00; x00; x00; x00]
          ++ list_byte_of_string "WAVE"
          ++ list_byte_of_string "fmt " ++ [x10; x00; x00; x00]
          ++ take 16 pcm_16k_object_bytes
          ++ list_byte_of_string "data" ++ [x00; x00; x00; x00], 44).
Proof.
  assert (Hr : format_readable plain_platform pcm_16k).
  { unfold format_readable. simpl. lia. }
  pose proof (UspWriteFormat_header plain_platform pcm_16k Hr) as H.
  cbv zeta in H. exact (proj1 H).
Defined.

(* ------------------------------------------------------------------ *)
(** ** The audio writer, pass by pass *)

Arguments UspWrite_Actual : simpl never.

Ltac unfold_pass :=
  unfold UspWrite_Buffered_pass, bind, get_this, when, modify_this, ret;
  simpl.

Lemma UspWrite_Actual_run P handle buffer n a w :
  UspWrite_Actual P handle buffer n (a, w) =
  (if SPX_FAILED (audio_hr P w handle buffer n)
   then Thrown (audio_hr P w handle buffer n) else Returned tt,
   (a, after_audio w handle buffer n)).
Proof.
  unfold UspWrite_Actual, audio_hr, after_audio, call_usp, DumpFileWrite,
    SPX_IFFAILED_THROW_HR, bind, get_world, modify_world, ret, throw.
  simpl. destruct (SPX_FAILED _); reflexivity.
Qed.

Lemma accepted_audio_hr P w handle buffer n :
  accepts_audio P handle -> 0 <= n <= Z.of_nat (length buffer) ->
  SPX_FAILED (audio_hr P w handle buffer n) = false.
Proof.
  intros Hacc Hn. unfold audio_hr.
  destruct (Hacc (usp_calls w) (take (Z.to_nat n) buffer)) as [H0 | [Hnil HE]].
  - rewrite H0. destruct (_ && _); reflexivity.
  - rewrite HE, Z.eqb_refl, andb_true_r.
    assert (n = 0).
    { apply (f_equal length) in Hnil. rewrite length_take in Hnil.
      simpl in Hnil. lia. }
    subst n. reflexivity.
Qed.

Lemma memcpy_start (mem src : list byte) (k : Z) :
  0 <= k <= Z.of_nat (length src) -> k <= Z.of_nat (length mem) ->
  memcpy mem 0 src k
  = Some (take (Z.to_nat k) src ++ drop (Z.to_nat k) mem).
Proof.
  intros Hk Hm. unfold memcpy.
  replace ((0 <=? 0) && (0 <=? k) && (k <=? Z.of_nat (length src))
           && (0 + k <=? Z.of_nat (length mem))) with true.
  - rewrite Z.add_0_l. reflexivity.
  - symmetry. repeat (apply andb_true_intro; split); apply Z.leb_le; lia.
Qed.

Lemma pass_copy P handle buffer n h ub ms size mem cap ptr left w mem' k :
  n <> 0 -> (0 <? cap) && (left =? 0) = false ->
  Z.min n left = k ->
  memcpy mem ptr buffer k = Some mem' ->
  UspWrite_Buffered_pass P handle buffer false n
    (mkAdapter h ub ms size (Some mem) cap (Some ptr) left, w) =
  (Returned (Some (size_sub n k)),
   (mkAdapter h ub ms size (Some mem') cap (Some (ptr + k)) (size_sub left k),
    w)).
Proof.
  intros Hn Hc Hk Hm. unfold_pass. rewrite Hc. simpl.
  apply Z.eqb_neq in Hn. rewrite Hn. simpl. rewrite Hk, Hm. reflexivity.
Qed.

Lemma pass_full P handle buffer n h ub ms size mem cap ptr w mem' k :
  n <> 0 -> 0 < cap ->
  SPX_FAILED (audio_hr P w handle mem (size_sub cap 0)) = false ->
  Z.min n cap = k ->
  memcpy mem 0 buffer k = Some mem' ->
  UspWrite_Buffered_pass P handle buffer false n
    (mkAdapter h ub ms size (Some mem) cap (Some ptr) 0, w) =
  (Returned (Some (size_sub n k)),
   (mkAdapter h ub ms size (Some mem') cap (Some (0 + k)) (size_sub cap k),
    after_audio w handle mem (size_sub cap 0))).
Proof.
  intros Hn Hc Hs Hk Hm. unfold_pass.
  apply Z.ltb_lt in Hc. rewrite Hc. simpl.
  rewrite UspWrite_Actual_run, Hs. simpl.
  apply Z.eqb_neq in Hn. rewrite Hn. simpl. rewrite Hk, Hm. reflexivity.
Qed.

Lemma pass_break P handle buffer h ub ms size mem cap ptr left w :
  (0 <? cap) && (left =? 0) = false ->
  UspWrite_Buffered_pass P handle buffer false 0
    (mkAdapter h ub ms size (Some mem) cap (Some ptr) left, w) =
  (Returned None, (mkAdapter h ub ms size (Some mem) cap (Some ptr) left, w)).
Proof. intros Hc. unfold_pass. rewrite Hc. reflexivity. Qed.

Lemma pass_break_full P handle buffer h ub ms size mem cap ptr w :
  0 < cap ->
  SPX_FAILED (audio_hr P w handle mem (size_sub cap 0)) = false ->
  UspWrite_Buffered_pass P handle buffer false 0
    (mkAdapter h ub ms size (Some mem) cap (Some ptr) 0, w) =
  (Returned None,
   (mkAdapter h ub ms size (Some mem) cap (Some 0) cap,
    after_audio w handle mem (size_sub cap 0))).
Proof.
  intros Hc Hs. unfold_pass. apply Z.ltb_lt in Hc. rewrite Hc. simpl.
  rewrite UspWrite_Actual_run, Hs. reflexivity.
Qed.

Lemma size_sub_small a b : 0 <= b <= a -> a < 2 ^ 64 -> size_sub a b = a - b.
Proof. intros. unfold size_sub, to_size_t. apply Z.mod_small. lia. Qed.

Lemma loop_step P fuel handle buffer flush n s :
  UspWrite_Buffered_loop P (S fuel) handle buffer flush n s =
  match UspWrite_Buffered_pass P handle buffer flush n s with
  | (Returned None, s') => (Returned tt, s')
  | (Returned (Some n'), s') =>
      UspWrite_Buffered_loop P fuel handle buffer flush n' s'
  | (Thrown hr, s') => (Thrown hr, s')
  | (Undefined, s') => (Undefined, s')
  | (Diverges, s') => (Diverges, s')
  end.
Proof.
  simpl. unfold bind.
  destruct (UspWrite_Buffered_pass P handle buffer flush n s) as [[[?|]| | |] ?];
    reflexivity.
Qed.

(** A write of exactly the capacity into an empty allocated buffer. *)
Lemma loop_exact P fuel handle data h ub ms size mem cap w :
  0 < cap < 2 ^ 64 -> Z.of_nat (length mem) = cap ->
  Z.of_nat (length data) = cap -> accepts_audio P handle ->
  UspWrite_Buffered_loop P (S (S fuel)) handle data false cap
    (mkAdapter h ub ms size (Some mem) cap (Some 0) cap, w) =
  (Returned tt,
   (mkAdapter h ub ms size (Some data) cap (Some 0) cap,
    after_audio w handle data cap)).
Proof.
  intros Hcap Hmem Hdata Hacc.
  assert (Hm1 : memcpy mem 0 data cap = Some data).
  { rewrite memcpy_start by lia.
    rewrite take_ge, drop_ge, app_nil_r by lia. reflexivity. }
  rewrite loop_step.
  rewrite (pass_copy P handle data cap h ub ms size mem cap 0 cap w data cap);
    [ | lia | | lia | assumption ].
  2:{ replace (cap =? 0) with false by (symmetry; apply Z.eqb_neq; lia).
      apply andb_false_r. }
  rewrite !size_sub_small by lia. rewrite Z.sub_diag.
  rewrite loop_step.
  rewrite pass_break_full; [ | lia | apply accepted_audio_hr; [assumption | rewrite size_sub_small; lia] ].
  rewrite size_sub_small by lia. rewrite Z.sub_0_r. reflexivity.
Qed.

(** A write longer than the capacity, shorter than twice the capacity,
    into an empty allocated buffer: the second pass copies from the start
    of the caller's data again. *)
Lemma loop_spanning P fuel handle data n h ub ms size mem cap w :
  0 < cap < 2 ^ 64 -> Z.of_nat (length mem) = cap ->
  Z.of_nat (length data) = n -> cap < n < 2 * cap -> n < 2 ^ 64 ->
  accepts_audio P handle ->
  UspWrite_Buffered_loop P (S (S (S fuel))) handle data false n
    (mkAdapter h ub ms size (Some mem) cap (Some 0) cap, w) =
  (Returned tt,
   (mkAdapter h ub ms size
      (Some (take (Z.to_nat (n - cap)) data
             ++ drop (Z.to_nat (n - cap)) (take (Z.to_nat cap) data)))
      cap (Some (n - cap)) (cap - (n - cap)),
    after_audio w handle (take (Z.to_nat cap) data) cap)).
Proof.
  intros Hcap Hmem Hdata Hn Hn64 Hacc.
  set (mem1 := take (Z.to_nat cap) data).
  assert (Hl1 : Z.of_nat (length mem1) = cap).
  { unfold mem1. rewrite length_take. lia. }
  assert (Hm1 : memcpy mem 0 data cap = Some mem1).
  { rewrite memcpy_start by lia. rewrite drop_ge, app_nil_r by lia.
    reflexivity. }
  rewrite loop_step.
  rewrite (pass_copy P handle data n h ub ms size mem cap 0 cap w mem1 cap);
    [ | lia | | lia | assumption ].
  2:{ replace (cap =? 0) with false by (symmetry; apply Z.eqb_neq; lia).
      apply andb_false_r. }
  rewrite !size_sub_small by lia. rewrite Z.sub_diag.
  rewrite loop_step.
  rewrite (pass_full P handle data (n - cap) h ub ms size mem1 cap (0 + cap) w
             (take (Z.to_nat (n - cap)) data ++ drop (Z.to_nat (n - cap)) mem1)
             (n - cap));
    [ | lia | lia
      | apply accepted_audio_hr; [assumption | rewrite size_sub_small; lia]
      | lia | apply memcpy_start; lia ].
  rewrite !size_sub_small by lia. rewrite Z.sub_diag, Z.sub_0_r, Z.add_0_l.
  rewrite loop_step.
  rewrite pass_break.
  2:{ replace (cap - (n - cap) =? 0) with false
        by (symmetry; apply Z.eqb_neq; lia).
      apply andb_false_r. }
  reflexivity.
Qed.

(** A zero-byte buffered write: one send of the filled portion, then the
    buffer is released. *)
Lemma UspWrite_Buffered_zero P handle buffer a w :
  let a' := ready_buffer a in
  let hr := audio_hr P w handle (buffer_bytes (m_buffer a')) (bytes_retained a') in
  UspWrite_Buffered P handle buffer 0 (a, w) =
  (if SPX_FAILED hr then Thrown hr else Returned tt,
   (if SPX_FAILED hr then a' else release_buffer a',
    after_audio w handle (buffer_bytes (m_buffer a')) (bytes_retained a'))).
Proof.
  destruct a as [h ub ms size [mem|] cap ptr left];
    unfold UspWrite_Buffered, ready_buffer, bytes_retained, bind, get_this,
      when, modify_this, ret; simpl;
    unfold_pass; rewrite UspWrite_Actual_run;
    destruct (SPX_FAILED _); reflexivity.
Qed.

Lemma after_audio_calls w handle buffer n :
  usp_calls (after_audio w handle buffer n)
  = usp_calls w ++ [UspWriteAudio handle (take (Z.to_nat n) buffer)].
Proof. reflexivity. Qed.

Lemma UspWrite_Buffered_fresh P handle data n a w :
  m_buffer a = None ->
  UspWrite_Buffered P handle data n (a, w)
  = UspWrite_Buffered_loop P (S (S (Z.to_nat n))) handle data (n =? 0) n
      (allocate_buffer a, w).
Proof.
  intros Hb. unfold UspWrite_Buffered, bind, get_this, when, modify_this.
  simpl. rewrite Hb. reflexivity.
Qed.

Lemma UspWrite_Buffered_allocated P handle data n a w mem :
  m_buffer a = Some mem ->
  UspWrite_Buffered P handle data n (a, w)
  = UspWrite_Buffered_loop P (S (S (Z.to_nat n))) handle data (n =? 0) n (a, w).
Proof.
  intros Hb. unfold UspWrite_Buffered, bind, get_this, when, modify_this.
  simpl. rewrite Hb. reflexivity.
Qed.

Lemma UspWrite_buffered P handle data n a w :
  m_fUseBufferedImplementation a = true ->
  m_servicePreferedBufferSize a <> 0 ->
  UspWrite P handle data n (a, w) = UspWrite_Buffered P handle data n (a, w).
Proof.
  intros Hu Hs. unfold UspWrite, UspWrite_fn, bind, get_this. simpl.
  rewrite Hu. apply Z.eqb_neq in Hs. rewrite Hs. reflexivity.
Qed.

Lemma UspWrite_direct P handle data n a w :
  m_fUseBufferedImplementation a = false \/ m_servicePreferedBufferSize a = 0 ->
  UspWrite P handle data n (a, w) = UspWrite_Actual P handle data n (a, w).
Proof.
  intros H. unfold UspWrite, UspWrite_fn, bind, get_this. simpl.
  destruct H as [H | H]; rewrite H; [reflexivity|].
  rewrite orb_true_r. reflexivity.
Qed.

(* ------------------------------------------------------------------ *)
(** ** Buffered writes *)

(** C5.  With buffering in effect and nothing held in the accumulation
    buffer, a single write whose length is exactly the capacity returns
    normally after exactly one call of [::UspWriteAudio], which carries
    those capacity-many bytes; no further (empty) send is made, and the
    buffer is empty afterwards: the remaining capacity is the whole
    capacity and the cursor is back at the start. *)
Theorem write_of_capacity_sends_once (P : Platform) (a : Adapter) (w : World)
    (data : list byte) :
  m_fUseBufferedImplementation a = true ->
  m_servicePreferedBufferSize a <> 0 ->
  buffer_empty a ->
  0 < capacity a < 2 ^ 64 ->
  Z.of_nat (length data) = capacity a ->
  accepts_audio P (m_handle a) ->
  let r := ProcessAudio P data (capacity a) (a, w) in
  outcome_of r = Returned tt
  /\ usp_calls (world_of r) = usp_calls w ++ [UspWriteAudio (m_handle a) data]
  /\ m_bytesInBuffer (adapter_of r) = capacity a
  /\ m_bytesLeftInBuffer (adapter_of r) = capacity a
  /\ m_ptrIntoBuffer (adapter_of r) = Some 0
  /\ bytes_retained (adapter_of r) = 0.
Proof.
  intros Hu Hs He Hcap Hlen Hacc r.
  assert (Hr : r = (Returned tt,
                    (mkAdapter (m_handle a) (m_fUseBufferedImplementation a)
                       (m_servicePreferedMilliseconds a)
                       (m_servicePreferedBufferSize a)
                       (Some data) (capacity a) (Some 0) (capacity a),
                     after_audio w (m_handle a) data (capacity a)))).
  { unfold r, ProcessAudio, bind, get_this. simpl.
    rewrite UspWrite_buffered by assumption.
    assert (Hz : (capacity a =? 0) = false) by (apply Z.eqb_neq; lia).
    destruct a as [h ub ms size [mem|] bi ptr left];
      unfold capacity, buffer_empty in *; simpl in *.
    - destruct He as (Hm & Hp & Hl). subst ptr left.
      erewrite UspWrite_Buffered_allocated by reflexivity.
      rewrite Hz. apply loop_exact; assumption.
    - rewrite UspWrite_Buffered_fresh by reflexivity.
      rewrite Hz. unfold allocate_buffer. simpl.
      apply loop_exact; try assumption.
      unfold SpxAllocSharedUint8Buffer. rewrite length_replicate. lia. }
  rewrite Hr. unfold outcome_of, world_of, adapter_of, bytes_retained. simpl.
  rewrite take_ge by lia.
  repeat split; try reflexivity.
  unfold size_sub, to_size_t. rewrite Z.sub_diag. reflexivity.
Qed.

Lemma plain_platform_accepts h : accepts_audio plain_platform h.
Proof.
  intros calls [|b block]; [right; split; reflexivity | left; reflexivity].
Qed.

Lemma SetFormat_run P a w fmt :
  m_handle a <> INVALID_USP_HANDLE -> format_readable P fmt ->
  SetFormat P (Some fmt) (a, w)
  = bind (UspWrite P (m_handle a) (stream_header P fmt) (cbHeader P fmt))
         (fun _ => modify_this (fun a' =>
            set_servicePreferedBufferSize (preferred_buffer_size fmt a') a'))
         (a, w).
Proof.
  intros Hh (H1 & H2 & H3 & H4).
  unfold SetFormat, UspWriteFormat, IsUspHandleValid, SPX_IFTRUE_THROW_HR.
  rewrite (UspWriteFormat_buffer_run P fmt H1 H2 H3 H4).
  unfold bind at 1. unfold get_this at 1. simpl.
  apply Z.eqb_neq in Hh. rewrite Hh. simpl.
  unfold bind at 1. unfold ret at 1.
  unfold bind, get_this. simpl. reflexivity.
Qed.

Lemma SetFormat_flush P a w :
  m_handle a <> INVALID_USP_HANDLE ->
  SetFormat P None (a, w) = UspWrite_Buffered P (m_handle a) [] 0 (a, w).
Proof.
  intros Hh. unfold SetFormat, IsUspHandleValid, SPX_IFTRUE_THROW_HR.
  unfold bind, get_this. simpl.
  apply Z.eqb_neq in Hh. rewrite Hh. reflexivity.
Qed.

Lemma UspWrite_Buffered_spanning P handle data n a w :
  m_buffer a = None ->
  0 < m_servicePreferedBufferSize a < 2 ^ 64 ->
  Z.of_nat (length data) = n ->
  m_servicePreferedBufferSize a < n < 2 * m_servicePreferedBufferSize a ->
  n < 2 ^ 64 ->
  accepts_audio P handle ->
  let cap := m_servicePreferedBufferSize a in
  UspWrite_Buffered P handle data n (a, w) =
  (Returned tt,
   (mkAdapter (m_handle a) (m_fUseBufferedImplementation a)
      (m_servicePreferedMilliseconds a) cap
      (Some (take (Z.to_nat (n - cap)) data
             ++ drop (Z.to_nat (n - cap)) (take (Z.to_nat cap) data)))
      cap (Some (n - cap)) (cap - (n - cap)),
    after_audio w handle (take (Z.to_nat cap) data) cap)).
Proof.
  intros Hb Hcap Hlen Hn Hn64 Hacc cap.
  rewrite UspWrite_Buffered_fresh by assumption.
  replace (n =? 0) with false by (symmetry; apply Z.eqb_neq; lia).
  replace (Z.to_nat n) with (S (Z.to_nat (n - 1))) by lia.
  unfold allocate_buffer. fold cap.
  apply loop_spanning; try assumption; try (unfold cap; lia).
  unfold SpxAllocSharedUint8Buffer. rewrite length_replicate. unfold cap. lia.
Qed.

(** The 16 kHz scenario for every payload of 5000 bytes.  On an adapter
    fresh from the constructor (buffering on, 100 ms target) and bound to
    a valid handle: [SetFormat] with 16000 samples per second and block
    alignment 2 sets the buffer size to 16000*2*100/1000 = 3200; one
    [ProcessAudio] of 5000 bytes then makes exactly one send, of the first
    3200 bytes, and keeps 1800 bytes in the buffer; the flush that follows
    makes exactly one send, of the 1800 bytes the buffer holds, and leaves
    nothing behind.  The 1800 bytes held are the first 1800 bytes of the
    payload. *)
Lemma scenario_16k_5000 (P : Platform) (h : UspHandle) (w : World)
    (pformat : WAVEFORMATEX) (data : list byte) :
  h <> INVALID_USP_HANDLE ->
  nSamplesPerSec pformat = 16000 -> nBlockAlign pformat = 2 ->
  format_readable P pformat ->
  Z.of_nat (length data) = 5000 ->
  accepts_audio P h ->
  let a0 := set_handle h (CSpxUspRecoEngineAdapter true 100) in
  let r1 := SetFormat P (Some pformat) (a0, w) in
  let r2 := ProcessAudio P data 5000 (state_of r1) in
  let r3 := SetFormat P None (state_of r2) in
  outcome_of r1 = Returned tt
  /\ m_servicePreferedBufferSize (adapter_of r1) = 16000 * 2 * 100 / 1000
  /\ capacity (adapter_of r1) = 3200
  /\ outcome_of r2 = Returned tt
  /\ m_bytesInBuffer (adapter_of r2) = 3200
  /\ usp_calls (world_of r2)
     = usp_calls (world_of r1) ++ [UspWriteAudio h (take (Z.to_nat 3200) data)]
  /\ Z.of_nat (length (take (Z.to_nat 3200) data)) = 3200
  /\ bytes_retained (adapter_of r2) = 1800
  /\ outcome_of r3 = Returned tt
  /\ usp_calls (world_of r3)
     = usp_calls (world_of r2)
       ++ [UspWriteAudio h (retained_bytes (adapter_of r2))]
  /\ Z.of_nat (length (retained_bytes (adapter_of r2))) = 1800
  /\ bytes_retained (adapter_of r3) = 0
  /\ retained_bytes (adapter_of r2) = take (Z.to_nat 1800) data.
Proof.
  intros Hh Hsps Hba Hfmt Hlen Hacc a0 r1 r2 r3.
  pose proof Hfmt as (F1 & F2 & F3 & F4).
  pose proof (stream_header_length P pformat F1 F2 F3 F4) as Hhl.
  pose proof (cbHeader_small P pformat F1 F2 F3) as Hhs.
  pose proof (cbFormatChunk_small P pformat F1 F2 F3) as Hfs.
  (* SetFormat: the header goes out directly, then the size is set. *)
  assert (E1 : r1 = (Returned tt,
                     (mkAdapter h true 100 3200 None 0 None 0,
                      after_audio w h (stream_header P pformat)
                        (cbHeader P pformat)))).
  { unfold r1. rewrite SetFormat_run by assumption.
    unfold bind. rewrite UspWrite_direct by (right; reflexivity).
    rewrite UspWrite_Actual_run.
    rewrite accepted_audio_hr by (try assumption; lia).
    unfold modify_this, preferred_buffer_size. simpl.
    rewrite Hsps, Hba. reflexivity. }
  set (a1 := mkAdapter h true 100 3200 None 0 None 0) in *.
  set (w1 := after_audio w h (stream_header P pformat) (cbHeader P pformat)) in *.
  (* ProcessAudio: one full block goes out, the rest stays. *)
  assert (E2 : r2 = (Returned tt,
                     (mkAdapter h true 100 3200
                        (Some (take (Z.to_nat (5000 - 3200)) data
                               ++ drop (Z.to_nat (5000 - 3200))
                                    (take (Z.to_nat 3200) data)))
                        3200 (Some (5000 - 3200)) (3200 - (5000 - 3200)),
                      after_audio w1 h (take (Z.to_nat 3200) data) 3200))).
  { unfold r2. rewrite E1. unfold state_of, ProcessAudio, bind, get_this.
    cbn [fst snd]. 
    rewrite UspWrite_buffered by (unfold a1; cbn; first [reflexivity | lia]).
    apply (UspWrite_Buffered_spanning P h data 5000 a1 w1);
      unfold a1; cbn [m_buffer m_servicePreferedBufferSize];
      try assumption; try reflexivity; lia. }
  set (mem2 := take (Z.to_nat (5000 - 3200)) data
               ++ drop (Z.to_nat (5000 - 3200)) (take (Z.to_nat 3200) data)) in *.
  set (a2 := mkAdapter h true 100 3200 (Some mem2) 3200 (Some (5000 - 3200))
               (3200 - (5000 - 3200))) in *.
  set (w2 := after_audio w1 h (take (Z.to_nat 3200) data) 3200) in *.
  assert (Hl2 : Z.of_nat (length mem2) = 3200).
  { unfold mem2. rewrite length_app, length_take, length_drop, length_take. lia. }
  assert (Hret : bytes_retained a2 = 1800) by reflexivity.
  (* Flush: the retained bytes go out and the buffer is released. *)
  assert (E3 : r3 = (Returned tt,
                     (release_buffer a2,
                      after_audio w2 h mem2 (bytes_retained a2)))).
  { unfold r3. rewrite E2. unfold state_of. cbn [snd].
    rewrite SetFormat_flush by assumption.
    change (m_handle a2) with h.
    rewrite UspWrite_Buffered_zero.
    change (ready_buffer a2) with a2.
    change (buffer_bytes (m_buffer a2)) with mem2.
    rewrite accepted_audio_hr by (try assumption; rewrite Hret; lia).
    reflexivity. }
  rewrite E1, E2, E3.
  unfold outcome_of, adapter_of, world_of. cbn [fst snd].
  repeat split; try reflexivity.
  - unfold w2. rewrite after_audio_calls, take_take, Nat.min_id. reflexivity.
  - rewrite length_take. lia.
  - unfold retained_bytes. change (buffer_bytes (m_buffer a2)) with mem2.
    rewrite length_take, Hret. lia.
  - unfold retained_bytes. change (buffer_bytes (m_buffer a2)) with mem2.
    rewrite Hret. unfold mem2.
    change (5000 - 3200) with 1800.
    apply take_app_length'. rewrite length_take. lia.
Qed.

Lemma write_of_capacity_sends_once_witness :
  let a := mkAdapter 1 true 100 2 None 0 None 0 in
  let r := ProcessAudio plain_platform [x01; x02] 2 (a, world_with ∅) in
  outcome_of r = Returned tt
  /\ usp_calls (world_of r) = [UspWriteAudio 1 [x01; x02]]
  /\ m_bytesInBuffer (adapter_of r) = 2
  /\ m_bytesLeftInBuffer (adapter_of r) = 2
  /\ m_ptrIntoBuffer (adapter_of r) = Some 0
  /\ bytes_retained (adapter_of r) = 0.
Proof.
  apply (write_of_capacity_sends_once plain_platform
           (mkAdapter 1 true 100 2 None 0 None 0) (world_with ∅) [x01; x02]).
  - reflexivity.
  - simpl. lia.
  - exact I.
  - unfold capacity. simpl. lia.
  - reflexivity.
  - apply plain_platform_accepts.
Defined.

(* ------------------------------------------------------------------ *)
(** ** Byte order across an over-long write *)

(** C1.  The code evaluated where the claim fails.  With a two-byte
    buffer, one write of the three bytes 1, 2, 3 followed by a flush
    hands the transport the blocks [1; 2] and [1]: the second pass of the
    loop copies from the start of the caller's data again, so byte 1 is
    sent twice and byte 3 never. *)
Theorem buffered_write_resends_prefix :
  let r1 := SetFormat plain_platform (Some tiny_format)
              (initialized_adapter, world_with ∅) in
  let r2 := ProcessAudio plain_platform [x01; x02; x03] 3 (state_of r1) in
  let r3 := SetFormat plain_platform None (state_of r2) in
  outcome_of r3 = Returned tt
  /\ m_servicePreferedBufferSize (adapter_of r1) = 2
  /\ audio_blocks (usp_calls (world_of r1))
     = [stream_header plain_platform tiny_format]
  /\ audio_blocks (usp_calls (world_of r3))
     = [stream_header plain_platform tiny_format; [x01; x02]; [x01]]
  /\ concat (drop 1 (audio_blocks (usp_calls (world_of r3))))
     <> [x01; x02; x03].
Proof.
  vm_compute. repeat split; try reflexivity. discriminate.
Qed.

(** C2.  The code evaluated where the claim fails.  On an adapter fresh
    from the constructor and bound to handle 1, after [SetFormat] with
    16000 samples per second and block alignment 2 the capacity is 3200;
    one [ProcessAudio] of the 5000 bytes 0, 1, 2, ... (modulo 256) makes
    one send of 3200 bytes and keeps 1800; the flush makes one send of
    1800 bytes and keeps nothing.  But the 1800 bytes kept and flushed are
    the first 1800 bytes of the payload, beginning with byte 0, and not
    the 1800 bytes that remain of it, which begin with byte 128: the copy
    loop starts from the beginning of the caller's data in each pass. *)
Theorem scenario_16k_5000_flush_resends_start :
  let data := ramp 5000 in
  let r1 := SetFormat plain_platform (Some pcm_16k)
              (initialized_adapter, world_with ∅) in
  let r2 := ProcessAudio plain_platform data 5000 (state_of r1) in
  let r3 := SetFormat plain_platform None (state_of r2) in
  capacity (adapter_of r1) = 3200
  /\ usp_calls (world_of r2)
     = usp_calls (world_of r1) ++ [UspWriteAudio 1 (take 3200 data)]
  /\ length (take 3200 data) = 3200%nat
  /\ bytes_retained (adapter_of r2) = 1800
  /\ retained_bytes (adapter_of r2) = take 1800 data
  /\ usp_calls (world_of r3)
     = usp_calls (world_of r2) ++ [UspWriteAudio 1 (take 1800 data)]
  /\ length (take 1800 data) = 1800%nat
  /\ bytes_retained (adapter_of r3) = 0
  /\ take 1800 data !! 0%nat = Some x00
  /\ drop 3200 data !! 0%nat = Some x80
  /\ take 1800 data <> drop 3200 data
  /\ take 3200 data ++ take 1800 data <> data.
Proof.
  intros data r1 r2 r3.
  assert (Hh : (1 : UspHandle) <> INVALID_USP_HANDLE)
    by (unfold INVALID_USP_HANDLE; lia).
  assert (Hr : format_readable plain_platform pcm_16k).
  { unfold format_readable. simpl. lia. }
  assert (Hl : Z.of_nat (length data) = 5000).
  { unfold data, ramp. rewrite length_map, length_seq. lia. }
  pose proof (scenario_16k_5000 plain_platform 1 (world_with ∅) pcm_16k
                data Hh eq_refl eq_refl Hr Hl
                (plain_platform_accepts 1)) as H.
  cbv zeta in H.
  change (set_handle 1 (CSpxUspRecoEngineAdapter true 100))
    with initialized_adapter in H.
  fold r1 in H. fold r2 in H. fold r3 in H.
  destruct H as (_ & _ & H3 & _ & _ & H6 & H7 & H8 & _ & H10 & H11 & H12 & H13).
  change (Z.to_nat 3200) with 3200%nat in *.
  change (Z.to_nat 1800) with 1800%nat in *.
  assert (Hfirst : take 1800 data !! 0%nat = Some x00)
    by (vm_compute; reflexivity).
  assert (Hrest : drop 3200 data !! 0%nat = Some x80)
    by (vm_compute; reflexivity).
  assert (Hne : take 1800 data <> drop 3200 data).
  { intros E. rewrite E, Hrest in Hfirst. discriminate Hfirst. }
  split; [exact H3|]. split; [exact H6|].
  split; [rewrite length_take; lia|]. split; [exact H8|].
  split; [exact H13|]. split; [rewrite H10, H13; reflexivity|].
  split; [rewrite length_take; lia|]. split; [exact H12|].
  split; [exact Hfirst|]. split; [exact Hrest|]. split; [exact Hne|].
  intros E. apply Hne.
  rewrite <- (take_drop 3200 data) in E at 3.
  apply app_inv_head in E. exact E.
Qed.

(* ------------------------------------------------------------------ *)
(** ** Transport failures *)

(** C7 (amended).  [UspWrite_Actual] makes exactly one call of
    [::UspWriteAudio].  When that call answers [USP_WRITE_AUDIO_ERROR] and
    the byte count is zero, the write returns normally; when it answers
    success, the write returns normally; every other failure, that is any
    failure of a non-empty send and any failure code other than
    [USP_WRITE_AUDIO_ERROR], is thrown to the caller unchanged. *)
Theorem UspWrite_Actual_failure_policy (P : Platform) (handle : UspHandle)
    (buffer : list byte) (byteToWrite : Z) (a : Adapter) (w : World) :
  let call := UspWriteAudio handle (take (Z.to_nat byteToWrite) buffer) in
  let hr := usp_result P (usp_calls w) call in
  let r := UspWrite_Actual P handle buffer byteToWrite (a, w) in
  usp_calls (world_of r) = usp_calls w ++ [call]
  /\ (byteToWrite = 0 -> hr = USP_WRITE_AUDIO_ERROR P ->
      outcome_of r = Returned tt)
  /\ (hr = SPX_NOERROR -> outcome_of r = Returned tt)
  /\ (hr <> SPX_NOERROR ->
      byteToWrite <> 0 \/ hr <> USP_WRITE_AUDIO_ERROR P ->
      outcome_of r = Thrown hr).
Proof.
  intros call hr r. unfold r. rewrite UspWrite_Actual_run.
  unfold outcome_of, world_of, audio_hr. cbn [fst snd].
  fold call. fold hr.
  split; [reflexivity|]. split; [|split].
  - intros Hn He. subst byteToWrite. rewrite He, !Z.eqb_refl. reflexivity.
  - intros H0. rewrite H0. destruct (_ && _); reflexivity.
  - intros Hf Hother.
    assert (Hc : (byteToWrite =? 0) && (hr =? USP_WRITE_AUDIO_ERROR P) = false).
    { apply andb_false_iff.
      destruct Hother as [Hn | He]; [left | right]; apply Z.eqb_neq; assumption. }
    rewrite Hc. unfold SPX_FAILED.
    apply Z.eqb_neq in Hf. rewrite Hf. reflexivity.
Qed.

Lemma UspWrite_Actual_failure_policy_witness :
  outcome_of (UspWrite_Actual plain_platform 1 [] 0
                (initialized_adapter, world_with ∅)) = Returned tt
  /\ outcome_of (UspWrite_Actual failing_platform 1 [x01] 1
                (initialized_adapter, world_with ∅)) = Thrown 9.
Proof.
  split.
  - pose proof (UspWrite_Actual_failure_policy plain_platform 1 [] 0
                  initialized_adapter (world_with ∅)) as H.
    cbv zeta in H. destruct H as (_ & H & _).
    apply H; reflexivity.
  - pose proof (UspWrite_Actual_failure_policy failing_platform 1 [x01] 1
                  initialized_adapter (world_with ∅)) as H.
    cbv zeta in H. destruct H as (_ & _ & _ & H).
    apply H.
    + simpl. unfold SPX_NOERROR. lia.
    + left. lia.
Defined.

(** C7, as stated, fails: a zero-byte send that the transport rejects with
    a code other than [USP_WRITE_AUDIO_ERROR] is thrown, not swallowed. *)
Lemma zero_length_failure_is_thrown :
  ~ zero_length_failure_swallowed failing_platform 1 []
      (initialized_adapter, world_with ∅).
Proof.
  unfold zero_length_failure_swallowed. intros H.
  specialize (H eq_refl). vm_compute in H. discriminate H.
Qed.

(* ------------------------------------------------------------------ *)
(** ** Endpoint resolution *)

Lemma query_named_properties_run P a w properties :
  site_present w = true -> named_properties w = Some properties ->
  query_named_properties P (a, w) = (Returned properties, (a, w)).
Proof.
  intros Hs Hp. unfold query_named_properties, bind, get_world. simpl.
  rewrite Hs, Hp. reflexivity.
Qed.

Lemma wstring_empty_false s : s <> EmptyString -> wstring_empty s = false.
Proof. destruct s; [congruence | reflexivity]. Qed.

(** C4.  The endpoint type is a function of the named properties alone,
    computed without any effect, first match first: a non-empty
    custom-model identifier gives the CRIS (custom model) endpoint whatever
    else is set; otherwise an endpoint equal to CORTANA up to letter case
    gives the CDSDK (agent) endpoint; otherwise any other non-empty
    endpoint gives the unknown type, for which [GetUspCustomEndpoint] hands
    the URL on unchanged; otherwise the default speech endpoint; and with
    no property set at all the type is the default speech endpoint and the
    recognition mode is interactive. *)
Theorem endpoint_resolution (P : Platform) (properties : gmap string string) :
  let endpoint := GetStringValue properties "SPEECH-Endpoint" in
  let modelId := GetStringValue properties "CUSTOMSPEECH-modelId" in
  exists type,
    (forall a w,
        site_present w = true -> named_properties w = Some properties ->
        GetUspEndpointType P (a, w) = (Returned type, (a, w))
        /\ GetUspCustomEndpoint P (a, w) = (Returned endpoint, (a, w)))
    /\ (modelId <> EmptyString -> type = USP_ENDPOINT_CRIS)
    /\ (modelId = EmptyString -> wcsicmp endpoint "CORTANA" = 0 ->
        type = USP_ENDPOINT_CDSDK)
    /\ (modelId = EmptyString -> wcsicmp endpoint "CORTANA" <> 0 ->
        endpoint <> EmptyString -> type = USP_ENDPOINT_UNKNOWN)
    /\ (modelId = EmptyString -> endpoint = EmptyString ->
        type = USP_ENDPOINT_BING_SPEECH)
    /\ (properties = ∅ ->
        type = USP_ENDPOINT_BING_SPEECH
        /\ forall a w,
            site_present w = true -> named_properties w = Some properties ->
            GetUspRecoMode P (a, w)
            = (Returned USP_RECO_MODE_INTERACTIVE, (a, w))).
Proof.
  intros endpoint modelId.
  eexists. split; [|split; [|split; [|split; [|split]]]].
  - intros a w Hs Hp. split.
    + unfold GetUspEndpointType, bind.
      rewrite (query_named_properties_run P a w properties Hs Hp).
      unfold ret. fold endpoint. fold modelId. reflexivity.
    + unfold GetUspCustomEndpoint, bind.
      rewrite (query_named_properties_run P a w properties Hs Hp).
      reflexivity.
  - intros Hm. rewrite (wstring_empty_false _ Hm). reflexivity.
  - intros Hm He. rewrite Hm, He. reflexivity.
  - intros Hm He Hn. rewrite Hm. simpl.
    apply Z.eqb_neq in He. rewrite He.
    rewrite (wstring_empty_false _ Hn). reflexivity.
  - intros Hm He. rewrite Hm, He. reflexivity.
  - intros Hp. split.
    + unfold modelId, endpoint. rewrite Hp. reflexivity.
    + intros a w Hs Hw. unfold GetUspRecoMode, bind.
      rewrite (query_named_properties_run P a w properties Hs Hw).
      rewrite Hp. reflexivity.
Qed.

Lemma endpoint_resolution_witness :
  let properties : gmap string string :=
    {[ "CUSTOMSPEECH-modelId" := "m1"; "SPEECH-Endpoint" := "CORTANA" ]}%string in
  outcome_of (GetUspEndpointType plain_platform
                (initialized_adapter, world_with properties))
  = Returned USP_ENDPOINT_CRIS.
Proof.
  intros properties.
  destruct (endpoint_resolution plain_platform properties)
    as (type & Hrun & Hcris & _).
  destruct (Hrun initialized_adapter (world_with properties) eq_refl eq_refl)
    as [H _].
  rewrite H. unfold outcome_of. cbn [fst]. f_equal.
  apply Hcris. vm_compute. discriminate.
Defined.

Example endpoint_cortana_any_case :
  outcome_of (GetUspEndpointType plain_platform
                (initialized_adapter,
                 world_with {[ "SPEECH-Endpoint" := "CorTana" ]}%string))
  = Returned USP_ENDPOINT_CDSDK.
Proof. vm_compute. reflexivity. Qed.

Example endpoint_custom_url :
  usp_calls (world_of (Init plain_platform
               (CSpxUspRecoEngineAdapter true 100,
                world_with {[ "SPEECH-Endpoint" := "wss://example/speech" ]}%string)))
  = [UspInitByUrl "wss://example/speech"; UspConnect 1].
Proof. vm_compute. reflexivity. Qed.

(** C10.  The code evaluated where the claim fails.  With the single
    property CUSTOMSPEECH-modelId = m1 the endpoint type read under the key
    CUSTOMSPEECH-modelId is CRIS, while the model id read under the key
    CUSTOMSPEECH-ModelId is empty, so [Init] opens a CRIS connection and
    never calls [::UspSetModelId]. *)
Theorem model_id_key_mismatch :
  let s := (CSpxUspRecoEngineAdapter true 100,
            world_with {[ "CUSTOMSPEECH-modelId" := "m1" ]}%string) in
  outcome_of (GetUspEndpointType plain_platform s) = Returned USP_ENDPOINT_CRIS
  /\ outcome_of (GetUspModelId plain_platform s) = Returned EmptyString
  /\ outcome_of (Init plain_platform s) = Returned tt
  /\ usp_calls (world_of (Init plain_platform s))
     = [UspInit USP_ENDPOINT_CRIS USP_RECO_MODE_INTERACTIVE; UspConnect 1]
  /\ ~ model_id_consistent plain_platform s.
Proof.
  intros s. split; [|split; [|split; [|split]]].
  - vm_compute. reflexivity.
  - vm_compute. reflexivity.
  - vm_compute. reflexivity.
  - vm_compute. reflexivity.
  - unfold model_id_consistent. intros [H _].
    destruct H as (id & Hid & Hne); [vm_compute; reflexivity|].
    vm_compute in Hid. injection Hid as <-. discriminate Hne.
Qed.

(* ------------------------------------------------------------------ *)
(** ** Zero-byte writes *)

(** C6 (amended).  The writer has no flush flag: every zero-byte write
    is the flush request itself.  With buffering in effect it behaves
    exactly as [UspWrite_Flush]: it makes exactly one call of
    [::UspWriteAudio], carrying the filled portion of the buffer (possibly
    no bytes), and, unless that send fails, returns with the buffer
    released.  Without buffering it forwards one empty send and leaves the
    adapter as it was. *)
Theorem zero_byte_write_flushes (P : Platform) (a : Adapter) (w : World)
    (data : list byte) :
  let a' := ready_buffer a in
  let r := ProcessAudio P data 0 (a, w) in
  (m_fUseBufferedImplementation a = true ->
   m_servicePreferedBufferSize a <> 0 ->
   r = UspWrite_Flush P (m_handle a) (a, w)
   /\ usp_calls (world_of r)
      = usp_calls w ++ [UspWriteAudio (m_handle a) (retained_bytes a')]
   /\ (outcome_of r = Returned tt -> adapter_of r = release_buffer a')
   /\ (SPX_FAILED (audio_hr P w (m_handle a) (buffer_bytes (m_buffer a'))
                     (bytes_retained a')) = false ->
       outcome_of r = Returned tt))
  /\ (m_fUseBufferedImplementation a = false
      \/ m_servicePreferedBufferSize a = 0 ->
      usp_calls (world_of r) = usp_calls w ++ [UspWriteAudio (m_handle a) []]
      /\ adapter_of r = a).
Proof.
  intros a' r. split.
  - intros Hu Hs.
    assert (Hr : r = UspWrite_Buffered P (m_handle a) data 0 (a, w)).
    { unfold r, ProcessAudio, bind, get_this. cbn [fst].
      apply UspWrite_buffered; assumption. }
    rewrite Hr. unfold UspWrite_Flush. rewrite !UspWrite_Buffered_zero.
    fold a'. unfold outcome_of, adapter_of, world_of. cbn [fst snd].
    split; [reflexivity|]. split; [reflexivity|]. split.
    + destruct (SPX_FAILED _); [discriminate | reflexivity].
    + intros Hok. rewrite Hok. reflexivity.
  - intros Hd.
    assert (Hr : r = UspWrite_Actual P (m_handle a) data 0 (a, w)).
    { unfold r, ProcessAudio, bind, get_this. cbn [fst].
      apply UspWrite_direct; assumption. }
    rewrite Hr, UspWrite_Actual_run. split; reflexivity.
Qed.

Lemma zero_byte_write_flushes_witness :
  let a := mkAdapter 1 true 100 2 (Some [x01; x00]) 2 (Some 1) 1 in
  let r := ProcessAudio plain_platform [] 0 (a, world_with ∅) in
  usp_calls (world_of r) = [UspWriteAudio 1 [x01]].
Proof.
  intros a r.
  assert (Hs : m_servicePreferedBufferSize a <> 0) by (simpl; lia).
  pose proof (zero_byte_write_flushes plain_platform a (world_with ∅) [])
    as H.
  cbv zeta in H. destruct H as (H & _).
  destruct (H eq_refl Hs) as (_ & Hcalls & _). exact Hcalls.
Defined.

(** C6, as stated, fails: after one byte has been written into a two-byte
    buffer, a zero-byte write sends that byte and releases the buffer. *)
Lemma zero_byte_write_is_a_flush :
  let r1 := SetFormat plain_platform (Some tiny_format)
              (initialized_adapter, world_with ∅) in
  let r2 := ProcessAudio plain_platform [x01] 1 (state_of r1) in
  let r3 := ProcessAudio plain_platform [] 0 (state_of r2) in
  audio_blocks (usp_calls (world_of r2))
  = [stream_header plain_platform tiny_format]
  /\ audio_blocks (usp_calls (world_of r3))
     = [stream_header plain_platform tiny_format; [x01]]
  /\ m_buffer (adapter_of r2) = Some [x01; x00]
  /\ m_buffer (adapter_of r3) = None
  /\ ~ zero_byte_write_is_noop plain_platform [] (state_of r2).
Proof.
  vm_compute. repeat split; try reflexivity.
  intros H. discriminate H.
Qed.

(* ------------------------------------------------------------------ *)
(** ** The path the header takes *)

(** C8 (amended).  For every [SetFormat] call with a readable, non-null
    descriptor on a valid handle, the synthesized header is handed to
    [UspWrite], the entry point [ProcessAudio] uses as well, before the
    new buffer size is stored.  [UspWrite] picks the buffered writer only
    if buffering is on and a non-zero buffer size is already in effect
    from an earlier [SetFormat]; otherwise, as on the first [SetFormat] of
    an adapter, the header goes to the transport directly, in one send of
    its own. *)
Theorem SetFormat_header_path (P : Platform) (a : Adapter) (w : World)
    (pformat : WAVEFORMATEX) :
  m_handle a <> INVALID_USP_HANDLE ->
  format_readable P pformat ->
  let header := stream_header P pformat in
  let n := cbHeader P pformat in
  SetFormat P (Some pformat) (a, w)
  = bind (UspWrite P (m_handle a) header n)
         (fun _ => modify_this (fun a' =>
            set_servicePreferedBufferSize (preferred_buffer_size pformat a') a'))
         (a, w)
  /\ (forall data size,
        ProcessAudio P data size (a, w)
        = UspWrite P (m_handle a) data size (a, w))
  /\ (UspWrite_fn a = Fn_UspWrite_Buffered
      <-> m_fUseBufferedImplementation a = true
          /\ m_servicePreferedBufferSize a <> 0)
  /\ (m_fUseBufferedImplementation a = true ->
      m_servicePreferedBufferSize a <> 0 ->
      UspWrite P (m_handle a) header n (a, w)
      = UspWrite_Buffered P (m_handle a) header n (a, w))
  /\ (m_fUseBufferedImplementation a = false
      \/ m_servicePreferedBufferSize a = 0 ->
      UspWrite P (m_handle a) header n (a, w)
      = UspWrite_Actual P (m_handle a) header n (a, w)
      /\ usp_calls (world_of (SetFormat P (Some pformat) (a, w)))
         = usp_calls w ++ [UspWriteAudio (m_handle a) header]
      /\ m_buffer (adapter_of (SetFormat P (Some pformat) (a, w)))
         = m_buffer a).
Proof.
  intros Hh Hfmt header n.
  pose proof Hfmt as (F1 & F2 & F3 & F4).
  pose proof (stream_header_length P pformat F1 F2 F3 F4) as Hlen.
  split; [apply SetFormat_run; assumption|].
  split; [intros data size; reflexivity|].
  split; [|split].
  - unfold UspWrite_fn.
    destruct (m_fUseBufferedImplementation a); simpl.
    + destruct (Z.eqb_spec (m_servicePreferedBufferSize a) 0) as [E|E];
        split; try congruence; tauto.
    + split; [discriminate | intros [H _]; discriminate].
  - intros Hu Hs. apply UspWrite_buffered; assumption.
  - intros Hd. split; [apply UspWrite_direct; assumption|].
    rewrite SetFormat_run by assumption. unfold bind. fold header. fold n.
    rewrite UspWrite_direct by assumption.
    rewrite UspWrite_Actual_run.
    assert (Htake : take (Z.to_nat n) header = header).
    { apply take_ge. unfold n, header. lia. }
    destruct (SPX_FAILED _); unfold world_of, adapter_of, modify_this;
      cbn [fst snd]; rewrite ?after_audio_calls, ?Htake; split; reflexivity.
Qed.

Lemma SetFormat_header_path_witness :
  usp_calls (world_of (SetFormat plain_platform (Some pcm_16k)
                         (initialized_adapter, world_with ∅)))
  = [UspWriteAudio 1 (stream_header plain_platform pcm_16k)].
Proof.
  assert (Hh : m_handle initialized_adapter <> INVALID_USP_HANDLE)
    by (unfold INVALID_USP_HANDLE; simpl; lia).
  assert (Hr : format_readable plain_platform pcm_16k).
  { unfold format_readable. simpl. lia. }
  pose proof (SetFormat_header_path plain_platform initialized_adapter
                (world_with ∅) pcm_16k Hh Hr) as H.
  cbv zeta in H. destruct H as (_ & _ & _ & _ & H).
  destruct (H (or_intror eq_refl)) as (_ & Hcalls & _). exact Hcalls.
Defined.

(** C8, as stated, fails: on the first [SetFormat] of an adapter the
    writer chosen for the header is the direct one; the 44 header bytes
    reach the transport at once as a block of their own and no buffer is
    allocated, whereas the same 44 bytes given to [ProcessAudio] right
    afterwards stay in the 3200-byte buffer without any send. *)
Lemma first_header_bypasses_buffer :
  let s0 := (initialized_adapter, world_with ∅) in
  let r1 := SetFormat plain_platform (Some pcm_16k) s0 in
  let r2 := ProcessAudio plain_platform
              (stream_header plain_platform pcm_16k) 44 (state_of r1) in
  ~ header_takes_buffered_writer s0
  /\ UspWrite_fn (fst s0) = Fn_UspWrite_Actual
  /\ usp_calls (world_of r1)
     = [UspWriteAudio 1 (stream_header plain_platform pcm_16k)]
  /\ m_buffer (adapter_of r1) = None
  /\ m_servicePreferedBufferSize (adapter_of r1) = 3200
  /\ usp_calls (world_of r2) = usp_calls (world_of r1)
  /\ bytes_retained (adapter_of r2) = 44.
Proof.
  vm_compute. repeat split; try reflexivity. intros H. discriminate H.
Qed.

(* ------------------------------------------------------------------ *)
(** ** Message dispatch *)

Ltac unfold_handlers :=
  unfold m_callbacks, UspOnSpeechStartDetected, UspOnSpeechEndDetected,
    UspOnSpeechHypothesis, UspOnSpeechFragment, UspOnSpeechPhrase,
    UspOnTurnStart, UspOnTurnEnd, UspOnError,
    SpxQueryService_ISpxRecoResultFactory, factory_call, site_call,
    bind, get_world, ret; cbn [fst snd].

Lemma m_callbacks_run (message : UspMessage) (a : Adapter) (w : World) :
  site_present w = true ->
  reco_result_factory w = true \/ needs_result_factory message = false ->
  m_callbacks message (a, w)
  = (Returned tt, (a, log_site_event (routed_event message) w)).
Proof.
  intros Hs Hf.
  destruct message; unfold_handlers; rewrite Hs;
    try reflexivity;
    (destruct Hf as [Hf | Hf];
     [rewrite Hf; cbn [andb fst snd]; rewrite Hs; reflexivity
     | discriminate Hf]).
Qed.

(** Without the result factory the three result-bearing handlers
    dereference a null pointer before anything reaches the site. *)
Lemma m_callbacks_without_factory (message : UspMessage) (a : Adapter)
    (w : World) :
  reco_result_factory w = false ->
  needs_result_factory message = true ->
  m_callbacks message (a, w) = (Undefined, (a, w)).
Proof.
  intros Hf Hn.
  destruct message; try discriminate Hn; unfold_handlers;
    rewrite Hf, andb_false_r; reflexivity.
Qed.

Lemma deliver_run (messages : list UspMessage) (a : Adapter) (w : World) :
  site_present w = true ->
  reco_result_factory w = true ->
  deliver messages (a, w)
  = (Returned tt, (a, log_site_events (map routed_event messages) w)).
Proof.
  revert w. induction messages as [|m rest IH]; intros w Hs Hf.
  - simpl. unfold ret, log_site_events. simpl. rewrite app_nil_r.
    destruct w; reflexivity.
  - simpl. unfold bind. rewrite m_callbacks_run by (try left; assumption).
    rewrite IH by assumption.
    unfold log_site_events, log_site_event. simpl.
    rewrite <- app_assoc. reflexivity.
Qed.

Lemma Term_run P a w :
  Term P (a, w)
  = let hr := usp_result P (usp_calls w) (UspClose (m_handle a)) in
    if SPX_FAILED hr
    then (Thrown hr, (a, log_usp_call (UspClose (m_handle a)) w))
    else (Returned tt,
          (set_handle INVALID_USP_HANDLE a,
           log_usp_call (UspClose (m_handle a)) w)).
Proof.
  unfold Term, UspShutdown, call_usp, SPX_IFFAILED_THROW_HR, DumpFileClose,
    bind, get_this, get_world, modify_world, modify_this, ret, throw.
  cbn [fst snd]. cbv zeta. destruct (SPX_FAILED _); reflexivity.
Qed.

(** C9 (amended).  With a site attached that hands out its result factory,
    delivering messages never throws and never touches the adapter's data
    members; a turn-end message always produces [DoneProcessingAudio]
    (StreamDone), for which a site alone is enough.  The adapter keeps no
    record of a finished turn or of termination: every message delivered
    to a callback, also after a turn-end and also after [Term] has
    returned, produces exactly the event the routing table gives for it.
    The handlers of hypothesis, fragment and phrase messages use the
    site's result factory unchecked: without it they are a null
    dereference and raise no event. *)
Theorem dispatch_is_stateless (P : Platform) (a : Adapter) (w : World)
    (before after : list UspMessage) :
  site_present w = true ->
  reco_result_factory w = true ->
  let r := deliver (before ++ MsgTurnEnd :: after) (a, w) in
  let t := Term P (a, w) in
  let r' := deliver after (state_of t) in
  outcome_of r = Returned tt
  /\ adapter_of r = a
  /\ site_events (world_of r)
     = site_events w ++ map routed_event before
       ++ DoneProcessingAudio :: map routed_event after
  /\ (outcome_of t = Returned tt ->
      m_handle (adapter_of t) = INVALID_USP_HANDLE
      /\ outcome_of r' = Returned tt
      /\ site_events (world_of r')
         = site_events w ++ map routed_event after)
  /\ (forall a' w', site_present w' = true ->
        m_callbacks MsgTurnEnd (a', w')
        = (Returned tt, (a', log_site_event DoneProcessingAudio w')))
  /\ (forall message a' w',
        reco_result_factory w' = false ->
        needs_result_factory message = true ->
        m_callbacks message (a', w') = (Undefined, (a', w'))).
Proof.
  intros Hs Hf r t r'.
  unfold r. rewrite deliver_run by assumption.
  unfold outcome_of, adapter_of, world_of. cbn [fst snd].
  split; [reflexivity|]. split; [reflexivity|]. split; [|split; [|split]].
  - simpl. rewrite map_app. reflexivity.
  - unfold r', t, state_of. rewrite Term_run. cbv zeta.
    destruct (SPX_FAILED _); cbn [fst snd]; [discriminate|].
    intros _. rewrite deliver_run by assumption.
    repeat split; reflexivity.
  - intros a' w' Hs'.
    apply (m_callbacks_run MsgTurnEnd a' w' Hs'). right. reflexivity.
  - intros message a' w'. apply m_callbacks_without_factory.
Qed.

Lemma dispatch_is_stateless_witness :
  site_events (world_of (deliver [MsgSpeechStartDetected 1; MsgTurnEnd;
                                   MsgSpeechHypothesis 2 3 "late"]
                           (initialized_adapter, world_with ∅)))
  = [SpeechStartDetected 1; DoneProcessingAudio;
     IntermediateRecoResult 2 (CreateIntermediateResult "late")].
Proof.
  pose proof (dispatch_is_stateless plain_platform initialized_adapter
                (world_with ∅) [MsgSpeechStartDetected 1]
                [MsgSpeechHypothesis 2 3 "late"] eq_refl eq_refl) as H.
  cbv zeta in H. destruct H as (_ & _ & H & _). exact H.
Defined.

(** C9, as stated, fails: a speech-start message delivered after the
    turn-end message, and one delivered after [Term] has returned, both
    reach the site. *)
Lemma late_messages_reach_the_site :
  let s0 := (initialized_adapter, world_with ∅) in
  let ended := m_callbacks MsgTurnEnd s0 in
  let terminated := Term plain_platform s0 in
  site_events (world_of ended) = [DoneProcessingAudio]
  /\ site_events (world_of (m_callbacks (MsgSpeechStartDetected 5)
                             (state_of ended)))
     = [DoneProcessingAudio; SpeechStartDetected 5]
  /\ ~ dropped (MsgSpeechStartDetected 5) (state_of ended)
  /\ outcome_of terminated = Returned tt
  /\ m_handle (adapter_of terminated) = INVALID_USP_HANDLE
  /\ site_events (world_of (m_callbacks (MsgSpeechStartDetected 5)
                             (state_of terminated)))
     = [SpeechStartDetected 5]
  /\ ~ dropped (MsgSpeechStartDetected 5) (state_of terminated).
Proof.
  vm_compute. repeat split; try reflexivity; intros H; discriminate H.
Qed.

(* ------------------------------------------------------------------ *)
(** ** Termination of the buffered writer *)

Lemma memcpy_in_bounds (mem src : list byte) (off k : Z) :
  0 <= off -> 0 <= k <= Z.of_nat (length src) ->
  off + k <= Z.of_nat (length mem) ->
  exists mem', memcpy mem off src k = Some mem'
               /\ length mem' = length mem.
Proof.
  intros Ho Hk Hm. unfold memcpy.
  replace ((0 <=? off) && (0 <=? k) && (k <=? Z.of_nat (length src))
           && (off + k <=? Z.of_nat (length mem))) with true
    by (symmetry; repeat (apply andb_true_intro; split); apply Z.leb_le; lia).
  eexists. split; [reflexivity|].
  rewrite !length_app, !length_take, length_drop. lia.
Qed.

Lemma loop_terminates P handle data fuel :
  forall n h ub ms size mem cap left w,
    0 < cap < 2 ^ 64 -> Z.of_nat (length mem) = cap -> 0 <= left <= cap ->
    0 <= n <= Z.of_nat (length data) -> n < 2 ^ 64 ->
    (Z.to_nat n < fuel)%nat ->
    let r := UspWrite_Buffered_loop P fuel handle data false n
               (mkAdapter h ub ms size (Some mem) cap (Some (cap - left)) left, w) in
    returns_or_throws r
    /\ buffer_consistent (adapter_of r)
    /\ m_buffer (adapter_of r) <> None.
Proof.
  induction fuel as [|fuel IH]; intros n h ub ms size mem cap left w
    Hcap Hmem Hleft Hn Hn64 Hfuel; [lia|].
  cbv zeta. rewrite loop_step.
  destruct (Z.eq_dec left 0) as [Hl0 | Hl0].
  - (* the buffer is full: it is sent first *)
    subst left. rewrite Z.sub_0_r.
    destruct (SPX_FAILED (audio_hr P w handle mem (size_sub cap 0))) eqn:Hs.
    + (* the send fails *)
      unfold_pass. replace (0 <? cap) with true by (symmetry; apply Z.ltb_lt; lia).
      simpl. rewrite UspWrite_Actual_run, Hs.
      split; [right; eexists; reflexivity|].
      unfold buffer_consistent, adapter_of. simpl.
      split; [|discriminate]. repeat split; try lia. f_equal. lia.
    + destruct (Z.eq_dec n 0) as [Hn0 | Hn0].
      * subst n. rewrite pass_break_full by (assumption || lia).
        split; [left; reflexivity|].
        unfold buffer_consistent, adapter_of. simpl.
        split; [|discriminate]. repeat split; try lia. f_equal. lia.
      * destruct (memcpy_in_bounds mem data 0 (Z.min n cap))
          as (mem' & Hm' & Hl'); try lia.
        rewrite (pass_full P handle data n h ub ms size mem cap cap w mem'
                   (Z.min n cap)); try assumption; try lia; try reflexivity.
        rewrite !size_sub_small by lia.
        replace (0 + Z.min n cap) with (cap - (cap - Z.min n cap)) by lia.
        apply IH; lia.
  - destruct (Z.eq_dec n 0) as [Hn0 | Hn0].
    + subst n. rewrite pass_break.
      2:{ replace (left =? 0) with false by (symmetry; apply Z.eqb_neq; lia).
          apply andb_false_r. }
      split; [left; reflexivity|].
      unfold buffer_consistent, adapter_of. simpl.
      split; [|discriminate]. repeat split; lia.
    + destruct (memcpy_in_bounds mem data (cap - left) (Z.min n left))
        as (mem' & Hm' & Hl'); try lia.
      rewrite (pass_copy P handle data n h ub ms size mem cap (cap - left) left
                 w mem' (Z.min n left)); try assumption; try reflexivity.
      2:{ replace (left =? 0) with false by (symmetry; apply Z.eqb_neq; lia).
          apply andb_false_r. }
      rewrite !size_sub_small by lia.
      replace (cap - left + Z.min n left)
        with (cap - (left - Z.min n left)) by lia.
      apply IH; lia.
Qed.

(** Without capacity the loop makes no progress: it never ends. *)
Lemma loop_spins_without_capacity P handle data fuel :
  forall n h ub ms size w,
    0 < n < 2 ^ 64 ->
    UspWrite_Buffered_loop P fuel handle data false n
      (mkAdapter h ub ms size (Some []) 0 (Some 0) 0, w)
    = (Diverges, (mkAdapter h ub ms size (Some []) 0 (Some 0) 0, w)).
Proof.
  induction fuel as [|fuel IH]; intros n h ub ms size w Hn; [reflexivity|].
  rewrite loop_step.
  rewrite (pass_copy P handle data n h ub ms size [] 0 0 0 w [] 0);
    try reflexivity; try lia.
  - rewrite !size_sub_small by lia. rewrite !Z.sub_0_r, Z.add_0_l.
    apply IH. assumption.
  - rewrite memcpy_start by (simpl; lia). reflexivity.
Qed.

(** [UspWrite] with buffering in effect, on a consistent adapter, for a
    size the caller's data covers: the call ends, by returning or by
    throwing what the transport reported, and leaves the adapter
    consistent. *)
Lemma UspWrite_Buffered_terminates P handle data n a w :
  buffer_consistent a ->
  0 < m_servicePreferedBufferSize a < 2 ^ 64 ->
  0 <= n <= Z.of_nat (length data) -> n < 2 ^ 64 ->
  let r := UspWrite_Buffered P handle data n (a, w) in
  returns_or_throws r /\ buffer_consistent (adapter_of r).
Proof.
  intros Hc Hsize Hn Hn64 r.
  destruct (Z.eq_dec n 0) as [Hn0 | Hn0].
  - subst n. unfold r. rewrite UspWrite_Buffered_zero.
    destruct (SPX_FAILED _).
    + split; [right; eexists; reflexivity|].
      unfold adapter_of, ready_buffer. cbn [fst snd].
      destruct a as [h ub ms size [mem|] cap ptr left]; [exact Hc|].
      unfold buffer_consistent, allocate_buffer, SpxAllocSharedUint8Buffer.
      simpl in *. rewrite length_replicate.
      repeat split; try lia. f_equal. lia.
    + split; [left; reflexivity | exact I].
  - assert (Hz : (n =? 0) = false) by (apply Z.eqb_neq; assumption).
    destruct a as [h ub ms size [mem|] cap ptr left].
    + unfold buffer_consistent in Hc. simpl in Hc.
      destruct Hc as (Hcap & Hmem & Hleft & Hptr). subst ptr.
      unfold r. erewrite UspWrite_Buffered_allocated by reflexivity.
      rewrite Hz.
      destruct (loop_terminates P handle data (S (S (Z.to_nat n))) n h ub ms
                  size mem cap left w) as (H1 & H2 & _); try lia.
      split; assumption.
    + unfold r. rewrite UspWrite_Buffered_fresh by reflexivity.
      rewrite Hz. unfold allocate_buffer. simpl in *.
      replace (Some 0) with (Some (size - size)) by (f_equal; lia).
      destruct (loop_terminates P handle data (S (S (Z.to_nat n))) n h ub ms
                  size (SpxAllocSharedUint8Buffer size) size size w)
        as (H1 & H2 & _); try lia.
      * unfold SpxAllocSharedUint8Buffer. rewrite length_replicate. lia.
      * split; assumption.
Qed.

(* ------------------------------------------------------------------ *)
(** ** Comparison without regard to case *)

Lemma wcsicmp_same_letters (string1 string2 : string) :
  wcslwr string1 = wcslwr string2 -> wcsicmp string1 string2 = 0.
Proof.
  revert string2.
  induction string1 as [|c1 s1 IH]; intros [|c2 s2] H; simpl in *;
    try discriminate; [reflexivity|].
  injection H as Hc Hs. rewrite Hc, Z.eqb_refl. apply IH. assumption.
Qed.

(* ================================================================== *)
(** * Further properties of the adapter *)

(* ------------------------------------------------------------------ *)
(** ** Property getters *)

Lemma query_named_properties_missing P a w :
  site_present w = false \/ named_properties w = None ->
  query_named_properties P (a, w)
  = (Thrown (SPXERR_UNEXPECTED_USP_SITE_FAILURE P), (a, w)).
Proof.
  intros H. unfold query_named_properties, bind, get_world. simpl.
  destruct H as [H | H]; rewrite H; [reflexivity|].
  destruct (site_present w); reflexivity.
Qed.

(** X1.  Without the named-properties service every getter throws
    [SPXERR_UNEXPECTED_USP_SITE_FAILURE] and changes nothing. *)
Theorem getters_need_property_service (P : Platform) (a : Adapter) (w : World) :
  site_present w = false \/ named_properties w = None ->
  let hr := SPXERR_UNEXPECTED_USP_SITE_FAILURE P in
  GetUspEndpointType P (a, w) = (Thrown hr, (a, w))
  /\ GetUspCustomEndpoint P (a, w) = (Thrown hr, (a, w))
  /\ GetUspRecoMode P (a, w) = (Thrown hr, (a, w))
  /\ GetUspLanguage P (a, w) = (Thrown hr, (a, w))
  /\ GetUspModelId P (a, w) = (Thrown hr, (a, w))
  /\ GetUspAuthenticationData P (a, w) = (Thrown hr, (a, w))
  /\ (m_handle a = INVALID_USP_HANDLE -> site_present w = true ->
      Init P (a, w) = (Thrown hr, (a, w))).
Proof.
  intros H hr.
  pose proof (query_named_properties_missing P a w H) as Hq.
  unfold GetUspEndpointType, GetUspCustomEndpoint, GetUspRecoMode,
    GetUspLanguage, GetUspModelId, GetUspAuthenticationData, bind.
  rewrite Hq. repeat split; try reflexivity.
  intros Hh Hs. unfold Init, UspInitialize, GetUspEndpointType, bind, get_world,
    get_this, SPX_IFTRUE_THROW_HR, IsUspHandleValid. simpl.
  rewrite Hs. simpl. rewrite Hh. simpl. rewrite Hq. reflexivity.
Qed.

Lemma getters_need_property_service_witness :
  Init plain_platform
    (CSpxUspRecoEngineAdapter true 100, mkWorld true None true [] [] [])
  = (Thrown 3, (CSpxUspRecoEngineAdapter true 100, mkWorld true None true [] [] [])).
Proof.
  pose proof (getters_need_property_service plain_platform
                (CSpxUspRecoEngineAdapter true 100)
                (mkWorld true None true [] [] []) (or_intror eq_refl)) as H.
  cbv zeta in H. destruct H as (_ & _ & _ & _ & _ & _ & H).
  exact (H eq_refl eq_refl).
Defined.

(** X2.  The credential used is the first non-empty one of subscription key,
    authorization token and delegation (RPS) token, with its type; with
    none set the type is unknown and the data empty.  The choice depends
    on the properties alone and has no effect. *)
Theorem authentication_precedence (P : Platform)
    (properties : gmap string string) :
  let key := GetStringValue properties "SPEECH-SubscriptionKey" in
  let token := GetStringValue properties "SPEECH-AuthToken" in
  let rps := GetStringValue properties "SPEECH-RpsToken" in
  exists auth,
    (forall a w,
        site_present w = true -> named_properties w = Some properties ->
        GetUspAuthenticationData P (a, w) = (Returned auth, (a, w)))
    /\ (key <> EmptyString ->
        auth = (key, USP_AUTHENTICATION_SUBSCRIPTION_KEY))
    /\ (key = EmptyString -> token <> EmptyString ->
        auth = (token, USP_AUTHENTICATION_AUTHORIZATION_TOKEN))
    /\ (key = EmptyString -> token = EmptyString -> rps <> EmptyString ->
        auth = (rps, USP_AUTHENTICATION_SEARCH_DELEGATION_RPS_TOKEN))
    /\ (key = EmptyString -> token = EmptyString -> rps = EmptyString ->
        auth = (EmptyString, USP_AUTHENTICATION_UNKNOWN)).
Proof.
  intros key token rps. eexists. split; [|split; [|split; [|split]]].
  - intros a w Hs Hp. unfold GetUspAuthenticationData, bind.
    rewrite (query_named_properties_run P a w properties Hs Hp).
    unfold ret. fold key. fold token. fold rps. reflexivity.
  - intros Hk. rewrite (wstring_empty_false _ Hk). reflexivity.
  - intros Hk Ht. rewrite Hk, (wstring_empty_false _ Ht). reflexivity.
  - intros Hk Ht Hr. rewrite Hk, Ht, (wstring_empty_false _ Hr). reflexivity.
  - intros Hk Ht Hr. rewrite Hk, Ht, Hr. reflexivity.
Qed.

Lemma authentication_precedence_witness :
  let properties : gmap string string :=
    {[ "SPEECH-AuthToken" := "t0"; "SPEECH-RpsToken" := "r0" ]}%string in
  outcome_of (GetUspAuthenticationData plain_platform
                (initialized_adapter, world_with properties))
  = Returned ("t0"%string, USP_AUTHENTICATION_AUTHORIZATION_TOKEN).
Proof.
  intros properties.
  destruct (authentication_precedence plain_platform properties)
    as (auth & Hrun & _ & Htoken & _).
  rewrite (Hrun initialized_adapter (world_with properties) eq_refl eq_refl).
  unfold outcome_of. cbn [fst]. f_equal.
  apply Htoken; [reflexivity | vm_compute; discriminate].
Defined.

Lemma towlower_idempotent (c : ascii) : towlower (towlower c) = towlower c.
Proof.
  destruct c as [[] [] [] [] [] [] [] []]; reflexivity.
Qed.

Lemma wcslwr_idempotent (s : string) : wcslwr (wcslwr s) = wcslwr s.
Proof.
  induction s as [|c s IH]; simpl; [reflexivity|].
  rewrite towlower_idempotent, IH. reflexivity.
Qed.

Lemma wcsicmp_wcslwr (string1 string2 : string) :
  wcsicmp string1 string2 = wcsicmp (wcslwr string1) (wcslwr string2).
Proof.
  revert string2.
  induction string1 as [|c1 s1 IH]; intros [|c2 s2]; simpl;
    rewrite ?towlower_idempotent; try reflexivity.
  rewrite IH. reflexivity.
Qed.

(** X3.  The recognition mode: interactive for an empty value or one reading
    interactive in any letter case, conversation and dictation likewise in
    any letter case, and the unknown mode for every other value, which the
    getter reports without an error. *)
Theorem recognition_mode_resolution (P : Platform)
    (properties : gmap string string) :
  let value := GetStringValue properties "SPEECH-RecoMode" in
  exists mode,
    (forall a w,
        site_present w = true -> named_properties w = Some properties ->
        GetUspRecoMode P (a, w) = (Returned mode, (a, w)))
    /\ (value = EmptyString \/ wcslwr value = "interactive"%string ->
        mode = USP_RECO_MODE_INTERACTIVE)
    /\ (wcslwr value = "conversation"%string ->
        mode = USP_RECO_MODE_CONVERSATION)
    /\ (wcslwr value = "dictation"%string -> mode = USP_RECO_MODE_DICTATION)
    /\ (value <> EmptyString ->
        wcsicmp value "INTERACTIVE" <> 0 ->
        wcsicmp value "CONVERSATION" <> 0 ->
        wcsicmp value "DICTATION" <> 0 ->
        mode = USP_RECO_MODE_UNKNOWN).
Proof.
  intros value. eexists. split; [|split; [|split; [|split]]].
  - intros a w Hs Hp. unfold GetUspRecoMode, bind.
    rewrite (query_named_properties_run P a w properties Hs Hp).
    unfold ret. fold value. reflexivity.
  - intros [He | Hl].
    + rewrite He. reflexivity.
    + rewrite (wcsicmp_wcslwr value "INTERACTIVE"), Hl.
      rewrite orb_true_r. reflexivity.
  - intros Hl.
    assert (Hne : wstring_empty value = false).
    { destruct value; [discriminate Hl | reflexivity]. }
    rewrite Hne, (wcsicmp_wcslwr value "INTERACTIVE"),
      (wcsicmp_wcslwr value "CONVERSATION"), Hl. reflexivity.
  - intros Hl.
    assert (Hne : wstring_empty value = false).
    { destruct value; [discriminate Hl | reflexivity]. }
    rewrite Hne, (wcsicmp_wcslwr value "INTERACTIVE"),
      (wcsicmp_wcslwr value "CONVERSATION"),
      (wcsicmp_wcslwr value "DICTATION"), Hl. reflexivity.
  - intros Hne H1 H2 H3.
    rewrite (wstring_empty_false _ Hne).
    apply Z.eqb_neq in H1, H2, H3. rewrite H1, H2, H3. reflexivity.
Qed.

Lemma recognition_mode_resolution_witness :
  let properties : gmap string string :=
    {[ "SPEECH-RecoMode" := "DictaTion" ]}%string in
  outcome_of (GetUspRecoMode plain_platform
                (initialized_adapter, world_with properties))
  = Returned USP_RECO_MODE_DICTATION.
Proof.
  intros properties.
  destruct (recognition_mode_resolution plain_platform properties)
    as (mode & Hrun & _ & _ & Hd & _).
  rewrite (Hrun initialized_adapter (world_with properties) eq_refl eq_refl).
  unfold outcome_of. cbn [fst]. f_equal.
  apply Hd. reflexivity.
Defined.

(* ------------------------------------------------------------------ *)
(** ** Initialization and termination *)

Arguments GetStringValue : simpl never.
Arguments wcsicmp : simpl never.

(** X4.  [Init] refuses to run without a site and on an adapter that already
    holds a handle; in both cases it throws before any call into the USP
    library and changes nothing. *)
Theorem Init_guards (P : Platform) (a : Adapter) (w : World) :
  (site_present w = false ->
   Init P (a, w) = (Thrown (SPXERR_UNINITIALIZED P), (a, w)))
  /\ (site_present w = true -> m_handle a <> INVALID_USP_HANDLE ->
      Init P (a, w) = (Thrown (SPXERR_ALREADY_INITIALIZED P), (a, w))).
Proof.
  split.
  - intros Hs. unfold Init, bind, get_world, SPX_IFTRUE_THROW_HR. simpl.
    rewrite Hs. reflexivity.
  - intros Hs Hh.
    unfold Init, bind, get_world, get_this, SPX_IFTRUE_THROW_HR,
      IsUspHandleValid. simpl.
    rewrite Hs. simpl. apply Z.eqb_neq in Hh. rewrite Hh. reflexivity.
Qed.

Lemma Init_guards_witness :
  Init plain_platform (initialized_adapter, world_with ∅)
  = (Thrown 2, (initialized_adapter, world_with ∅)).
Proof.
  assert (Hh : m_handle initialized_adapter <> INVALID_USP_HANDLE)
    by (unfold INVALID_USP_HANDLE; simpl; lia).
  exact (proj2 (Init_guards plain_platform initialized_adapter (world_with ∅))
           eq_refl Hh).
Defined.

Lemma bind_returned {A B} (m : M A) (k : A -> M B) (s s' : State) (v : A) :
  m s = (Returned v, s') -> bind m k s = k v s'.
Proof. intros H. unfold bind. rewrite H. reflexivity. Qed.

Lemma bind_thrown {A B} (m : M A) (k : A -> M B) (s s' : State) (hr : HR) :
  m s = (Thrown hr, s') -> bind m k s = (Thrown hr, s').
Proof. intros H. unfold bind. rewrite H. reflexivity. Qed.

(** A getter reads the properties only: its result carries over to any
    state with the same site and properties. *)
Lemma pure_getter_frame {A} P (f : gmap string string -> A) a w v a' w' :
  bind (query_named_properties P) (fun p => ret (f p)) (a, w)
  = (Returned v, (a, w)) ->
  site_present w' = site_present w ->
  named_properties w' = named_properties w ->
  bind (query_named_properties P) (fun p => ret (f p)) (a', w')
  = (Returned v, (a', w')).
Proof.
  unfold query_named_properties, bind, get_world, ret, throw. simpl.
  intros H Hs Hp. rewrite Hs, Hp.
  destruct (site_present w); [|discriminate H].
  destruct (named_properties w); [|discriminate H].
  injection H as H. rewrite H. reflexivity.
Qed.

Ltac getter_frame H :=
  first [ eapply (pure_getter_frame _ _ _ _ _ _ _ H); reflexivity ].

(** X5.  When every call into the USP library succeeds, [Init] on an adapter
    without a handle makes exactly these calls, in this order: the opening
    call ([UspInitByUrl] with the endpoint property for the unknown
    endpoint type, [UspInit] with type and mode otherwise), then
    [UspSetAuthentication] unless the authentication type is unknown,
    [UspSetLanguage] unless the language is empty, [UspSetModelId] unless
    the model id is empty, and [UspConnect] last.  The handle written by
    the opening call is the one used afterwards and kept in [m_handle];
    the dump file starts empty.  An unknown recognition mode or
    authentication type is not rejected. *)
Theorem Init_call_sequence (P : Platform) (a : Adapter) (w : World)
    (type : UspEndpointType) (mode : UspRecognitionMode) (url : string)
    (auth : string * UspAuthenticationType) (language id : string) :
  all_calls_succeed P ->
  site_present w = true ->
  m_handle a = INVALID_USP_HANDLE ->
  GetUspEndpointType P (a, w) = (Returned type, (a, w)) ->
  GetUspRecoMode P (a, w) = (Returned mode, (a, w)) ->
  GetUspCustomEndpoint P (a, w) = (Returned url, (a, w)) ->
  GetUspAuthenticationData P (a, w) = (Returned auth, (a, w)) ->
  GetUspLanguage P (a, w) = (Returned language, (a, w)) ->
  GetUspModelId P (a, w) = (Returned id, (a, w)) ->
  let h := usp_handle_out P (usp_calls w ++ [init_call type mode url]) in
  Init P (a, w)
  = (Returned tt,
     (set_handle h a,
      empty_dump_file
        (log_usp_calls (init_calls type mode url auth language id h) w))).
Proof.
  intros Hall Hs Hh Htype Hmode Hurl Hauth Hlang Hid h.
  unfold Init.
  rewrite (bind_returned get_world _ (a, w) (a, w) w) by reflexivity.
  rewrite Hs. unfold SPX_IFTRUE_THROW_HR at 1. cbn [negb].
  rewrite (bind_returned (ret tt) _ (a, w) (a, w) tt) by reflexivity.
  rewrite (bind_returned get_this _ (a, w) (a, w) a) by reflexivity.
  unfold IsUspHandleValid, SPX_IFTRUE_THROW_HR. rewrite Hh.
  cbn [Z.eqb INVALID_USP_HANDLE Pos.eqb negb].
  rewrite (bind_returned (ret tt) _ (a, w) (a, w) tt) by reflexivity.
  (* UspInitialize *)
  set (c0 := init_call type mode url).
  set (w1 := log_usp_call c0 w).
  set (a1 := set_handle h a).
  assert (Hopen :
    (if is_endpoint_unknown type
     then bind (GetUspCustomEndpoint P) (fun url => call_usp P (UspInitByUrl url))
     else bind (GetUspRecoMode P) (fun mode => call_usp P (UspInit type mode)))
      (a, w)
    = (Returned SPX_NOERROR, (a, w1))).
  { unfold w1, c0, init_call.
    destruct (is_endpoint_unknown type).
    - rewrite (bind_returned _ _ _ _ _ Hurl).
      unfold call_usp, bind, get_world, modify_world, ret. cbn [fst snd].
      rewrite Hall. reflexivity.
    - rewrite (bind_returned _ _ _ _ _ Hmode).
      unfold call_usp, bind, get_world, modify_world, ret. cbn [fst snd].
      rewrite Hall. reflexivity. }
  assert (Hcall : forall c a' w',
             call_usp P c (a', w') = (Returned SPX_NOERROR, (a', log_usp_call c w'))).
  { intros c a' w'. unfold call_usp, bind, get_world, modify_world, ret.
    cbn [fst snd]. rewrite Hall. reflexivity. }
  assert (Hstep : forall c a' w',
             bind (call_usp P c) (fun hr => SPX_IFFAILED_THROW_HR hr) (a', w')
             = (Returned tt, (a', log_usp_call c w'))).
  { intros c a' w'. rewrite (bind_returned _ _ _ _ _ (Hcall c a' w')).
    reflexivity. }
  enough (Huinit : exists w4,
             UspInitialize P (a, w) = (Returned tt, (a1, w4))
             /\ empty_dump_file w4
                = empty_dump_file
                    (log_usp_calls (init_calls type mode url auth language id h) w)).
  { destruct Huinit as (w4 & Hrun & Hw4).
    rewrite (bind_returned _ _ _ _ _ Hrun).
    unfold DumpFileInit, modify_world. cbn [fst snd].
    do 2 f_equal. exact Hw4. }
  unfold UspInitialize.
  rewrite (bind_returned _ _ _ _ _ Htype).
  rewrite (bind_returned _ _ _ _ _ Hopen).
  rewrite (bind_returned get_world _ (a, w1) (a, w1) w1) by reflexivity.
  rewrite (bind_returned (modify_this _) _ (a, w1) (a1, w1) tt) by reflexivity.
  rewrite (bind_returned (SPX_IFFAILED_THROW_HR SPX_NOERROR) _ (a1, w1) (a1, w1) tt)
    by reflexivity.
  assert (Hauth1 : GetUspAuthenticationData P (a1, w1) = (Returned auth, (a1, w1)))
    by getter_frame Hauth.
  rewrite (bind_returned _ _ _ _ _ Hauth1).
  rewrite (bind_returned get_this _ (a1, w1) (a1, w1) a1) by reflexivity.
  change (m_handle a1) with h.
  set (w2 := if is_auth_unknown (snd auth) then w1
             else log_usp_call (UspSetAuthentication h (snd auth) (fst auth)) w1).
  rewrite (bind_returned (when _ _) _ (a1, w1) (a1, w2) tt).
  2:{ unfold w2, when. destruct (is_auth_unknown (snd auth)); cbn [negb];
        [reflexivity | apply Hstep]. }
  assert (Hlang2 : GetUspLanguage P (a1, w2) = (Returned language, (a1, w2))).
  { unfold w2. destruct (is_auth_unknown (snd auth)); getter_frame Hlang. }
  rewrite (bind_returned _ _ _ _ _ Hlang2).
  set (w3 := if wstring_empty language then w2
             else log_usp_call (UspSetLanguage h language) w2).
  rewrite (bind_returned (when _ _) _ (a1, w2) (a1, w3) tt).
  2:{ unfold w3, when. destruct (wstring_empty language); cbn [negb];
        [reflexivity | apply Hstep]. }
  assert (Hid3 : GetUspModelId P (a1, w3) = (Returned id, (a1, w3))).
  { unfold w3, w2.
    destruct (wstring_empty language), (is_auth_unknown (snd auth));
      getter_frame Hid. }
  rewrite (bind_returned _ _ _ _ _ Hid3).
  set (w4 := if wstring_empty id then w3
             else log_usp_call (UspSetModelId h id) w3).
  rewrite (bind_returned (when _ _) _ (a1, w3) (a1, w4) tt).
  2:{ unfold w4, when. destruct (wstring_empty id); cbn [negb];
        [reflexivity | apply Hstep]. }
  rewrite Hstep. eexists. split; [reflexivity|].
  unfold w4, w3, w2, w1, c0, init_calls, empty_dump_file, log_usp_calls,
    log_usp_call.
  destruct (is_auth_unknown (snd auth)), (wstring_empty language),
    (wstring_empty id); cbn [site_present named_properties usp_calls
                               site_events dump_file app];
    rewrite <- ?app_assoc; reflexivity.
Qed.

Lemma Init_call_sequence_witness :
  usp_calls (world_of (Init obliging_platform
     (CSpxUspRecoEngineAdapter true 100, world_with keyed_properties)))
  = [UspInit USP_ENDPOINT_BING_SPEECH USP_RECO_MODE_UNKNOWN;
     UspSetAuthentication 1 USP_AUTHENTICATION_SUBSCRIPTION_KEY "k0";
     UspSetLanguage 1 "en-US"; UspConnect 1].
Proof.
  assert (Hall : all_calls_succeed obliging_platform)
    by (intros ? ?; reflexivity).
  set (a := CSpxUspRecoEngineAdapter true 100).
  set (w := world_with keyed_properties).
  assert (H1 : GetUspEndpointType obliging_platform (a, w)
               = (Returned USP_ENDPOINT_BING_SPEECH, (a, w)))
    by (vm_compute; reflexivity).
  assert (H2 : GetUspRecoMode obliging_platform (a, w)
               = (Returned USP_RECO_MODE_UNKNOWN, (a, w)))
    by (vm_compute; reflexivity).
  assert (H3 : GetUspCustomEndpoint obliging_platform (a, w)
               = (Returned EmptyString, (a, w)))
    by (vm_compute; reflexivity).
  assert (H4 : GetUspAuthenticationData obliging_platform (a, w)
               = (Returned ("k0"%string, USP_AUTHENTICATION_SUBSCRIPTION_KEY),
                  (a, w)))
    by (vm_compute; reflexivity).
  assert (H5 : GetUspLanguage obliging_platform (a, w)
               = (Returned "en-US"%string, (a, w)))
    by (vm_compute; reflexivity).
  assert (H6 : GetUspModelId obliging_platform (a, w)
               = (Returned EmptyString, (a, w)))
    by (vm_compute; reflexivity).
  rewrite (Init_call_sequence obliging_platform a w _ _ _ _ _ _
             Hall eq_refl eq_refl H1 H2 H3 H4 H5 H6).
  reflexivity.
Defined.

Lemma call_step P c a w :
  bind (call_usp P c) (fun hr => SPX_IFFAILED_THROW_HR hr) (a, w)
  = (if SPX_FAILED (usp_result P (usp_calls w) c)
     then Thrown (usp_result P (usp_calls w) c) else Returned tt,
     (a, log_usp_call c w)).
Proof.
  unfold call_usp, SPX_IFFAILED_THROW_HR, bind, get_world, modify_world, ret,
    throw. cbn [fst snd].
  destruct (SPX_FAILED _); reflexivity.
Qed.

Lemma bind_call_step {B} P c (k : unit -> M B) a w :
  bind (bind (call_usp P c) (fun hr => SPX_IFFAILED_THROW_HR hr)) k (a, w)
  = if SPX_FAILED (usp_result P (usp_calls w) c)
    then (Thrown (usp_result P (usp_calls w) c), (a, log_usp_call c w))
    else k tt (a, log_usp_call c w).
Proof.
  unfold bind at 1. rewrite call_step.
  destruct (SPX_FAILED _); reflexivity.
Qed.

Ltac init_steps Hlang Hid :=
  cbv beta; unfold when;
  lazymatch goal with
  | |- bind (ret tt) _ _ = _ =>
      rewrite (bind_returned (ret tt) _ _ _ tt) by reflexivity;
      init_steps Hlang Hid
  | |- bind (GetUspLanguage _) _ _ = _ =>
      erewrite (bind_returned (GetUspLanguage _)) by getter_frame Hlang;
      init_steps Hlang Hid
  | |- bind (GetUspModelId _) _ _ = _ =>
      erewrite (bind_returned (GetUspModelId _)) by getter_frame Hid;
      init_steps Hlang Hid
  | |- bind (if negb ?b then _ else _) _ _ = _ =>
      destruct b; cbn [negb app make_calls]; init_steps Hlang Hid
  | |- bind (bind (call_usp _ _) _) _ _ = _ =>
      rewrite bind_call_step; cbn [usp_calls log_usp_call];
      lazymatch goal with
      | |- (if SPX_FAILED ?x then _ else _) = _ =>
          destruct (SPX_FAILED x) eqn:?; cbn [fst snd];
          init_steps Hlang Hid
      end
  | |- bind (call_usp _ _) _ _ = _ =>
      rewrite call_step; cbn [usp_calls log_usp_call];
      lazymatch goal with
      | |- (if SPX_FAILED ?x then _ else _, _) = _ =>
          destruct (SPX_FAILED x) eqn:?; cbn [fst snd]; reflexivity
      end
  | |- _ => reflexivity
  end.

(** X6.  [Init] makes its calls into the USP library one after the other and
    stops at the first that fails, throwing that call's result code: no
    later call is made, in particular no [UspConnect], and the dump file
    is left alone.  The handle the opening call wrote is in [m_handle]
    whether or not a call failed. *)
Theorem Init_stops_at_first_failure (P : Platform) (a : Adapter) (w : World)
    (type : UspEndpointType) (mode : UspRecognitionMode) (url : string)
    (auth : string * UspAuthenticationType) (language id : string) :
  site_present w = true ->
  m_handle a = INVALID_USP_HANDLE ->
  GetUspEndpointType P (a, w) = (Returned type, (a, w)) ->
  GetUspRecoMode P (a, w) = (Returned mode, (a, w)) ->
  GetUspCustomEndpoint P (a, w) = (Returned url, (a, w)) ->
  GetUspAuthenticationData P (a, w) = (Returned auth, (a, w)) ->
  GetUspLanguage P (a, w) = (Returned language, (a, w)) ->
  GetUspModelId P (a, w) = (Returned id, (a, w)) ->
  let h := usp_handle_out P (usp_calls w ++ [init_call type mode url]) in
  let result := make_calls P (usp_calls w)
                  (init_calls type mode url auth language id h) in
  Init P (a, w)
  = match fst result with
    | None => (Returned tt, (set_handle h a, with_calls (snd result) [] w))
    | Some hr =>
        (Thrown hr, (set_handle h a, with_calls (snd result) (dump_file w) w))
    end.
Proof.
  intros Hs Hh Htype Hmode Hurl Hauth Hlang Hid h result.
  unfold Init.
  rewrite (bind_returned get_world _ (a, w) (a, w) w) by reflexivity.
  rewrite Hs. unfold SPX_IFTRUE_THROW_HR at 1. cbn [negb].
  rewrite (bind_returned (ret tt) _ (a, w) (a, w) tt) by reflexivity.
  rewrite (bind_returned get_this _ (a, w) (a, w) a) by reflexivity.
  unfold IsUspHandleValid, SPX_IFTRUE_THROW_HR. rewrite Hh.
  cbn [Z.eqb INVALID_USP_HANDLE Pos.eqb negb].
  rewrite (bind_returned (ret tt) _ (a, w) (a, w) tt) by reflexivity.
  set (c0 := init_call type mode url) in *.
  set (a1 := set_handle h a).
  enough (Huinit :
    UspInitialize P (a, w)
    = match fst result with
      | None => (Returned tt, (a1, with_calls (snd result) (dump_file w) w))
      | Some hr => (Thrown hr, (a1, with_calls (snd result) (dump_file w) w))
      end).
  { destruct (fst result) as [hr|].
    - apply (bind_thrown _ _ _ _ _ Huinit).
    - rewrite (bind_returned _ _ _ _ _ Huinit). reflexivity. }
  assert (Hopen :
    (if is_endpoint_unknown type
     then bind (GetUspCustomEndpoint P) (fun url => call_usp P (UspInitByUrl url))
     else bind (GetUspRecoMode P) (fun mode => call_usp P (UspInit type mode)))
      (a, w)
    = (Returned (usp_result P (usp_calls w) c0), (a, log_usp_call c0 w))).
  { unfold c0, init_call.
    destruct (is_endpoint_unknown type).
    - rewrite (bind_returned _ _ _ _ _ Hurl). reflexivity.
    - rewrite (bind_returned _ _ _ _ _ Hmode). reflexivity. }
  unfold UspInitialize.
  rewrite (bind_returned _ _ _ _ _ Htype).
  rewrite (bind_returned _ _ _ _ _ Hopen).
  rewrite (bind_returned get_world _ (a, log_usp_call c0 w)
             (a, log_usp_call c0 w) (log_usp_call c0 w)) by reflexivity.
  rewrite (bind_returned (modify_this _) _ (a, log_usp_call c0 w)
             (a1, log_usp_call c0 w) tt) by reflexivity.
  unfold result, init_calls. fold c0.
  cbn [app make_calls].
  unfold SPX_IFFAILED_THROW_HR at 1.
  destruct (SPX_FAILED (usp_result P (usp_calls w) c0)) eqn:F0.
  { reflexivity. }
  rewrite (bind_returned (ret tt) _ _ _ tt) by reflexivity.
  erewrite (bind_returned (GetUspAuthenticationData P))
    by getter_frame Hauth.
  rewrite (bind_returned get_this _ (a1, log_usp_call c0 w)
             (a1, log_usp_call c0 w) a1) by reflexivity.
  change (m_handle a1) with h.
  init_steps Hlang Hid.
Qed.

Lemma Init_stops_at_first_failure_witness :
  Init refusing_platform
    (CSpxUspRecoEngineAdapter true 100, world_with keyed_properties)
  = (Thrown 5,
     (set_handle 1 (CSpxUspRecoEngineAdapter true 100),
      with_calls [UspInit USP_ENDPOINT_BING_SPEECH USP_RECO_MODE_UNKNOWN] []
        (world_with keyed_properties))).
Proof.
  set (a := CSpxUspRecoEngineAdapter true 100).
  set (w := world_with keyed_properties).
  assert (H1 : GetUspEndpointType refusing_platform (a, w)
               = (Returned USP_ENDPOINT_BING_SPEECH, (a, w)))
    by (vm_compute; reflexivity).
  assert (H2 : GetUspRecoMode refusing_platform (a, w)
               = (Returned USP_RECO_MODE_UNKNOWN, (a, w)))
    by (vm_compute; reflexivity).
  assert (H3 : GetUspCustomEndpoint refusing_platform (a, w)
               = (Returned EmptyString, (a, w)))
    by (vm_compute; reflexivity).
  assert (H4 : GetUspAuthenticationData refusing_platform (a, w)
               = (Returned ("k0"%string, USP_AUTHENTICATION_SUBSCRIPTION_KEY),
                  (a, w)))
    by (vm_compute; reflexivity).
  assert (H5 : GetUspLanguage refusing_platform (a, w)
               = (Returned "en-US"%string, (a, w)))
    by (vm_compute; reflexivity).
  assert (H6 : GetUspModelId refusing_platform (a, w)
               = (Returned EmptyString, (a, w)))
    by (vm_compute; reflexivity).
  rewrite (Init_stops_at_first_failure refusing_platform a w _ _ _ _ _ _
             eq_refl eq_refl H1 H2 H3 H4 H5 H6).
  reflexivity.
Defined.

Lemma audio_blocks_app (l l' : list UspCall) :
  audio_blocks (l ++ l') = audio_blocks l ++ audio_blocks l'.
Proof.
  induction l as [|c l IH]; [reflexivity|].
  destruct c; simpl; rewrite IH; reflexivity.
Qed.

(** X7.  [Term] makes exactly one call into the USP library, [UspClose] on
    the handle held, and sends no audio: bytes still in the accumulation
    buffer are neither sent nor discarded, and the buffer stays
    allocated.  If the close fails [Term] throws the close's code with
    the adapter as it was; if it succeeds the handle is reset to the
    invalid handle, which is done before the dump file is closed. *)
Theorem Term_closes_without_flushing (P : Platform) (a : Adapter) (w : World) :
  let hr := usp_result P (usp_calls w) (UspClose (m_handle a)) in
  let r := Term P (a, w) in
  usp_calls (world_of r) = usp_calls w ++ [UspClose (m_handle a)]
  /\ audio_blocks (usp_calls (world_of r)) = audio_blocks (usp_calls w)
  /\ m_buffer (adapter_of r) = m_buffer a
  /\ retained_bytes (adapter_of r) = retained_bytes a
  /\ (hr = SPX_NOERROR -> m_handle (adapter_of r) = INVALID_USP_HANDLE)
  /\ (hr <> SPX_NOERROR ->
      outcome_of r = Thrown hr /\ adapter_of r = a).
Proof.
  intros hr r. unfold r. rewrite Term_run. cbv zeta. fold hr.
  unfold SPX_FAILED.
  destruct (Z.eqb_spec hr SPX_NOERROR) as [E | E]; cbn [negb];
    unfold outcome_of, adapter_of, world_of; cbn [fst snd];
    unfold log_usp_call; cbn [usp_calls];
    rewrite audio_blocks_app, app_nil_r;
    repeat split; try reflexivity; congruence.
Qed.

Lemma Term_closes_without_flushing_witness :
  let a := mkAdapter 1 true 100 2 (Some [x01; x00]) 2 (Some 1) 1 in
  let r := Term plain_platform (a, world_with ∅) in
  m_handle (adapter_of r) = INVALID_USP_HANDLE
  /\ retained_bytes (adapter_of r) = [x01]
  /\ usp_calls (world_of r) = [UspClose 1].
Proof.
  intros a r.
  pose proof (Term_closes_without_flushing plain_platform a (world_with ∅)) as H.
  cbv zeta in H. destruct H as (Hc & _ & _ & Hr & Hok & _).
  split; [exact (Hok eq_refl)|]. split; [exact Hr | exact Hc].
Defined.

(** X8.  [SetFormat] on an adapter without a valid handle, before [Init] or
    after [Term], throws [SPXERR_UNINITIALIZED] for a format and for the
    null format alike, calls nothing and changes nothing; [ProcessAudio]
    makes no such check and hands the invalid handle to the write. *)
Theorem SetFormat_needs_handle (P : Platform) (a : Adapter) (w : World)
    (pformat : option WAVEFORMATEX) (data : list byte) (size : Z) :
  m_handle a = INVALID_USP_HANDLE ->
  SetFormat P pformat (a, w) = (Thrown (SPXERR_UNINITIALIZED P), (a, w))
  /\ ProcessAudio P data size (a, w)
     = UspWrite P INVALID_USP_HANDLE data size (a, w).
Proof.
  intros Hh. split.
  - unfold SetFormat, bind, get_this, SPX_IFTRUE_THROW_HR, IsUspHandleValid.
    simpl. rewrite Hh. reflexivity.
  - unfold ProcessAudio, bind, get_this. simpl. rewrite Hh. reflexivity.
Qed.

Lemma SetFormat_needs_handle_witness :
  let s := (CSpxUspRecoEngineAdapter true 100, world_with ∅) in
  SetFormat plain_platform (Some pcm_16k) s = (Thrown 1, s)
  /\ usp_calls (world_of (ProcessAudio plain_platform [x01] 1 s))
     = [UspWriteAudio INVALID_USP_HANDLE [x01]].
Proof.
  intros s.
  destruct (SetFormat_needs_handle plain_platform
              (CSpxUspRecoEngineAdapter true 100) (world_with ∅)
              (Some pcm_16k) [x01] 1 eq_refl) as [H1 H2].
  split; [exact H1|]. unfold s. rewrite H2. reflexivity.
Defined.


(* ------------------------------------------------------------------ *)
(** ** Writes that stay within the buffer *)

Lemma memcpy_exact (mem src : list byte) (off k : Z) :
  0 <= off -> 0 <= k <= Z.of_nat (length src) ->
  off + k <= Z.of_nat (length mem) ->
  memcpy mem off src k
  = Some (take (Z.to_nat off) mem ++ take (Z.to_nat k) src
          ++ drop (Z.to_nat (off + k)) mem).
Proof.
  intros Ho Hk Hm. unfold memcpy.
  replace ((0 <=? off) && (0 <=? k) && (k <=? Z.of_nat (length src))
           && (off + k <=? Z.of_nat (length mem))) with true
    by (symmetry; repeat (apply andb_true_intro; split); apply Z.leb_le; lia).
  reflexivity.
Qed.

Lemma take_written (mem src : list byte) (off k : Z) :
  0 <= off -> 0 <= k <= Z.of_nat (length src) ->
  off + k <= Z.of_nat (length mem) ->
  take (Z.to_nat (off + k))
       (take (Z.to_nat off) mem ++ take (Z.to_nat k) src
        ++ drop (Z.to_nat (off + k)) mem)
  = take (Z.to_nat off) mem ++ take (Z.to_nat k) src.
Proof.
  intros Ho Hk Hm. rewrite app_assoc.
  rewrite take_app_length'; [reflexivity|].
  rewrite length_app, !length_take. lia.
Qed.

Lemma written_length (mem src : list byte) (off k : Z) :
  0 <= off -> 0 <= k <= Z.of_nat (length src) ->
  off + k <= Z.of_nat (length mem) ->
  length (take (Z.to_nat off) mem ++ take (Z.to_nat k) src
          ++ drop (Z.to_nat (off + k)) mem)
  = length mem.
Proof.
  intros Ho Hk Hm. rewrite !length_app, !length_take, length_drop. lia.
Qed.

(** A buffered write that leaves room: nothing is sent, the bytes land at
    the cursor. *)
Lemma UspWrite_Buffered_fits P handle data n h ub ms size mem cap left w :
  0 < cap < 2 ^ 64 -> Z.of_nat (length mem) = cap -> 0 <= left <= cap ->
  0 < n <= Z.of_nat (length data) -> n < left ->
  UspWrite_Buffered P handle data n
    (mkAdapter h ub ms size (Some mem) cap (Some (cap - left)) left, w)
  = (Returned tt,
     (mkAdapter h ub ms size
        (Some (take (Z.to_nat (cap - left)) mem ++ take (Z.to_nat n) data
               ++ drop (Z.to_nat (cap - left + n)) mem))
        cap (Some (cap - (left - n))) (left - n), w)).
Proof.
  intros Hcap Hmem Hleft Hn Hfit.
  erewrite UspWrite_Buffered_allocated by reflexivity.
  replace (n =? 0) with false by (symmetry; apply Z.eqb_neq; lia).
  rewrite loop_step.
  rewrite (pass_copy P handle data n h ub ms size mem cap (cap - left) left w
             (take (Z.to_nat (cap - left)) mem ++ take (Z.to_nat n) data
              ++ drop (Z.to_nat (cap - left + n)) mem) n);
    [ | lia | | lia | apply memcpy_exact; lia ].
  2:{ replace (left =? 0) with false by (symmetry; apply Z.eqb_neq; lia).
      apply andb_false_r. }
  rewrite !size_sub_small by lia. rewrite Z.sub_diag.
  rewrite loop_step, pass_break.
  2:{ replace (left - n =? 0) with false by (symmetry; apply Z.eqb_neq; lia).
      apply andb_false_r. }
  do 4 f_equal. lia.
Qed.

(** A buffered write that fills the buffer to the brim: the whole buffer
    is sent in one block and the cursor returns to the start. *)
Lemma UspWrite_Buffered_fills P handle data n h ub ms size mem cap left w :
  0 < cap < 2 ^ 64 -> Z.of_nat (length mem) = cap -> 0 <= left <= cap ->
  0 < n <= Z.of_nat (length data) -> n = left ->
  accepts_audio P handle ->
  let mem' := take (Z.to_nat (cap - left)) mem ++ take (Z.to_nat n) data in
  UspWrite_Buffered P handle data n
    (mkAdapter h ub ms size (Some mem) cap (Some (cap - left)) left, w)
  = (Returned tt,
     (mkAdapter h ub ms size (Some mem') cap (Some 0) cap,
      after_audio w handle mem' cap)).
Proof.
  intros Hcap Hmem Hleft Hn Hfill Hacc mem'. subst left.
  assert (Hl' : Z.of_nat (length mem') = cap).
  { unfold mem'. rewrite length_app, !length_take. lia. }
  assert (Hm : memcpy mem (cap - n) data n = Some mem').
  { rewrite memcpy_exact by lia. unfold mem'.
    replace (cap - n + n) with cap by lia.
    rewrite (drop_ge mem) by lia. rewrite app_nil_r. reflexivity. }
  erewrite UspWrite_Buffered_allocated by reflexivity.
  replace (n =? 0) with false by (symmetry; apply Z.eqb_neq; lia).
  rewrite loop_step.
  rewrite (pass_copy P handle data n h ub ms size mem cap (cap - n) n w mem' n);
    [ | lia | | lia | assumption ].
  2:{ replace (n =? 0) with false by (symmetry; apply Z.eqb_neq; lia).
      apply andb_false_r. }
  rewrite !size_sub_small by lia. rewrite Z.sub_diag.
  rewrite loop_step.
  rewrite pass_break_full;
    [ | lia | apply accepted_audio_hr; [assumption | rewrite size_sub_small; lia] ].
  rewrite size_sub_small by lia. rewrite Z.sub_0_r. reflexivity.
Qed.

Lemma UspWrite_Buffered_ready P handle data n a w :
  n <> 0 ->
  UspWrite_Buffered P handle data n (a, w)
  = UspWrite_Buffered P handle data n (ready_buffer a, w).
Proof.
  intros Hn. unfold ready_buffer.
  destruct (m_buffer a) as [mem|] eqn:Hb; cbn [is_nullptr]; [reflexivity|].
  rewrite UspWrite_Buffered_fresh by assumption.
  erewrite UspWrite_Buffered_allocated by reflexivity. reflexivity.
Qed.

Lemma ready_buffer_shape a :
  buffer_consistent a -> 0 < m_servicePreferedBufferSize a < 2 ^ 64 ->
  exists mem cap left,
    ready_buffer a
    = mkAdapter (m_handle a) (m_fUseBufferedImplementation a)
        (m_servicePreferedMilliseconds a) (m_servicePreferedBufferSize a)
        (Some mem) cap (Some (cap - left)) left
    /\ 0 < cap < 2 ^ 64 /\ Z.of_nat (length mem) = cap /\ 0 <= left <= cap
    /\ retained_bytes a = take (Z.to_nat (cap - left)) mem.
Proof.
  intros Hc Hsize. destruct a as [h ub ms size [mem|] cap ptr left].
  - unfold buffer_consistent in Hc. simpl in Hc.
    destruct Hc as (Hcap & Hmem & Hleft & Hptr). subst ptr.
    exists mem, cap, left. unfold ready_buffer. simpl.
    repeat split; try lia.
    unfold retained_bytes, bytes_retained. simpl.
    rewrite size_sub_small by lia. reflexivity.
  - simpl in Hsize.
    exists (SpxAllocSharedUint8Buffer size), size, size.
    unfold ready_buffer, allocate_buffer. simpl.
    repeat split; try lia.
    + do 2 f_equal. lia.
    + unfold SpxAllocSharedUint8Buffer. rewrite length_replicate. lia.
    + unfold retained_bytes. simpl. rewrite Z.sub_diag. simpl.
      rewrite take_0, take_nil. reflexivity.
Qed.

Lemma ProcessAudio_buffered P data n a w :
  m_fUseBufferedImplementation a = true ->
  m_servicePreferedBufferSize a <> 0 -> n <> 0 ->
  ProcessAudio P data n (a, w)
  = UspWrite_Buffered P (m_handle a) data n (ready_buffer a, w).
Proof.
  intros Hu Hs Hn. unfold ProcessAudio, bind, get_this. cbn [fst].
  rewrite UspWrite_buffered by assumption.
  apply UspWrite_Buffered_ready. assumption.
Qed.

(** X9.  With buffering in effect, a write that is shorter than the room left
    in the accumulation buffer sends nothing: its bytes are appended, in
    order, to the bytes already held, the world is untouched and the
    capacity stays the same. *)
Theorem write_within_buffer_appends (P : Platform) (a : Adapter) (w : World)
    (data : list byte) (n : Z) :
  m_fUseBufferedImplementation a = true ->
  0 < m_servicePreferedBufferSize a < 2 ^ 64 ->
  buffer_consistent a ->
  0 < n <= Z.of_nat (length data) ->
  n < m_bytesLeftInBuffer (ready_buffer a) ->
  let r := ProcessAudio P data n (a, w) in
  outcome_of r = Returned tt
  /\ world_of r = w
  /\ retained_bytes (adapter_of r)
     = retained_bytes a ++ take (Z.to_nat n) data
  /\ m_bytesLeftInBuffer (adapter_of r)
     = m_bytesLeftInBuffer (ready_buffer a) - n
  /\ capacity (adapter_of r) = capacity a
  /\ buffer_consistent (adapter_of r).
Proof.
  intros Hu Hsize Hc Hn Hfit r.
  destruct (ready_buffer_shape a Hc Hsize)
    as (mem & cap & left & Hshape & Hcap & Hmem & Hleft & Hret).
  assert (Hcapa : capacity a = cap).
  { unfold capacity. unfold ready_buffer in Hshape.
    destruct (m_buffer a); cbn [is_nullptr] in Hshape.
    - rewrite Hshape. reflexivity.
    - unfold allocate_buffer in Hshape. injection Hshape as _ E _ _. exact E. }
  unfold r. rewrite ProcessAudio_buffered by (assumption || lia).
  rewrite Hshape in *. cbn [m_bytesLeftInBuffer] in *.
  rewrite UspWrite_Buffered_fits by assumption.
  unfold outcome_of, world_of, adapter_of. cbn [fst snd].
  split; [reflexivity|]. split; [reflexivity|]. split.
  { rewrite Hret. unfold retained_bytes, bytes_retained. simpl.
    rewrite size_sub_small by lia.
    replace (cap - (left - n)) with (cap - left + n) by lia.
    rewrite take_written by lia. reflexivity. }
  split; [reflexivity|]. split; [symmetry; exact Hcapa|].
  unfold buffer_consistent. simpl.
  rewrite written_length by lia. repeat split; lia.
Qed.

Lemma write_within_buffer_appends_witness :
  let a := mkAdapter 1 true 100 4 (Some [x01; x00; x00; x00]) 4 (Some 1) 3 in
  let r := ProcessAudio plain_platform [x02; x03] 2 (a, world_with ∅) in
  outcome_of r = Returned tt
  /\ world_of r = world_with ∅
  /\ retained_bytes (adapter_of r) = [x01; x02; x03].
Proof.
  intros a r.
  assert (Hc : buffer_consistent a).
  { unfold buffer_consistent. simpl. repeat split; lia. }
  assert (Hsize : 0 < m_servicePreferedBufferSize a < 2 ^ 64) by (simpl; lia).
  assert (Hn : 0 < 2 <= Z.of_nat (length [x02; x03])) by (simpl; lia).
  assert (Hfit : 2 < m_bytesLeftInBuffer (ready_buffer a)) by (simpl; lia).
  pose proof (write_within_buffer_appends plain_platform a (world_with ∅)
                [x02; x03] 2 eq_refl Hsize Hc Hn Hfit) as H.
  cbv zeta in H. destruct H as (H1 & H2 & H3 & _).
  split; [exact H1|]. split; [exact H2 | exact H3].
Defined.

(** X10.  With buffering in effect, a write that exactly takes up the room left
    in the accumulation buffer causes exactly one send, of the bytes
    already held followed by the bytes written, and leaves the buffer
    allocated and empty. *)
Theorem write_filling_buffer_sends_it (P : Platform) (a : Adapter) (w : World)
    (data : list byte) (n : Z) :
  m_fUseBufferedImplementation a = true ->
  0 < m_servicePreferedBufferSize a < 2 ^ 64 ->
  buffer_consistent a ->
  0 < n <= Z.of_nat (length data) ->
  n = m_bytesLeftInBuffer (ready_buffer a) ->
  accepts_audio P (m_handle a) ->
  let r := ProcessAudio P data n (a, w) in
  outcome_of r = Returned tt
  /\ usp_calls (world_of r)
     = usp_calls w
       ++ [UspWriteAudio (m_handle a)
             (retained_bytes a ++ take (Z.to_nat n) data)]
  /\ retained_bytes (adapter_of r) = []
  /\ buffer_empty (adapter_of r)
  /\ capacity (adapter_of r) = capacity a
  /\ buffer_consistent (adapter_of r).
Proof.
  intros Hu Hsize Hc Hn Hfill Hacc r.
  destruct (ready_buffer_shape a Hc Hsize)
    as (mem & cap & left & Hshape & Hcap & Hmem & Hleft & Hret).
  assert (Hcapa : capacity a = cap).
  { unfold capacity. unfold ready_buffer in Hshape.
    destruct (m_buffer a); cbn [is_nullptr] in Hshape.
    - rewrite Hshape. reflexivity.
    - unfold allocate_buffer in Hshape. injection Hshape as _ E _ _. exact E. }
  unfold r. rewrite ProcessAudio_buffered by (assumption || lia).
  rewrite Hshape in *. cbn [m_bytesLeftInBuffer] in *.
  rewrite UspWrite_Buffered_fills by assumption.
  set (mem' := take (Z.to_nat (cap - left)) mem ++ take (Z.to_nat n) data).
  assert (Hl' : Z.of_nat (length mem') = cap).
  { unfold mem'. rewrite length_app, !length_take. lia. }
  unfold outcome_of, world_of, adapter_of. cbn [fst snd].
  split; [reflexivity|]. split.
  { rewrite after_audio_calls. rewrite take_ge by lia.
    unfold mem'. rewrite Hret. reflexivity. }
  split.
  { unfold retained_bytes, bytes_retained. simpl.
    rewrite size_sub_small by lia. rewrite Z.sub_diag. reflexivity. }
  split.
  { unfold buffer_empty. simpl. repeat split; assumption. }
  split; [symmetry; exact Hcapa|].
  unfold buffer_consistent. simpl. repeat split; try lia. f_equal. lia.
Qed.

Lemma write_filling_buffer_sends_it_witness :
  let a := mkAdapter 1 true 100 4 (Some [x01; x00; x00; x00]) 4 (Some 1) 3 in
  let r := ProcessAudio plain_platform [x02; x03; x04] 3 (a, world_with ∅) in
  outcome_of r = Returned tt
  /\ usp_calls (world_of r) = [UspWriteAudio 1 [x01; x02; x03; x04]]
  /\ retained_bytes (adapter_of r) = [].
Proof.
  intros a r.
  assert (Hc : buffer_consistent a).
  { unfold buffer_consistent. simpl. repeat split; lia. }
  assert (Hsize : 0 < m_servicePreferedBufferSize a < 2 ^ 64) by (simpl; lia).
  assert (Hn : 0 < 3 <= Z.of_nat (length [x02; x03; x04])) by (simpl; lia).
  pose proof (write_filling_buffer_sends_it plain_platform a (world_with ∅)
                [x02; x03; x04] 3 eq_refl Hsize Hc Hn eq_refl
                (plain_platform_accepts 1)) as H.
  cbv zeta in H. destruct H as (H1 & H2 & H3 & _).
  split; [exact H1|]. split; [exact H2 | exact H3].
Defined.

Lemma write_all_fits P h ms size cap w (chunks : list (list byte)) :
  forall mem left,
    0 < cap < 2 ^ 64 -> size <> 0 ->
    Z.of_nat (length mem) = cap -> 0 <= left <= cap ->
    Forall (fun chunk => chunk <> []) chunks ->
    Z.of_nat (length (concat chunks)) < left ->
    exists mem',
      write_all P chunks
        (mkAdapter h true ms size (Some mem) cap (Some (cap - left)) left, w)
      = (Returned tt,
         (mkAdapter h true ms size (Some mem') cap
            (Some (cap - (left - Z.of_nat (length (concat chunks)))))
            (left - Z.of_nat (length (concat chunks))), w))
      /\ Z.of_nat (length mem') = cap
      /\ take (Z.to_nat (cap - (left - Z.of_nat (length (concat chunks))))) mem'
         = take (Z.to_nat (cap - left)) mem ++ concat chunks.
Proof.
  induction chunks as [|chunk rest IH]; intros mem left Hcap Hsize Hmem Hleft
    Hne Htot.
  - exists mem. simpl. rewrite Z.sub_0_r, app_nil_r.
    repeat split; assumption.
  - apply Forall_cons in Hne as [Hc Hrest].
    simpl in Htot. rewrite length_app in Htot.
    assert (Hn : 0 < Z.of_nat (length chunk)).
    { destruct chunk; [congruence | simpl; lia]. }
    set (n := Z.of_nat (length chunk)) in *.
    set (mem1 := take (Z.to_nat (cap - left)) mem ++ take (Z.to_nat n) chunk
                 ++ drop (Z.to_nat (cap - left + n)) mem).
    assert (Hl1 : Z.of_nat (length mem1) = cap).
    { unfold mem1. rewrite written_length by lia. assumption. }
    destruct (IH mem1 (left - n)) as (mem' & Hrun & Hl' & Htake);
      try assumption; try lia.
    exists mem'. simpl. fold n. unfold bind.
    rewrite ProcessAudio_buffered by (try reflexivity; simpl; lia).
    unfold ready_buffer. cbn [m_buffer is_nullptr m_handle].
    rewrite UspWrite_Buffered_fits by lia. fold mem1.
    rewrite Hrun, length_app.
    replace (left - n - Z.of_nat (length (concat rest)))
      with (left - Z.of_nat (length chunk + length (concat rest))) in * by lia.
    split; [reflexivity|]. split; [assumption|].
    rewrite Htake. unfold mem1.
    replace (cap - (left - n)) with (cap - left + n) by lia.
    rewrite take_written by lia.
    rewrite (take_ge chunk) by (unfold n; lia).
    rewrite <- app_assoc. reflexivity.
Qed.

Lemma retained_bytes_ready a :
  buffer_consistent a -> 0 < m_servicePreferedBufferSize a < 2 ^ 64 ->
  retained_bytes (ready_buffer a) = retained_bytes a.
Proof.
  intros Hc Hsize.
  destruct (ready_buffer_shape a Hc Hsize)
    as (mem & cap & left & Hshape & Hcap & Hmem & Hleft & Hret).
  rewrite Hret, Hshape. unfold retained_bytes, bytes_retained. simpl.
  rewrite size_sub_small by lia. reflexivity.
Qed.

(** X11.  With buffering in effect, as long as the non-empty writes made total
    less than the room left in the buffer, none of them sends anything and
    the flush that follows sends, in one block, the bytes held before
    followed by all the written bytes in the order they were written, then
    releases the buffer. *)
Theorem short_writes_then_flush_keep_order (P : Platform) (a : Adapter)
    (w : World) (chunks : list (list byte)) :
  m_fUseBufferedImplementation a = true ->
  0 < m_servicePreferedBufferSize a < 2 ^ 64 ->
  buffer_consistent a ->
  m_handle a <> INVALID_USP_HANDLE ->
  accepts_audio P (m_handle a) ->
  Forall (fun chunk => chunk <> []) chunks ->
  Z.of_nat (length (concat chunks)) < m_bytesLeftInBuffer (ready_buffer a) ->
  let r1 := write_all P chunks (a, w) in
  let r2 := SetFormat P None (state_of r1) in
  outcome_of r1 = Returned tt
  /\ world_of r1 = w
  /\ retained_bytes (adapter_of r1) = retained_bytes a ++ concat chunks
  /\ outcome_of r2 = Returned tt
  /\ usp_calls (world_of r2)
     = usp_calls w
       ++ [UspWriteAudio (m_handle a) (retained_bytes a ++ concat chunks)]
  /\ m_buffer (adapter_of r2) = None.
Proof.
  intros Hu Hsize Hc Hh Hacc Hne Htot r1 r2.
  destruct (ready_buffer_shape a Hc Hsize)
    as (mem & cap & left & Hshape & Hcap & Hmem & Hleft & Hret).
  rewrite Hshape in Htot. cbn [m_bytesLeftInBuffer] in Htot.
  assert (Hflush : forall a1,
    m_handle a1 = m_handle a -> buffer_consistent a1 ->
    0 < m_servicePreferedBufferSize a1 < 2 ^ 64 ->
    let r := SetFormat P None (a1, w) in
    outcome_of r = Returned tt
    /\ usp_calls (world_of r)
       = usp_calls w ++ [UspWriteAudio (m_handle a) (retained_bytes a1)]
    /\ m_buffer (adapter_of r) = None).
  { intros a1 Hh1 Hc1 Hs1 r. unfold r.
    rewrite SetFormat_flush by congruence.
    rewrite UspWrite_Buffered_zero.
    destruct (ready_buffer_shape a1 Hc1 Hs1)
      as (m1 & c1 & l1 & Hshape1 & Hcap1 & Hmem1 & Hleft1 & Hret1).
    rewrite accepted_audio_hr.
    - unfold outcome_of, world_of, adapter_of. cbn [fst snd].
      rewrite after_audio_calls, Hh1.
      rewrite <- (retained_bytes_ready a1 Hc1 Hs1).
      repeat split; reflexivity.
    - rewrite Hh1. assumption.
    - rewrite Hshape1. unfold bytes_retained. simpl.
      rewrite size_sub_small by lia. lia. }
  destruct chunks as [|chunk rest].
  - (* no write at all *)
    unfold r2, r1. simpl. unfold state_of, ret. cbn [snd].
    rewrite app_nil_r.
    destruct (Hflush a eq_refl Hc Hsize) as (F1 & F2 & F3).
    repeat split; assumption.
  - assert (Hn : Z.of_nat (length chunk) <> 0).
    { apply Forall_cons in Hne as [Hne0 _].
      destruct chunk; [congruence | simpl; lia]. }
    rewrite Hu in Hshape.
    destruct (write_all_fits P (m_handle a) (m_servicePreferedMilliseconds a)
                (m_servicePreferedBufferSize a) cap w (chunk :: rest) mem left)
      as (mem' & Hrun & Hl' & Htake); try assumption; try lia.
    assert (Hr1 : r1 = write_all P (chunk :: rest) (ready_buffer a, w)).
    { unfold r1. simpl. unfold bind.
      rewrite !ProcessAudio_buffered by (try assumption; try lia;
        rewrite ?Hshape; simpl; lia).
      replace (ready_buffer (ready_buffer a)) with (ready_buffer a)
        by (rewrite Hshape; reflexivity).
      replace (m_handle (ready_buffer a)) with (m_handle a)
        by (rewrite Hshape; reflexivity).
      reflexivity. }
    rewrite Hshape, Hrun in Hr1.
    set (total := Z.of_nat (length (concat (chunk :: rest)))) in *.
    set (a1 := mkAdapter (m_handle a) true (m_servicePreferedMilliseconds a)
                 (m_servicePreferedBufferSize a) (Some mem') cap
                 (Some (cap - (left - total))) (left - total)) in *.
    assert (Hc1 : buffer_consistent a1).
    { unfold buffer_consistent, a1. simpl. repeat split; lia. }
    assert (Hret1 : retained_bytes a1 = retained_bytes a ++ concat (chunk :: rest)).
    { rewrite Hret, <- Htake. unfold retained_bytes, bytes_retained, a1. simpl.
      rewrite size_sub_small by lia. reflexivity. }
    destruct (Hflush a1 eq_refl Hc1 Hsize) as (F1 & F2 & F3).
    unfold r2. rewrite Hr1. unfold outcome_of, world_of, adapter_of, state_of.
    cbn [fst snd].
    rewrite <- Hret1.
    repeat split; try reflexivity; assumption.
Qed.

Lemma short_writes_then_flush_keep_order_witness :
  let a := mkAdapter 1 true 100 8 None 0 None 0 in
  let r1 := write_all plain_platform [[x01]; [x02; x03]] (a, world_with ∅) in
  let r2 := SetFormat plain_platform None (state_of r1) in
  usp_calls (world_of r1) = []
  /\ usp_calls (world_of r2) = [UspWriteAudio 1 [x01; x02; x03]].
Proof.
  intros a r1 r2.
  assert (Hsize : 0 < m_servicePreferedBufferSize a < 2 ^ 64) by (simpl; lia).
  assert (Hh : m_handle a <> INVALID_USP_HANDLE)
    by (unfold INVALID_USP_HANDLE; simpl; lia).
  assert (Hne : Forall (fun chunk : list byte => chunk <> [])
                  [[x01]; [x02; x03]]).
  { repeat constructor; discriminate. }
  assert (Htot : Z.of_nat (length (concat [[x01]; [x02; x03]]))
                 < m_bytesLeftInBuffer (ready_buffer a)) by (simpl; lia).
  pose proof (short_writes_then_flush_keep_order plain_platform a (world_with ∅)
                [[x01]; [x02; x03]] eq_refl Hsize I Hh
                (plain_platform_accepts 1) Hne Htot) as H.
  cbv zeta in H. destruct H as (_ & H2 & _ & _ & H5 & _).
  split.
  - change (world_of r1) with
      (world_of (write_all plain_platform [[x01]; [x02; x03]]
                   (a, world_with ∅))).
    rewrite H2. reflexivity.
  - exact H5.
Defined.

(* ------------------------------------------------------------------ *)
(** ** What every write keeps *)

Lemma mirrors_after_audio w handle buffer n :
  mirrors w -> mirrors (after_audio w handle buffer n).
Proof.
  unfold mirrors, after_audio, append_dump_file, log_usp_call. simpl.
  intros H. rewrite audio_blocks_app, concat_app, H. simpl.
  rewrite app_nil_r. reflexivity.
Qed.

Lemma same_configuration_refl a : same_configuration a a.
Proof. repeat split. Qed.

Lemma same_site_refl w : same_site w w.
Proof. repeat split. Qed.

Lemma same_site_after_audio w handle buffer n :
  same_site w (after_audio w handle buffer n).
Proof. repeat split. Qed.

(** One pass of the loop, from any state whatever. *)
Lemma pass_frame P handle buffer flush n a w :
  let r := UspWrite_Buffered_pass P handle buffer flush n (a, w) in
  same_configuration a (fst (snd r))
  /\ same_site w (snd (snd r))
  /\ (mirrors w -> mirrors (snd (snd r))).
Proof.
  cbv zeta. unfold_pass.
  destruct a as [h ub ms size buf cap ptr left]. simpl.
  destruct (flush || (0 <? cap) && (left =? 0)); simpl.
  - rewrite UspWrite_Actual_run.
    destruct (SPX_FAILED _); simpl.
    + repeat split. apply mirrors_after_audio.
    + destruct flush; simpl.
      * destruct (n =? 0); simpl.
        -- repeat split. apply mirrors_after_audio.
        -- repeat split. apply mirrors_after_audio.
      * destruct (n =? 0); simpl.
        -- repeat split. apply mirrors_after_audio.
        -- destruct buf as [mem|]; simpl;
             [|repeat split; apply mirrors_after_audio].
           destruct (memcpy mem 0 buffer (Z.min n cap)); simpl;
             repeat split; apply mirrors_after_audio.
  - destruct flush; simpl.
    + destruct (n =? 0); simpl; repeat split; trivial.
    + destruct (n =? 0); simpl; [repeat split; trivial|].
      destruct buf as [mem|]; simpl; [|repeat split; trivial].
      destruct ptr as [p|]; simpl; [|repeat split; trivial].
      destruct (memcpy mem p buffer (Z.min n left)); simpl;
        repeat split; trivial.
Qed.

Lemma same_configuration_trans a b c :
  same_configuration a b -> same_configuration b c -> same_configuration a c.
Proof.
  unfold same_configuration. intros (H1 & H2 & H3 & H4) (G1 & G2 & G3 & G4).
  repeat split; congruence.
Qed.

Lemma same_site_trans w1 w2 w3 :
  same_site w1 w2 -> same_site w2 w3 -> same_site w1 w3.
Proof.
  unfold same_site. intros (H1 & H2 & H3) (G1 & G2 & G3).
  repeat split; congruence.
Qed.

Lemma loop_frame P handle buffer flush fuel :
  forall n a w,
    let r := UspWrite_Buffered_loop P fuel handle buffer flush n (a, w) in
    same_configuration a (adapter_of r)
    /\ same_site w (world_of r)
    /\ (mirrors w -> mirrors (world_of r)).
Proof.
  induction fuel as [|fuel IH]; intros n a w; cbv zeta.
  - simpl. repeat split; trivial.
  - rewrite loop_step.
    pose proof (pass_frame P handle buffer flush n a w) as Hp.
    cbv zeta in Hp.
    destruct (UspWrite_Buffered_pass P handle buffer flush n (a, w))
      as [[[n'|]| | |] [a' w']]; cbn [fst snd] in Hp;
      destruct Hp as (Hc & Hs & Hm);
      try (unfold adapter_of, world_of; cbn [fst snd];
           split; [assumption | split; assumption]).
    destruct (IH n' a' w') as (Hc' & Hs' & Hm').
    split; [eapply same_configuration_trans; eassumption|].
    split; [eapply same_site_trans; eassumption | tauto].
Qed.

Lemma UspWrite_frame P handle data n a w :
  let r := UspWrite P handle data n (a, w) in
  same_configuration a (adapter_of r)
  /\ same_site w (world_of r)
  /\ (mirrors w -> mirrors (world_of r)).
Proof.
  cbv zeta. unfold UspWrite, bind, get_this. cbn [fst].
  destruct (UspWrite_fn a).
  - rewrite UspWrite_Actual_run.
    unfold adapter_of, world_of. cbn [fst snd].
    split; [apply same_configuration_refl|].
    split; [apply same_site_after_audio | apply mirrors_after_audio].
  - unfold UspWrite_Buffered, bind, get_this, when, modify_this. cbn [fst snd].
    destruct (m_buffer a); cbn [is_nullptr]; cbn [fst snd].
    + apply loop_frame.
    + pose proof (loop_frame P handle data (n =? 0) (S (S (Z.to_nat n))) n
                    (allocate_buffer a) w) as H.
      cbv zeta in H. destruct H as (Hc & Hs & Hm).
      split; [|split; assumption].
      eapply same_configuration_trans; [|exact Hc].
      repeat split.
Qed.

Lemma UspWrite_Buffered_frame P handle data n a w :
  let r := UspWrite_Buffered P handle data n (a, w) in
  same_configuration a (adapter_of r)
  /\ same_site w (world_of r)
  /\ (mirrors w -> mirrors (world_of r)).
Proof.
  cbv zeta.
  unfold UspWrite_Buffered, bind, get_this, when, modify_this. cbn [fst snd].
  destruct (m_buffer a); cbn [is_nullptr]; cbn [fst snd].
  - apply loop_frame.
  - pose proof (loop_frame P handle data (n =? 0) (S (S (Z.to_nat n))) n
                  (allocate_buffer a) w) as H.
    cbv zeta in H. destruct H as (Hc & Hs & Hm).
    split; [|split; assumption].
    eapply same_configuration_trans; [|exact Hc].
    repeat split.
Qed.

Lemma SetFormat_cases P a w pformat :
  SetFormat P pformat (a, w)
  = if negb (IsUspHandleValid (m_handle a))
    then (Thrown (SPXERR_UNINITIALIZED P), (a, w))
    else match pformat with
         | None => UspWrite_Buffered P (m_handle a) [] 0 (a, w)
         | Some format =>
             match UspWriteFormat_buffer P format with
             | None => (Undefined, (a, w))
             | Some (buffer, _) =>
                 bind (UspWrite P (m_handle a) buffer (cbHeader P format))
                      (fun _ => modify_this (fun a' =>
                         set_servicePreferedBufferSize
                           (preferred_buffer_size format a') a'))
                      (a, w)
             end
         end.
Proof.
  unfold SetFormat, SPX_IFTRUE_THROW_HR, UspWriteFormat, UspWrite_Flush.
  unfold bind at 1. unfold get_this at 1. cbn [fst].
  unfold bind at 1.
  destruct (negb (IsUspHandleValid (m_handle a))); [reflexivity|].
  unfold ret at 1. cbv beta iota.
  destruct pformat as [format|]; [|reflexivity].
  destruct (UspWriteFormat_buffer P format) as [[buffer ptr]|]; [|reflexivity].
  unfold bind, get_this. cbn [fst]. reflexivity.
Qed.

(** X13.  No write reaches beyond the buffer and the transport: [ProcessAudio]
    never changes the handle, the buffering switch, the millisecond target
    or the preferred buffer size, and neither it nor [SetFormat] ever
    raises a site event or touches the site's properties; [SetFormat]
    changes, of the configuration, the preferred buffer size only. *)
Theorem writes_keep_configuration_and_site (P : Platform) (a : Adapter)
    (w : World) (data : list byte) (n : Z) (pformat : option WAVEFORMATEX) :
  let r := ProcessAudio P data n (a, w) in
  let r' := SetFormat P pformat (a, w) in
  same_configuration a (adapter_of r)
  /\ same_site w (world_of r)
  /\ m_handle (adapter_of r') = m_handle a
  /\ m_fUseBufferedImplementation (adapter_of r')
     = m_fUseBufferedImplementation a
  /\ m_servicePreferedMilliseconds (adapter_of r')
     = m_servicePreferedMilliseconds a
  /\ same_site w (world_of r').
Proof.
  cbv zeta.
  assert (Hp : same_configuration a (adapter_of (ProcessAudio P data n (a, w)))
               /\ same_site w (world_of (ProcessAudio P data n (a, w)))).
  { unfold ProcessAudio, bind, get_this. cbn [fst].
    destruct (UspWrite_frame P (m_handle a) data n a w) as (H1 & H2 & _).
    split; assumption. }
  destruct Hp as [Hp1 Hp2]. split; [assumption|]. split; [assumption|].
  rewrite SetFormat_cases.
  destruct (negb (IsUspHandleValid (m_handle a)));
    [repeat split; reflexivity|].
  destruct pformat as [format|].
  - destruct (UspWriteFormat_buffer P format) as [[buffer ptr]|];
      [|repeat split; reflexivity].
    unfold bind.
    destruct (UspWrite_frame P (m_handle a) buffer (cbHeader P format) a w)
      as ((H1 & H2 & H3 & H4) & Hs & _).
    destruct (UspWrite P (m_handle a) buffer (cbHeader P format) (a, w))
      as [[[]| | |] [a' w']];
      unfold adapter_of, world_of, modify_this in *; cbn [fst snd] in *;
      repeat split; try assumption; apply Hs.
  - destruct (UspWrite_Buffered_frame P (m_handle a) [] 0 a w)
      as ((H1 & H2 & H3 & H4) & Hs & _).
    repeat split; try assumption; apply Hs.
Qed.

Lemma preferred_buffer_size_exact (pformat : WAVEFORMATEX) (a : Adapter) :
  0 <= nSamplesPerSec pformat < 2 ^ 32 -> 0 <= nBlockAlign pformat < 2 ^ 16 ->
  0 <= m_servicePreferedMilliseconds a ->
  nSamplesPerSec pformat * nBlockAlign pformat
    * m_servicePreferedMilliseconds a < 2 ^ 64 ->
  preferred_buffer_size pformat a
  = nSamplesPerSec pformat * nBlockAlign pformat
    * m_servicePreferedMilliseconds a / 1000.
Proof.
  intros Hs Hb Hm Hlt. unfold preferred_buffer_size, size_mul, to_size_t.
  set (s := nSamplesPerSec pformat) in *.
  set (b := nBlockAlign pformat) in *.
  set (m := m_servicePreferedMilliseconds a) in *.
  rewrite (Z.mod_small s) by lia.
  rewrite (Z.mod_small (s * b)) by nia.
  rewrite (Z.mod_small (s * b * m)) by nia. reflexivity.
Qed.

Lemma preferred_buffer_size_range (pformat : WAVEFORMATEX) (a : Adapter) :
  0 <= preferred_buffer_size pformat a < 2 ^ 64.
Proof.
  unfold preferred_buffer_size, size_mul, to_size_t.
  match goal with |- 0 <= ?x mod 2 ^ 64 / 1000 < _ =>
    pose proof (Z.mod_pos_bound x (2 ^ 64) ltac:(lia)) as Hb;
    set (y := x mod 2 ^ 64) in *
  end.
  split.
  - apply Z.div_pos; lia.
  - apply Z.div_lt_upper_bound; lia.
Qed.

(** X14.  The buffer size [SetFormat] stores.  If [SetFormat] with a format
    returns, the preferred buffer size is samples per second times block
    alignment times the millisecond target, divided by 1000 and rounded
    down (exactly so while the product fits 64 bits), which lies within
    [size_t]; if it does not return, because the handle is invalid or the
    header could not be sent, the preferred buffer size is what it was. *)
Theorem SetFormat_buffer_size (P : Platform) (a : Adapter) (w : World)
    (pformat : WAVEFORMATEX) :
  0 <= nSamplesPerSec pformat < 2 ^ 32 ->
  0 <= nBlockAlign pformat < 2 ^ 16 ->
  0 <= m_servicePreferedMilliseconds a ->
  nSamplesPerSec pformat * nBlockAlign pformat
    * m_servicePreferedMilliseconds a < 2 ^ 64 ->
  let r := SetFormat P (Some pformat) (a, w) in
  (outcome_of r = Returned tt ->
   m_servicePreferedBufferSize (adapter_of r)
   = nSamplesPerSec pformat * nBlockAlign pformat
     * m_servicePreferedMilliseconds a / 1000
   /\ 0 <= m_servicePreferedBufferSize (adapter_of r) < 2 ^ 64)
  /\ (outcome_of r <> Returned tt ->
      m_servicePreferedBufferSize (adapter_of r)
      = m_servicePreferedBufferSize a).
Proof.
  intros Hs Hb Hm Hlt r. unfold r. rewrite SetFormat_cases.
  destruct (negb (IsUspHandleValid (m_handle a)));
    [split; [intros H; discriminate H | reflexivity]|].
  destruct (UspWriteFormat_buffer P pformat) as [[buffer ptr]|];
    [|split; [intros H; discriminate H | reflexivity]].
  unfold bind.
  destruct (UspWrite_frame P (m_handle a) buffer (cbHeader P pformat) a w)
    as ((H1 & H2 & H3 & H4) & _ & _).
  destruct (UspWrite P (m_handle a) buffer (cbHeader P pformat) (a, w))
    as [[[]| | |] [a' w']];
    unfold outcome_of, adapter_of, modify_this in *; cbn [fst snd] in *;
    try (split; [intros H; discriminate H | intros _; assumption]).
  split; [|congruence]. intros _.
  assert (E : preferred_buffer_size pformat a' = preferred_buffer_size pformat a).
  { unfold preferred_buffer_size. rewrite H3. reflexivity. }
  rewrite E. split.
  - apply preferred_buffer_size_exact; assumption.
  - apply preferred_buffer_size_range.
Qed.

Lemma SetFormat_buffer_size_witness :
  m_servicePreferedBufferSize
    (adapter_of (SetFormat plain_platform (Some pcm_16k)
                   (initialized_adapter, world_with ∅))) = 3200
  /\ m_servicePreferedBufferSize
       (adapter_of (SetFormat failing_platform (Some pcm_16k)
                      (initialized_adapter, world_with ∅))) = 0.
Proof.
  assert (Hs : 0 <= nSamplesPerSec pcm_16k < 2 ^ 32) by (simpl; lia).
  assert (Hb : 0 <= nBlockAlign pcm_16k < 2 ^ 16) by (simpl; lia).
  assert (Hm : 0 <= m_servicePreferedMilliseconds initialized_adapter)
    by (simpl; lia).
  assert (Hlt : nSamplesPerSec pcm_16k * nBlockAlign pcm_16k
                * m_servicePreferedMilliseconds initialized_adapter < 2 ^ 64)
    by (simpl; lia).
  split.
  - destruct (SetFormat_buffer_size plain_platform initialized_adapter
                (world_with ∅) pcm_16k Hs Hb Hm Hlt) as [H _].
    destruct H as [H _]; [vm_compute; reflexivity|]. exact H.
  - destruct (SetFormat_buffer_size failing_platform initialized_adapter
                (world_with ∅) pcm_16k Hs Hb Hm Hlt) as [_ H].
    apply H. vm_compute. discriminate.
Defined.

(* ------------------------------------------------------------------ *)
(** ** Progress of the copy loop and the buffer invariant *)

(** X15.  On an adapter whose buffer state is consistent and whose preferred
    size fits [size_t], the copy loop of [ProcessAudio] with a size the
    data covers makes progress in every pass: the call does not loop for
    ever, and it leaves the buffer state consistent, whether the
    transport accepts the audio or not. *)
Theorem ProcessAudio_never_spins (P : Platform)
    (a : Adapter) (w : World) (data : list byte) (n : Z) :
  buffer_consistent a ->
  0 <= m_servicePreferedBufferSize a < 2 ^ 64 ->
  0 <= n <= Z.of_nat (length data) -> n < 2 ^ 64 ->
  let r := ProcessAudio P data n (a, w) in
  outcome_of r <> Diverges /\ buffer_consistent (adapter_of r).
Proof.
  intros Hc Hsize Hn Hn64 r.
  enough (H : returns_or_throws r /\ buffer_consistent (adapter_of r)).
  { destruct H as [[Hr | [hr Hr]] Hb];
      (split; [rewrite Hr; intros H; discriminate H | exact Hb]). }
  unfold r, ProcessAudio, bind, get_this.
  cbn [fst].
  destruct (m_fUseBufferedImplementation a) eqn:Hu.
  - destruct (Z.eq_dec (m_servicePreferedBufferSize a) 0) as [H0 | H0].
    + rewrite UspWrite_direct by (right; assumption).
      rewrite UspWrite_Actual_run.
      unfold returns_or_throws, outcome_of, adapter_of. cbn [fst snd].
      split; [|assumption].
      destruct (SPX_FAILED _); [right; eexists; reflexivity | left; reflexivity].
    + rewrite UspWrite_buffered by assumption.
      apply UspWrite_Buffered_terminates; try assumption; lia.
  - rewrite UspWrite_direct by (left; exact Hu).
    rewrite UspWrite_Actual_run.
    unfold returns_or_throws, outcome_of, adapter_of. cbn [fst snd].
    split; [|assumption].
    destruct (SPX_FAILED _); [right; eexists; reflexivity | left; reflexivity].
Qed.

Lemma ProcessAudio_never_spins_witness :
  let a := mkAdapter 1 true 100 2 None 0 None 0 in
  outcome_of (ProcessAudio failing_platform [x01; x02; x03; x04; x05] 5
                (a, world_with ∅)) <> Diverges.
Proof.
  intros a.
  assert (Hs : 0 <= m_servicePreferedBufferSize a < 2 ^ 64) by (simpl; lia).
  assert (Hn : 0 <= 5 <= Z.of_nat (length [x01; x02; x03; x04; x05]))
    by (simpl; lia).
  assert (H64 : 5 < 2 ^ 64) by lia.
  exact (proj1 (ProcessAudio_never_spins failing_platform
                  a (world_with ∅) [x01; x02; x03; x04; x05] 5 I Hs Hn H64)).
Defined.

(** X16.  Called without capacity, the buffered writer never returns: with no
    buffer allocated and a preferred size of zero, a non-empty write makes
    no progress in any number of passes.  [UspWrite] never takes that
    path: with a preferred size of zero it writes directly. *)
Theorem UspWrite_Buffered_needs_capacity (P : Platform) (handle : UspHandle)
    (a : Adapter) (w : World) (data : list byte) (n : Z) :
  m_buffer a = None -> m_servicePreferedBufferSize a = 0 ->
  0 < n < 2 ^ 64 ->
  (forall fuel,
      outcome_of (UspWrite_Buffered_loop P fuel handle data false n
                    (allocate_buffer a, w)) = Diverges)
  /\ outcome_of (UspWrite_Buffered P handle data n (a, w)) = Diverges
  /\ UspWrite P handle data n (a, w) = UspWrite_Actual P handle data n (a, w).
Proof.
  intros Hb Hs Hn.
  assert (Hspin : forall fuel,
    UspWrite_Buffered_loop P fuel handle data false n (allocate_buffer a, w)
    = (Diverges, (allocate_buffer a, w))).
  { intros fuel. unfold allocate_buffer. rewrite Hs.
    apply loop_spins_without_capacity. assumption. }
  split; [intros fuel; rewrite Hspin; reflexivity|]. split.
  - rewrite UspWrite_Buffered_fresh by assumption.
    replace (n =? 0) with false by (symmetry; apply Z.eqb_neq; lia).
    rewrite Hspin. reflexivity.
  - apply UspWrite_direct. right. assumption.
Qed.

Lemma UspWrite_Buffered_needs_capacity_witness :
  outcome_of (UspWrite_Buffered plain_platform 1 [x01] 1
                (initialized_adapter, world_with ∅)) = Diverges
  /\ outcome_of (UspWrite plain_platform 1 [x01] 1
                   (initialized_adapter, world_with ∅)) = Returned tt.
Proof.
  assert (Hn : 0 < 1 < 2 ^ 64) by lia.
  destruct (UspWrite_Buffered_needs_capacity plain_platform 1
              initialized_adapter (world_with ∅) [x01] 1 eq_refl eq_refl Hn)
    as (_ & H2 & H3).
  split; [exact H2|]. rewrite H3. reflexivity.
Defined.

(* ------------------------------------------------------------------ *)
(** ** Flushing *)

(** X17.  A flush with nothing in the buffer still calls the transport: with a
    valid handle and an empty accumulation buffer, [SetFormat] with the
    null format makes exactly one send, of an empty block.  It returns
    when the transport answers success or [USP_WRITE_AUDIO_ERROR], leaving
    no buffer allocated, and throws the transport's code otherwise. *)
Theorem flush_of_empty_buffer_sends_empty_block (P : Platform) (a : Adapter)
    (w : World) :
  m_handle a <> INVALID_USP_HANDLE ->
  buffer_empty a ->
  let hr := usp_result P (usp_calls w) (UspWriteAudio (m_handle a) []) in
  let r := SetFormat P None (a, w) in
  usp_calls (world_of r) = usp_calls w ++ [UspWriteAudio (m_handle a) []]
  /\ (hr = SPX_NOERROR \/ hr = USP_WRITE_AUDIO_ERROR P ->
      outcome_of r = Returned tt /\ m_buffer (adapter_of r) = None)
  /\ (hr <> SPX_NOERROR -> hr <> USP_WRITE_AUDIO_ERROR P ->
      outcome_of r = Thrown hr).
Proof.
  intros Hh He hr r. unfold r.
  rewrite SetFormat_flush by assumption.
  rewrite UspWrite_Buffered_zero.
  assert (Hret : bytes_retained (ready_buffer a) = 0).
  { unfold ready_buffer, bytes_retained, buffer_empty in *.
    destruct a as [h ub ms size [mem|] cap ptr left]; simpl in *.
    - destruct He as (_ & _ & Hl). subst left.
      unfold size_sub, to_size_t. rewrite Z.sub_diag. reflexivity.
    - unfold size_sub, to_size_t. rewrite Z.sub_diag. reflexivity. }
  rewrite Hret. unfold audio_hr, after_audio. cbn [Z.to_nat].
  rewrite take_0. fold hr. rewrite Z.eqb_refl. cbn [andb].
  unfold outcome_of, world_of, adapter_of. cbn [fst snd].
  split; [reflexivity|]. split.
  - intros [H0 | HE].
    + rewrite H0. destruct (SPX_NOERROR =? USP_WRITE_AUDIO_ERROR P);
        split; reflexivity.
    + rewrite HE, Z.eqb_refl. split; reflexivity.
  - intros H0 HE.
    apply Z.eqb_neq in HE. rewrite HE.
    unfold SPX_FAILED. apply Z.eqb_neq in H0. rewrite H0. reflexivity.
Qed.

Lemma flush_of_empty_buffer_sends_empty_block_witness :
  usp_calls (world_of (SetFormat plain_platform None
                         (initialized_adapter, world_with ∅)))
  = [UspWriteAudio 1 []].
Proof.
  assert (Hh : m_handle initialized_adapter <> INVALID_USP_HANDLE)
    by (unfold INVALID_USP_HANDLE; simpl; lia).
  pose proof (flush_of_empty_buffer_sends_empty_block plain_platform
                initialized_adapter (world_with ∅) Hh I) as H.
  cbv zeta in H. exact (proj1 H).
Defined.

(* ------------------------------------------------------------------ *)
(** ** Callbacks and header numbers *)

Lemma deliver_plain (messages : list UspMessage) (a : Adapter) (w : World) :
  site_present w = true ->
  reco_result_factory w = true
  \/ Forall (fun message => needs_result_factory message = false) messages ->
  deliver messages (a, w)
  = (Returned tt, (a, log_site_events (map routed_event messages) w)).
Proof.
  intros Hs [Hf | Hall]; [apply deliver_run; assumption|].
  revert w Hs. induction Hall as [|m rest Hm Hrest IH]; intros w Hs.
  - simpl. unfold ret, log_site_events. simpl. rewrite app_nil_r.
    destruct w; reflexivity.
  - simpl. unfold bind. rewrite m_callbacks_run by (try right; assumption).
    rewrite IH by assumption.
    unfold log_site_events, log_site_event. simpl.
    rewrite <- app_assoc. reflexivity.
Qed.

(** X18.  With a site attached that hands out its result factory, delivering
    any sequence of messages raises exactly one site event per message, in
    the order of delivery, and does nothing else: no call into the USP
    library, nothing written to the dump file, no change to the adapter.
    The factory is needed by hypothesis, fragment and phrase messages
    only: a sequence without them is delivered in the same way by a site
    that has no factory. *)
Theorem delivery_touches_only_the_site (a : Adapter) (w : World)
    (messages : list UspMessage) :
  site_present w = true ->
  reco_result_factory w = true
  \/ Forall (fun message => needs_result_factory message = false) messages ->
  let r := deliver messages (a, w) in
  outcome_of r = Returned tt
  /\ adapter_of r = a
  /\ usp_calls (world_of r) = usp_calls w
  /\ dump_file (world_of r) = dump_file w
  /\ named_properties (world_of r) = named_properties w
  /\ length (site_events (world_of r))
     = (length (site_events w) + length messages)%nat
  /\ drop (length (site_events w)) (site_events (world_of r))
     = map routed_event messages.
Proof.
  intros Hs Hf r. unfold r. rewrite deliver_plain by assumption.
  unfold outcome_of, adapter_of, world_of, log_site_events. cbn [fst snd].
  cbn [usp_calls dump_file named_properties site_events].
  repeat split.
  - rewrite length_app, length_map. reflexivity.
  - rewrite drop_app_length. reflexivity.
Qed.

Lemma delivery_touches_only_the_site_witness :
  let r := deliver [MsgTurnStart "tag"; MsgSpeechPhrase 0 "hello" 7 9; MsgTurnEnd]
             (initialized_adapter, world_with ∅) in
  usp_calls (world_of r) = []
  /\ length (site_events (world_of r)) = 3%nat.
Proof.
  intros r.
  pose proof (delivery_touches_only_the_site initialized_adapter (world_with ∅)
                [MsgTurnStart "tag"; MsgSpeechPhrase 0 "hello" 7 9; MsgTurnEnd]
                eq_refl (or_introl eq_refl)) as H.
  cbv zeta in H. destruct H as (_ & _ & H3 & _ & _ & H6 & _).
  split; [exact H3 | exact H6].
Defined.

(** X19.  [FormatBufferWriteNumber] writes a number that can be read back: with
    four bytes available at the pointer it returns the pointer advanced by
    four, the four bytes at the old pointer read as a little-endian number
    give the number written, and every other byte of the buffer is as it
    was; with fewer than four bytes available the write is out of
    bounds. *)
Theorem FormatBufferWriteNumber_round_trip (mem : list byte)
    (buffer number : Z) :
  0 <= buffer -> 0 <= number < 2 ^ 32 ->
  (buffer + 4 <= Z.of_nat (length mem) ->
   exists mem',
     FormatBufferWriteNumber mem buffer number = Some (mem', buffer + 4)
     /\ length mem' = length mem
     /\ little_endian_value (take 4 (drop (Z.to_nat buffer) mem')) = number
     /\ take (Z.to_nat buffer) mem' = take (Z.to_nat buffer) mem
     /\ drop (Z.to_nat (buffer + 4)) mem' = drop (Z.to_nat (buffer + 4)) mem)
  /\ (Z.of_nat (length mem) < buffer + 4 ->
      FormatBufferWriteNumber mem buffer number = None).
Proof.
  intros Hb Hn. split.
  - intros Hfit. unfold FormatBufferWriteNumber.
    rewrite memcpy_exact by (simpl; lia).
    change (take (Z.to_nat 4) (uint32_object_bytes number))
      with (uint32_object_bytes number).
    eexists. split; [reflexivity|].
    assert (Hlt : length (take (Z.to_nat buffer) mem) = Z.to_nat buffer)
      by (rewrite length_take; lia).
    split; [|split; [|split]].
    + rewrite !length_app, length_take, length_drop. simpl. lia.
    + rewrite drop_app_length' by lia.
      rewrite (take_app_length' (uint32_object_bytes number)) by reflexivity.
      apply uint32_object_bytes_little_endian. assumption.
    + rewrite take_app_length' by lia. reflexivity.
    + rewrite app_assoc. rewrite drop_app_length'; [reflexivity|].
      rewrite length_app, Hlt. simpl. lia.
  - intros Hout. unfold FormatBufferWriteNumber, memcpy.
    replace (buffer + 4 <=? Z.of_nat (length mem)) with false
      by (symmetry; apply Z.leb_gt; lia).
    rewrite andb_false_r. reflexivity.
Qed.

Lemma FormatBufferWriteNumber_round_trip_witness :
  FormatBufferWriteNumber [x00; x00; x00; x00; x00; x00] 1 3200
  = Some ([x00; x80; x0c; x00; x00; x00], 5).
Proof.
  assert (Hn : 0 <= 3200 < 2 ^ 32) by lia.
  destruct (FormatBufferWriteNumber_round_trip
              [x00; x00; x00; x00; x00; x00] 1 3200 ltac:(lia) Hn) as [H _].
  destruct H as (mem' & Hrun & _); [simpl; lia|].
  rewrite Hrun. vm_compute in Hrun. injection Hrun as <-. reflexivity.
Defined.
